(** * Temporal data integration engine of hawaii-airquality-forecasting

    A shallow embedding of [src/data_cleaner.py], [src/data_merger.py] and
    of the archive-update steps of [src/ingestion/*.py] and
    [src/utils/append_hvo.py], with the properties of the specification
    stated over it.

    Conventions of the embedding.
    - A data frame is the list of its column labels and the list of its
      rows; a row is a finite map from column label to scalar (the raw
      record of the specification: a mapping of field name to value).
      A field that a row does not carry reads as the missing value.
    - Scalars are the values a CSV file read by pandas can hold (missing,
      number, text, boolean) and UTC instants.  Numbers are integers;
      instants are integer seconds since the epoch.  The 64-bit
      nanosecond range of pandas is modelled where a conversion raises
      on leaving it ([to_datetime_s]), not in the arithmetic on
      instants (flooring, the hourly grid), which is exact.
    - pandas' conversions of a single scalar (parsing a date, parsing a
      number, printing a value) belong to the library, not to the
      repository: they are the fields of the class [Scalars] and every
      theorem holds for all of them.  Concrete evaluations use the
      instance [iso_scalars], which parses ISO dates.
    - A column has no type of its own: it is the list of the values its
      rows hold under its label.
    - A persisted archive is the frame that was written to its file;
      reading the file is the field of the class [Csv], which every
      theorem leaves open as well.
    - Exceptions are the [Raise] results of the [result] monad.
    - [sort_values] is modelled by a stable insertion sort with missing
      keys last; pandas promises no order among equal keys, and no
      theorem below depends on that order. *)

From stdpp Require Import gmap strings list fin_maps pretty sorting.
From Stdlib Require Import ZArith Lia Sorted Permutation Ascii.

Open Scope Z_scope.

(** ** Scalars, rows, frames *)

Inductive cell : Type :=
  | NA                 (* NaN / NaT / None *)
  | Num (z : Z)
  | Str (s : string)
  | Flag (b : bool)
  | Ts (t : Z).      (* UTC instant, seconds since the epoch *)

#[global] Instance cell_eq_dec : EqDecision cell.
Proof. solve_decision. Defined.

#[global] Instance cell_inhabited : Inhabited cell := populate NA.

Abbreviation Row := (gmap string cell).

Record DataFrame : Type := mkDF {
  columns : list string;
  rows : list Row
}.

(** [pd.DataFrame()] *)
Definition empty_frame : DataFrame := mkDF [] [].

(** [df.empty]: some axis has length zero. *)
Definition df_empty (df : DataFrame) : bool :=
  match columns df, rows df with
  | [], _ => true
  | _, [] => true
  | _, _ => false
  end.

(** ** Exceptions *)

(** [ValueError msg] is a [ValueError] whose text the model knows: the
    two that the normalizers raise themselves, and those of Python's
    [min]/[max] and of [pd.date_range].  The [ValueError]s pandas raises
    with a text that names the offending data are kept apart:
    [LengthMismatch] for [df.columns = names] with the wrong number of
    names, [ConversionError] for a value [pd.to_datetime(.., unit="s")]
    cannot convert. *)
Inductive exn : Type :=
  | KeyError (label : string)
  | ValueError (msg : string)
  | IndexError
  | TypeError
  | LengthMismatch
  | ConversionError.

Inductive result (A : Type) : Type :=
  | Ok (a : A)
  | Raise (e : exn).
Arguments Ok {A} a.
Arguments Raise {A} e.

#[global] Instance result_ret : MRet result := λ A a, Ok a.
#[global] Instance result_bind : MBind result := λ A B f m,
  match m with
  | Ok a => f a
  | Raise e => Raise e
  end.

Fixpoint mapR {A B : Type} (f : A → result B) (l : list A) : result (list B) :=
  match l with
  | [] => Ok []
  | x :: l' => y ← f x; ys ← mapR f l'; Ok (y :: ys)
  end.

(** pandas' conversions of one scalar. [None] from [scalar_to_datetime]
    and [scalar_to_numeric] is a value that does not parse; [None] from
    [scalar_to_epoch] is a value on which [pd.to_datetime(.., unit="s")]
    raises. *)
Class Scalars : Type := {
  scalar_to_datetime : cell → option Z;
  scalar_to_numeric : cell → option Z;
  scalar_to_epoch : cell → option Z;
  scalar_to_str : cell → string
}.

(** ** Column primitives *)

Definition has_column (c : string) (df : DataFrame) : bool :=
  bool_decide (c ∈ columns df).

(** [df[c]] *)
Definition getcol (c : string) (df : DataFrame) : result (list cell) :=
  if has_column c df then Ok ((λ r : Row, r !!! c) <$> rows df)
  else Raise (KeyError c).

(** [df[c] = f(row)], for a value computed row by row. *)
Definition assign (c : string) (f : Row → cell) (df : DataFrame) : DataFrame :=
  mkDF (if has_column c df then columns df else columns df ++ [c])
       ((λ r : Row, <[c := f r]> r) <$> rows df).

(** [df[c] = values], for a list aligned with the rows. *)
Definition assign_values (c : string) (vs : list cell) (df : DataFrame) : DataFrame :=
  mkDF (if has_column c df then columns df else columns df ++ [c])
       (zip_with (λ (r : Row) v, <[c := v]> r) (rows df) vs).

(** [df.drop(columns=cs, errors="ignore")] *)
Definition drop_columns (cs : list string) (df : DataFrame) : DataFrame :=
  mkDF (filter (λ c, c ∉ cs) (columns df))
       ((λ r : Row, foldr delete r cs) <$> rows df).

(** First label of [cs] that is not a column. *)
Definition missing_column (cs : list string) (df : DataFrame) : option string :=
  head (filter (λ c, c ∉ columns df) cs).

(** ** drop_duplicates: the first row of every key is kept *)

Section Dedup.
Context {A K : Type} `{EqDecision K} (key : A → K).

Fixpoint drop_dups (l : list A) : list A :=
  match l with
  | [] => []
  | x :: l' => x :: filter (λ y, key y ≠ key x) (drop_dups l')
  end.
End Dedup.

Definition subset_key (subset : list string) (r : Row) : list cell :=
  (λ c, r !!! c) <$> subset.

(** [df.drop_duplicates(subset=subset)] *)
Definition drop_duplicates (subset : list string) (df : DataFrame) : result DataFrame :=
  match missing_column subset df with
  | Some c => Raise (KeyError c)
  | None => Ok (mkDF (columns df) (drop_dups (subset_key subset) (rows df)))
  end.

(** [df.drop_duplicates()]: whole rows. *)
Definition drop_duplicates_all (df : DataFrame) : DataFrame :=
  mkDF (columns df) (drop_dups (subset_key (columns df)) (rows df)).

(** ** sort_values: ascending, missing keys last *)

Definition cell_time (c : cell) : option Z :=
  match c with
  | Ts t => Some t
  | _ => None
  end.

Definition time_le (a b : cell) : bool :=
  match cell_time a, cell_time b with
  | Some x, Some y => bool_decide (x ≤ y)
  | Some _, None => true
  | None, Some _ => false
  | None, None => true
  end.

Section Sort.
Context {A : Type} (le : A → A → bool).

Fixpoint insert_sorted (x : A) (l : list A) : list A :=
  match l with
  | [] => [x]
  | y :: l' => if le x y then x :: y :: l' else y :: insert_sorted x l'
  end.

Definition sort_by (l : list A) : list A := foldr insert_sorted [] l.
End Sort.

Definition row_le (c : string) (r1 r2 : Row) : bool :=
  time_le (r1 !!! c) (r2 !!! c).

(** [df.sort_values(c).reset_index(drop=True)] *)
Definition sort_values (c : string) (df : DataFrame) : result DataFrame :=
  if has_column c df then Ok (mkDF (columns df) (sort_by (row_le c) (rows df)))
  else Raise (KeyError c).

(** ** Conversions of a column, one value at a time *)

Definition HOUR : Z := 3600.

(** [.dt.floor("h")] *)
Definition floor_hour (c : cell) : cell :=
  match c with
  | Ts t => Ts (HOUR * (t / HOUR))
  | _ => c
  end.

(** [series + " "]: text is extended, a missing value stays missing, any
    other value raises. *)
Definition str_add_lit (lit : string) (c : cell) : result cell :=
  match c with
  | Str s => Ok (Str (s +:+ lit))
  | NA => Ok NA
  | _ => Raise TypeError
  end.

(** [left + right] on text columns: the sum is taken where both values
    are present. *)
Definition str_add (a b : cell) : result cell :=
  match a, b with
  | NA, _ => Ok NA
  | _, NA => Ok NA
  | Str s, Str s' => Ok (Str (s +:+ s'))
  | _, _ => Raise TypeError
  end.

(** [.fillna(v)] *)
Definition fillna (v : cell) (c : cell) : cell :=
  match c with
  | NA => v
  | _ => c
  end.

Definition notna (c : cell) : bool :=
  match c with
  | NA => false
  | _ => true
  end.

(** [a.ne(b)], one position: a missing value differs from everything. *)
Definition cell_ne (a b : cell) : bool :=
  match a, b with
  | NA, _ => true
  | _, NA => true
  | _, _ => bool_decide (a ≠ b)
  end.

(** [s.shift()] *)
Definition shift (s : list cell) : list cell :=
  match s with
  | [] => []
  | _ => NA :: removelast s
  end.

(** [s.ne(s.shift())] *)
Definition change_flags (s : list cell) : list cell :=
  zip_with (λ a b, Flag (cell_ne a b)) s (shift s).

Section Conversions.
Context `{Scalars}.

(** [pd.to_datetime(s, errors="coerce", utc=True)] *)
Definition to_datetime (c : cell) : cell :=
  match c with
  | NA => NA
  | Ts t => Ts t
  | _ => from_option Ts NA (scalar_to_datetime c)
  end.

(** The seconds on either side of the epoch that pandas holds as a
    timestamp, a 64-bit count of nanoseconds: [(2^63 - 1) // 10^9]. *)
Definition EPOCH_MAX : Z := 9223372036.

(** [pd.to_datetime(s, unit="s", utc=True)]: a number of seconds beyond
    the range of a timestamp raises ([OutOfBoundsDatetime]). *)
Definition to_datetime_s (c : cell) : result cell :=
  match c with
  | NA => Ok NA
  | Num z =>
      if bool_decide (- EPOCH_MAX ≤ z ≤ EPOCH_MAX) then Ok (Ts z)
      else Raise ConversionError
  | _ => match scalar_to_epoch c with
         | Some t => Ok (Ts t)
         | None => Raise ConversionError
         end
  end.

(** [pd.to_numeric(s, errors="coerce")] *)
Definition to_numeric (c : cell) : cell :=
  match c with
  | NA => NA
  | Num z => Num z
  | _ => from_option Num NA (scalar_to_numeric c)
  end.

(** [.astype(str)] *)
Definition astype_str (c : cell) : cell :=
  match c with
  | Str s => Str s
  | _ => Str (scalar_to_str c)
  end.
End Conversions.

(** [df.columns = names] *)
Definition set_columns (names : list string) (df : DataFrame) : result DataFrame :=
  if decide (length names = length (columns df)) then
    Ok (mkDF names
          ((λ r : Row, list_to_map (zip names (subset_key (columns df) r))) <$> rows df))
  else Raise LengthMismatch.

(** [list(df.columns)[0]] *)
Definition first_column (df : DataFrame) : result string :=
  match columns df with
  | c :: _ => Ok c
  | [] => Raise IndexError
  end.

(** [df.iloc[0, 0]] *)
Definition iloc00 (df : DataFrame) : result cell :=
  match columns df, rows df with
  | c :: _, r :: _ => Ok (r !!! c)
  | _, _ => Raise IndexError
  end.

(** [df.dropna(subset=subset, how="all")] *)
Definition dropna_all (subset : list string) (df : DataFrame) : result DataFrame :=
  match missing_column subset df with
  | Some c => Raise (KeyError c)
  | None =>
      Ok (mkDF (columns df)
            (filter (λ r : Row, existsb (λ c, notna (r !!! c)) subset = true) (rows df)))
  end.

(** ** src/data_cleaner.py *)

Section Cleaners.
Context `{Scalars}.

Definition AIRNOW_HEADER : list string :=
  ["DateObserved"; "HourObserved"; "LocalTimeZone"; "ReportingArea";
   "StateCode"; "Latitude"; "Longitude"; "ParameterName"; "AQI";
   "Category"; "DateLocal"; "HourLocal"].

Definition AIRNOW_KEY : list string :=
  ["ReportingArea"; "ParameterName"; "datetime_utc"].

(** The first statement of [clean_airnow]: a frame whose header line is
    a data line gets the fixed header. *)
Definition fix_header (df : DataFrame) : result DataFrame :=
  c0 ← first_column df;
  v0 ← iloc00 df;
  if decide (Str c0 = v0) then set_columns AIRNOW_HEADER df else Ok df.

Definition clean_airnow (df : DataFrame) : result DataFrame :=
  df ← fix_header df;
  date ← getcol "DateObserved" df;
  left ← mapR (str_add_lit " ") date;
  hour ← getcol "HourObserved" df;
  combined ← mapR (λ p, str_add p.1 p.2) (zip left (astype_str <$> hour));
  let df := assign_values "datetime_utc" (to_datetime <$> combined) df in
  let df := drop_columns ["DateObserved"; "HourObserved"; "DateLocal";
                          "HourLocal"; "LocalTimeZone"] df in
  df ← drop_duplicates AIRNOW_KEY df;
  sort_values "datetime_utc" df.

Definition AQS_KEY : list string :=
  ["state_code"; "county_code"; "site_number"; "datetime_utc"; "parameter_code"].

Definition clean_aqs (df : DataFrame) : result DataFrame :=
  date ← getcol "date_gmt" df;
  left ← mapR (str_add_lit " ") date;
  time ← getcol "time_gmt" df;
  combined ← mapR (λ p, str_add p.1 p.2) (zip left time);
  let df := assign_values "datetime_utc" (to_datetime <$> combined) df in
  let df := drop_columns ["date_local"; "time_local"; "date_gmt"; "time_gmt";
                          "uncertainty"; "datum"; "units_of_measure_code";
                          "sample_duration_code"] df in
  qualifier ← getcol "qualifier" df;
  let df := assign_values "qualifier" (fillna (Str "None") <$> qualifier) df in
  df ← drop_duplicates AQS_KEY df;
  df ← sort_values "datetime_utc" df;
  stamps ← getcol "datetime_utc" df;
  Ok (assign_values "datetime_utc" (floor_hour <$> stamps) df).

Definition PURPLEAIR_KEY : list string := ["sensor_index"; "datetime_utc"].

Definition clean_purpleair (df : DataFrame) : result DataFrame :=
  df ← (if has_column "time_stamp" df then
          src ← getcol "time_stamp" df;
          stamps ← mapR to_datetime_s src;
          Ok (assign_values "datetime_utc" stamps df)
        else if has_column "last_seen" df then
          src ← getcol "last_seen" df;
          stamps ← mapR to_datetime_s src;
          Ok (assign_values "datetime_utc" stamps df)
        else
          Raise (ValueError "❌ Expected a 'time_stamp' or 'last_seen' column in the data."));
  stamps ← getcol "datetime_utc" df;
  let df := assign_values "datetime_utc" (floor_hour <$> stamps) df in
  let df := drop_columns ["time_stamp"; "last_seen"] df in
  df ← drop_duplicates PURPLEAIR_KEY df;
  sort_values "datetime_utc" df.

(** One turn of the loop over the candidate time fields. *)
Definition parse_if_present (col : string) (df : DataFrame) : DataFrame :=
  if has_column col df then assign col (λ r, to_datetime (r !!! col)) df else df.

Definition clean_hvo (df : DataFrame) : result DataFrame :=
  let df := foldl (λ d col, parse_if_present col d) df
              ["timestamp_utc"; "alertDate"; "colorDate"] in
  stamps ← getcol "timestamp_utc" df;
  let df := assign_values "datetime_utc" stamps df in
  let df := drop_columns ["timestamp_utc"] df in
  df ← drop_duplicates ["noticeId"] df;
  df ← sort_values "datetime_utc" df;
  level ← getcol "alertLevel" df;
  let df := assign_values "alert_change" (change_flags level) df in
  color ← getcol "colorCode" df;
  let df := assign_values "color_change" (change_flags color) df in
  Ok df.

Definition NUM_COLS : list string :=
  ["temperature_2m"; "relative_humidity_2m"; "precipitation"; "rain";
   "wind_speed_10m"; "wind_direction_10m"; "wind_gusts_10m";
   "latitude"; "longitude"; "elevation_m"].

Definition CORE_WEATHER : list string :=
  ["temperature_2m"; "relative_humidity_2m"; "precipitation"; "wind_speed_10m"].

Definition numeric_if_present (col : string) (df : DataFrame) : DataFrame :=
  if has_column col df then assign col (λ r, to_numeric (r !!! col)) df else df.

Definition clean_openmeteo (df : DataFrame) : result DataFrame :=
  if negb (has_column "datetime_utc" df) then
    Raise (ValueError "❌ Expected 'datetime_utc' column in Open-Meteo data.")
  else
    let df := assign "datetime_utc" (λ r, to_datetime (r !!! "datetime_utc")) df in
    let df := foldl (λ d col, numeric_if_present col d) df NUM_COLS in
    df ← dropna_all (filter (λ c, c ∈ columns df) CORE_WEATHER) df;
    df ← drop_duplicates ["datetime_utc"] df;
    sort_values "datetime_utc" df.
End Cleaners.

(** ** src/data_merger.py *)

(** The five sources, in the order of [load_all]. *)
Record Sources (A : Type) : Type := mkSources {
  aqs : A;
  airnow : A;
  purpleair : A;
  openmeteo : A;
  hvo : A
}.
Arguments mkSources {A}.
Arguments aqs {A}.
Arguments airnow {A}.
Arguments purpleair {A}.
Arguments openmeteo {A}.
Arguments hvo {A}.

(** [df.loc[:, cols]] *)
Definition loc_columns (cols : list string) (df : DataFrame) : result DataFrame :=
  match missing_column cols df with
  | Some c => Raise (KeyError c)
  | None =>
      Ok (mkDF cols
            ((λ r : Row, list_to_map ((λ c, (c, r !!! c)) <$> cols)) <$> rows df))
  end.

(** [df.rename(columns={old: new})] *)
Definition rename_column (old new : string) (df : DataFrame) : DataFrame :=
  mkDF ((λ c, if decide (c = old) then new else c) <$> columns df)
       ((λ r : Row,
           match r !! old with
           | Some v => <[new := v]> (delete old r)
           | None => r
           end) <$> rows df).

(** [series.min()] and [series.max()]: missing values are skipped, and
    [None] (NaT) is the answer when nothing is left. *)
Definition series_min (s : list cell) : option Z :=
  foldr (λ c acc,
           match cell_time c, acc with
           | Some t, Some m => Some (Z.min t m)
           | Some t, None => Some t
           | None, _ => acc
           end) None s.

Definition series_max (s : list cell) : option Z :=
  foldr (λ c acc,
           match cell_time c, acc with
           | Some t, Some m => Some (Z.max t m)
           | Some t, None => Some t
           | None, _ => acc
           end) None s.

(** Comparison of two pandas instants: false as soon as one is NaT. *)
Definition ts_lt (a b : option Z) : bool :=
  match a, b with
  | Some x, Some y => bool_decide (x < y)
  | _, _ => false
  end.

(** Python's [min] and [max]: the running answer is replaced by an item
    that compares strictly below (above) it. *)
Definition py_min (l : list (option Z)) : result (option Z) :=
  match l with
  | [] => Raise (ValueError "min() arg is an empty sequence")
  | x :: l' => Ok (foldl (λ m y, if ts_lt y m then y else m) x l')
  end.

Definition py_max (l : list (option Z)) : result (option Z) :=
  match l with
  | [] => Raise (ValueError "max() arg is an empty sequence")
  | x :: l' => Ok (foldl (λ m y, if ts_lt m y then y else m) x l')
  end.

(** [pd.date_range(start=start, end=end, freq="H", tz="UTC")] *)
Definition date_range (start stop : option Z) : result (list Z) :=
  match start, stop with
  | Some s, Some e =>
      Ok (if bool_decide (s ≤ e) then
            (λ k : nat, s + HOUR * Z.of_nat k) <$> seq 0 (S (Z.to_nat ((e - s) / HOUR)))
          else [])
  | _, _ => Raise (ValueError "Neither `start` nor `end` can be NaT")
  end.

Definition null_row (cols : list string) : Row :=
  list_to_map ((λ c, (c, NA)) <$> cols).

(** The rows a left row yields in a left join: one per matching right
    row, in the order of the right frame, or itself with the right
    columns missing. *)
Definition join_row (on : string) (add : DataFrame) (l : Row) : list Row :=
  match filter (λ r : Row, r !!! on = l !!! on) (rows add) with
  | [] => [l ∪ null_row (columns add)]
  | ms => (λ r : Row, l ∪ r) <$> ms
  end.

(** [base.merge(add, on=on, how="left")], for frames that share no
    column but [on] (the case of [merge_all]: name clashes would be
    suffixed by pandas). *)
Definition merge_left (on : string) (base add : DataFrame) : result DataFrame :=
  if negb (has_column on base) then Raise (KeyError on)
  else if negb (has_column on add) then Raise (KeyError on)
  else Ok (mkDF (columns base ++ filter (λ c, c ≠ on) (columns add))
             (flat_map (join_row on add) (rows base))).

Section Merger.
Context `{Scalars}.

(** [None]: the path does not exist; [Some df]: what [pd.read_csv]
    returns for it.  A file for which [pd.read_csv] raises is the
    matter of [read_path] and [merge_all_paths] below. *)
Definition _read (file : option DataFrame) : DataFrame :=
  match file with
  | None => empty_frame
  | Some df =>
      if has_column "datetime_utc" df then
        assign "datetime_utc" (λ r, to_datetime (r !!! "datetime_utc")) df
      else df
  end.

Definition load_all (files : Sources (option DataFrame)) : Sources DataFrame :=
  mkSources (_read (aqs files)) (_read (airnow files)) (_read (purpleair files))
            (_read (openmeteo files)) (_read (hvo files)).

Definition prep_aqs (df : DataFrame) : result DataFrame :=
  if df_empty df then Ok df
  else
    out ← loc_columns ["datetime_utc"; "sample_measurement"] df;
    Ok (rename_column "sample_measurement" "pm25_aqs" out).

Definition prep_airnow (df : DataFrame) : result DataFrame :=
  if df_empty df then Ok df
  else
    out ← loc_columns ["datetime_utc"; "AQI"] df;
    Ok (rename_column "AQI" "aqi_airnow" out).

Definition prep_purpleair (df : DataFrame) : result DataFrame :=
  if df_empty df then Ok df
  else
    out ← loc_columns ["datetime_utc"; "pm2.5_atm"; "humidity";
                       "temperature"; "pressure"] df;
    Ok (rename_column "pm2.5_atm" "pm25_purpleair" out).

Definition prep_openmeteo (df : DataFrame) : result DataFrame :=
  if df_empty df then Ok df
  else
    loc_columns ["datetime_utc"; "temperature_2m"; "relative_humidity_2m";
                 "precipitation"; "rain"; "wind_speed_10m";
                 "wind_direction_10m"; "wind_gusts_10m"] df.

Definition prep_hvo (df : DataFrame) : result DataFrame :=
  if df_empty df then Ok df
  else
    loc_columns ["datetime_utc"; "alertLevel"; "colorCode";
                 "alert_change"; "color_change"] df.

Definition build_hourly_index (frames : list DataFrame) : result (list Z) :=
  mins ← mapR (λ df, s ← getcol "datetime_utc" df; Ok (series_min s)) frames;
  start ← py_min mins;
  maxs ← mapR (λ df, s ← getcol "datetime_utc" df; Ok (series_max s)) frames;
  stop ← py_max maxs;
  date_range start stop.

Definition left_join (base_df add_df : DataFrame) : result DataFrame :=
  if df_empty add_df then Ok base_df
  else merge_left "datetime_utc" base_df add_df.

Definition grid_frame (idx : list Z) : DataFrame :=
  mkDF ["datetime_utc"] ((λ t, {[ "datetime_utc" := Ts t ]}) <$> idx).

Definition merge_all (files : Sources (option DataFrame)) : result DataFrame :=
  let raw := load_all files in
  aqs ← prep_aqs (aqs raw);
  airnow ← prep_airnow (airnow raw);
  purpleair ← prep_purpleair (purpleair raw);
  openmeteo ← prep_openmeteo (openmeteo raw);
  hvo ← prep_hvo (hvo raw);
  let frames := [aqs; airnow; purpleair; openmeteo; hvo] in
  idx ← build_hourly_index frames;
  let base := grid_frame idx in
  merged ← left_join base aqs;
  merged ← left_join merged airnow;
  merged ← left_join merged purpleair;
  merged ← left_join merged openmeteo;
  merged ← left_join merged hvo;
  merged ← drop_duplicates ["datetime_utc"] merged;
  sort_values "datetime_utc" merged.
End Merger.

(** ** Archive updates: src/ingestion and src/utils/append_hvo.py

    A persisted archive is [None] while its file does not exist and
    otherwise the frame whose rows [to_csv] wrote to the file; rows
    appended to a file are taken to carry the fields of its header.
    Reading the file is [read_csv], applied to the [parse_dates] of the
    call and to the frame that was written.  pandas types every column
    it reads from the text of the column, so a cell need not come back
    as it was written (a number written as text comes back as a number,
    a column named in [parse_dates] as dates); what the reader does is
    left open. *)
Class Csv : Type := {
  read_csv : list string → DataFrame → result DataFrame
}.

(** [pd.DataFrame(records)]: the columns are the fields the records
    carry (their order plays no role below). *)
Definition frame_of_records (recs : list Row) : DataFrame :=
  mkDF (elements (⋃ (dom <$> recs) : gset string)) recs.

(** [pd.concat([a, b], ignore_index=True)] *)
Definition concat (a b : DataFrame) : DataFrame :=
  mkDF (columns a ++ filter (λ c, c ∉ columns a) (columns b)) (rows a ++ rows b).

(** [df.to_csv(path, mode="a", index=False, header=not path.exists())] *)
Definition to_csv_append (df : DataFrame) (archive : option DataFrame) : option DataFrame :=
  match archive with
  | None => Some df
  | Some old => Some (mkDF (columns old) (rows old ++ rows df))
  end.

Definition frame_len (df : DataFrame) : Z := Z.of_nat (length (rows df)).

(** The archive a step leaves behind: an exception aborts the script
    before anything is written. *)
Definition archive_after {A : Type} (archive : option DataFrame)
    (r : result (A * option DataFrame)) : option DataFrame :=
  match r with
  | Ok (_, a) => a
  | Raise _ => archive
  end.

(** *** ingestion/airnow_daily.py *)

Definition _append_day (recs : list Row) (archive : option DataFrame)
    : Z * option DataFrame :=
  match recs with
  | [] => (0, archive)
  | _ =>
      let df_day := frame_of_records recs in
      (frame_len df_day, to_csv_append df_day archive)
  end.

(** The end of the script: [if daily_records: _append_day(daily_records)]. *)
Definition airnow_daily (daily_records : list Row) (archive : option DataFrame)
    : option DataFrame :=
  match daily_records with
  | [] => archive
  | _ => (_append_day daily_records archive).2
  end.

(** *** ingestion/aqs_monthly.py *)

Definition AQS_RAW_KEY : list string :=
  ["state_code"; "county_code"; "site_number";
   "date_local"; "time_local"; "parameter_code"].

Section AqsMonthly.
Context `{Csv}.

Definition append_unique (recs : list Row) (archive : option DataFrame)
    : result (Z * option DataFrame) :=
  match recs with
  | [] => Ok (0, archive)
  | _ =>
      let df_new := frame_of_records recs in
      match archive with
      | Some file =>
          df_exist ← read_csv ["date_local"] file;
          df_comb ← drop_duplicates AQS_RAW_KEY (concat df_exist df_new);
          Ok (frame_len df_comb - frame_len df_exist, Some df_comb)
      | None => Ok (frame_len df_new, Some df_new)
      end
  end.

(** One turn of the chunk loop: [rows = fetch_chunk(..); if rows: append_unique(rows)]. *)
Definition aqs_monthly_chunk (recs : list Row) (archive : option DataFrame)
    : option DataFrame :=
  match recs with
  | [] => archive
  | _ => archive_after archive (append_unique recs archive)
  end.
End AqsMonthly.

(** *** ingestion/openmeteo_recent.py, [main]

    [new_data] is the list of frames the fetch loop collected; the
    window it asked for is not modelled. *)

(** [pd.concat(frames, ignore_index=True)] *)
Definition concat_all (frames : list DataFrame) : DataFrame :=
  foldl concat empty_frame frames.

Section OpenMeteoRecent.
Context `{Csv}.

Definition openmeteo_main (new_data : list DataFrame) (archive : option DataFrame)
    : result (option DataFrame) :=
  match archive with
  | None => Ok None
  | Some file =>
      existing ← read_csv ["datetime_utc"] file;
      _ ← getcol "datetime_utc" existing;
      match new_data with
      | [] => Ok archive
      | _ =>
          let new_df := concat_all new_data in
          let combined := concat existing new_df in
          combined ← drop_duplicates ["datetime_utc"] combined;
          combined ← sort_values "datetime_utc" combined;
          Ok (Some combined)
      end
  end.

Definition openmeteo_after (new_data : list DataFrame) (archive : option DataFrame)
    : option DataFrame :=
  match openmeteo_main new_data archive with
  | Ok a => a
  | Raise _ => archive
  end.
End OpenMeteoRecent.

(** *** ingestion/purpleair_daily.py *)

Section PurpleAirDaily.
Context `{Scalars}.

(** [sensors.loc[sensors["sensor_index"] == sid, field].values[0]] *)
Definition sensor_field (sensors : DataFrame) (sid : cell) (field : string)
    : result cell :=
  match filter (λ r : Row, cell_ne (r !!! "sensor_index") sid = false) (rows sensors) with
  | r :: _ => Ok (r !!! field)
  | [] => Raise IndexError
  end.

(** The frame built for one sensor from the history it returned. *)
Definition sensor_frame (sensors : DataFrame) (sid : cell) (df : DataFrame)
    : result DataFrame :=
  src ← getcol "time_stamp" df;
  stamps ← mapR to_datetime_s src;
  let df := assign_values "datetime_utc" stamps df in
  let df := assign "sensor_index" (λ _, sid) df in
  lat ← sensor_field sensors sid "latitude";
  let df := assign "latitude" (λ _, lat) df in
  lon ← sensor_field sensors sid "longitude";
  let df := assign "longitude" (λ _, lon) df in
  name ← sensor_field sensors sid "name";
  Ok (assign "sensor_name" (λ _, name) df).

(** One turn of the loop over the sensors.  [None] is a request that
    failed or answered with another status than 200; the [try] of the
    script swallows every exception of the turn. *)
Definition purpleair_turn (sensors : DataFrame) (archive : option DataFrame)
    (turn : cell * option DataFrame) : option DataFrame :=
  match turn.2 with
  | None => archive
  | Some df =>
      match rows df with
      | [] => archive
      | _ =>
          match sensor_frame sensors turn.1 df with
          | Ok d => to_csv_append d archive
          | Raise _ => archive
          end
      end
  end.

Definition purpleair_daily (sensors : DataFrame)
    (turns : list (cell * option DataFrame)) (archive : option DataFrame)
    : option DataFrame :=
  foldl (purpleair_turn sensors) archive turns.
End PurpleAirDaily.

(** *** ingestion/hvo.py *)

Definition HVO_FIELDS : list string :=
  ["alertDate"; "colorDate"; "alertLevel"; "colorCode"; "noticeSynopsis";
   "noticeId"; "noticeUrl"; "vName"; "nvewsThreat"].

Definition hvo_record (timestamp_utc : string) (data : Row) : Row :=
  <["timestamp_utc" := Str timestamp_utc]>
    (list_to_map ((λ k, (k, data !!! k)) <$> HVO_FIELDS)).

Section HvoHourly.
Context `{Csv}.

(** [record["noticeId"] != last_notice]; [last_notice] is [None] for an
    archive without rows. *)
Definition new_notice (record : Row) (archive : option DataFrame) : result bool :=
  match archive with
  | None => Ok true
  | Some file =>
      df ← read_csv [] file;
      if df_empty df then Ok (notna (record !!! "noticeId"))
      else
        ids ← getcol "noticeId" df;
        Ok (cell_ne (record !!! "noticeId") (default NA (last ids)))
  end.

Definition hvo_hourly (timestamp_utc : string) (data : Row)
    (archive : option DataFrame) : result (option DataFrame) :=
  let record := hvo_record timestamp_utc data in
  flag ← new_notice record archive;
  let record := <["new_notice" := Flag flag]> record in
  Ok (to_csv_append (frame_of_records [record]) archive).
End HvoHourly.

(** *** utils/append_hvo.py *)

Section AppendHvo.
Context `{Csv}.

Definition append_hvo_data (raw_file archive_file : option DataFrame)
    : result (option DataFrame) :=
  match raw_file with
  | None => Ok archive_file
  | Some raw =>
      new_df ← read_csv [] raw;
      match archive_file with
      | Some file =>
          existing_df ← read_csv [] file;
          Ok (Some (drop_duplicates_all (concat existing_df new_df)))
      | None => Ok (Some new_df)
      end
  end.
End AppendHvo.

(** ** A concrete [Scalars] for evaluations: ISO dates, decimal numbers *)

Module Iso.
Definition digit (a : Ascii.ascii) : option Z :=
  let n := Z.of_N (Ascii.N_of_ascii a) - 48 in
  if bool_decide (0 ≤ n ≤ 9) then Some n else None.

Fixpoint digits (acc : Z) (l : list Ascii.ascii) : option Z :=
  match l with
  | [] => Some acc
  | a :: l' => d ← digit a; digits (10 * acc + d) l'
  end.

(** An unsigned decimal number. *)
Definition number (s : string) : option Z :=
  match s with
  | EmptyString => None
  | _ => digits 0 (String.list_ascii_of_string s)
  end.

(** A decimal number with an optional minus sign. *)
Definition signed (s : string) : option Z :=
  match s with
  | String "-"%char s' => Z.opp <$> number s'
  | _ => number s
  end.

(** The pieces of [s] between the occurrences of [sep]. *)
Fixpoint split (sep : Ascii.ascii) (s : string) : list string :=
  match s with
  | EmptyString => [EmptyString]
  | String a s' =>
      if decide (a = sep) then EmptyString :: split sep s'
      else match split sep s' with
           | [] => [String a EmptyString]
           | p :: ps => String a p :: ps
           end
  end.

Definition leap (y : Z) : bool :=
  bool_decide (y mod 4 = 0) && (negb (bool_decide (y mod 100 = 0)) || bool_decide (y mod 400 = 0)).

Definition days_in_month (y m : Z) : Z :=
  if bool_decide (m = 2) then (if leap y then 29 else 28)
  else if bool_decide (m = 4 ∨ m = 6 ∨ m = 9 ∨ m = 11) then 30
  else 31.

(** Days from 1970-01-01 to the civil date [y]-[m]-[d]. *)
Definition days_from_civil (y m d : Z) : Z :=
  let y' := if bool_decide (m ≤ 2) then y - 1 else y in
  let era := y' / 400 in
  let yoe := y' - era * 400 in
  let mp := if bool_decide (m ≤ 2) then m + 9 else m - 3 in
  let doy := (153 * mp + 2) / 5 + d - 1 in
  let doe := yoe * 365 + yoe / 4 - yoe / 100 + doy in
  era * 146097 + doe - 719468.

Definition date (s : string) : option Z :=
  match split "-"%char s with
  | [ys; ms; ds] =>
      y ← number ys; m ← number ms; d ← number ds;
      if bool_decide (1 ≤ m ≤ 12 ∧ 1 ≤ d ≤ days_in_month y m)
      then Some (days_from_civil y m d) else None
  | _ => None
  end.

Definition clock (s : string) : option Z :=
  match split ":"%char s with
  | [hs; ms] =>
      h ← number hs; m ← number ms;
      if bool_decide (0 ≤ h ≤ 23 ∧ 0 ≤ m ≤ 59) then Some (3600 * h + 60 * m) else None
  | [hs; ms; ss] =>
      h ← number hs; m ← number ms; s ← number ss;
      if bool_decide (0 ≤ h ≤ 23 ∧ 0 ≤ m ≤ 59 ∧ 0 ≤ s ≤ 59)
      then Some (3600 * h + 60 * m + s) else None
  | _ => None
  end.

(** [YYYY-MM-DD], [YYYY-MM-DD HH:MM] or [YYYY-MM-DD HH:MM:SS], read as UTC. *)
Definition datetime (s : string) : option Z :=
  match split " "%char s with
  | [ds] => d ← date ds; Some (86400 * d)
  | [ds; cs] => d ← date ds; c ← clock cs; Some (86400 * d + c)
  | _ => None
  end.
End Iso.

#[global] Instance iso_scalars : Scalars := {|
  scalar_to_datetime c :=
    match c with
    | Str s => Iso.datetime s
    | _ => None
    end;
  scalar_to_numeric c :=
    match c with
    | Str s => Iso.signed s
    | Flag b => Some (if b then 1 else 0)
    | _ => None
    end;
  scalar_to_epoch c :=
    match c with
    | Str s => Iso.signed s
    | _ => None
    end;
  scalar_to_str c :=
    match c with
    | NA => "nan"
    | Num z => pretty z
    | Str s => s
    | Flag b => if b then "True" else "False"
    | Ts t => pretty t
    end
|}.

(** A reader for evaluations: a column named in [parse_dates] comes back
    as dates when every text in it is an ISO date, and every other cell
    comes back as it was written. *)
Definition as_date (c : cell) : option cell :=
  match c with
  | NA => Some NA
  | Ts t => Some (Ts t)
  | Str s => Ts <$> Iso.datetime s
  | _ => None
  end.

Definition parse_date_column (df : DataFrame) (c : string) : DataFrame :=
  if forallb (λ r : Row, bool_decide (is_Some (as_date (r !!! c)))) (rows df)
  then assign c (λ r, default NA (as_date (r !!! c))) df
  else df.

#[global] Instance iso_csv : Csv := {|
  read_csv parse_dates df :=
    match missing_column parse_dates df with
    | Some c => Raise (ValueError "Missing column provided to 'parse_dates'")
    | None => Ok (foldl parse_date_column df parse_dates)
    end
|}.

(** ** The request windows of the ingestion scripts

    Dates are day numbers, instants are seconds, both counted from the
    epoch.  A [while] loop is a recursion on the number of turns it may
    still take; the properties below show how many turns are enough. *)

(** *** ingestion/aqs_monthly.py: the chunk loop *)

Definition CHUNK_DAYS : Z := 30.

(** [while current <= end_date: ...; current = chunk_end + timedelta(days=1)],
    giving the pairs [(bdate, edate)] that are fetched. *)
Fixpoint aqs_chunks (turns : nat) (current end_date : Z) : list (Z * Z) :=
  match turns with
  | O => []
  | S turns =>
      if bool_decide (current ≤ end_date) then
        let chunk_end := Z.min (current + (CHUNK_DAYS - 1)) end_date in
        (current, chunk_end) :: aqs_chunks turns (chunk_end + 1) end_date
      else []
  end.

Definition aqs_monthly_windows (start_date end_date : Z) : list (Z * Z) :=
  aqs_chunks (Z.to_nat (end_date - start_date + 1)) start_date end_date.

(** *** ingestion/openmeteo_recent.py: the chunk loop of [main] *)

Definition DAY : Z := 86400.

(** [while current < end_date: ...; current = chunk_end], giving the
    pairs [(current, chunk_end)] handed to [fetch_chunk]. *)
Fixpoint openmeteo_chunks (turns : nat) (current end_date : Z) : list (Z * Z) :=
  match turns with
  | O => []
  | S turns =>
      if bool_decide (current < end_date) then
        let chunk_end := Z.min (current + 31 * DAY) end_date in
        (current, chunk_end) :: openmeteo_chunks turns chunk_end end_date
      else []
  end.

Definition openmeteo_windows (start_date end_date : Z) : list (Z * Z) :=
  openmeteo_chunks (Z.to_nat ((end_date - start_date) / (31 * DAY) + 1))
    start_date end_date.

(** *** ingestion/purpleair.py: the chunks of [fetch_sensor_history]

    [total_days] is [(end - start).days], the whole days of the span,
    and [chunks] is [math.ceil(total_days / chunk_days)]. *)
Definition history_windows (start end_ : Z) : list (Z * Z) :=
  let chunk_days := 30 in
  let total_days := (end_ - start) / DAY in
  let chunks := - ((- total_days) / chunk_days) in
  (λ i : nat,
     let chunk_start := start + Z.of_nat i * chunk_days * DAY in
     let chunk_end := Z.min (chunk_start + chunk_days * DAY) end_ in
     (chunk_start, chunk_end)) <$> seq 0 (Z.to_nat chunks).

(** *** ingestion/aqs.py: the yearly windows of the backfill

    [years] is what [pd.date_range(start_date, end_date, freq="YS")]
    returns: the first days of the years that begin within the range. *)
Definition backfill_windows (years : list Z) (end_date : Z) : result (list (Z * Z)) :=
  match last years with
  | None => Raise IndexError
  | Some newest =>
      let years := if bool_decide (newest ≠ end_date) then years ++ [end_date]
                   else years in
      Ok ((λ i : nat, (years !!! i, years !!! S i - 1)) <$>
            seq 0 (length years - 1))
  end.

(** ** src/data_merger.py: [merge_all] from the files on disk

    [merge_all] above starts from what [pd.read_csv] returns for the
    interim files.  Here the reading is part of the run: [_read] calls
    [pd.read_csv] on every path that exists, in the order of
    [load_all], and an exception of the reader ends [merge_all] before
    anything else is done. *)
Section MergerFiles.
Context `{Scalars} `{Csv}.

(** [pd.read_csv(path)] in [_read]; [None] is a path that does not
    exist, which is not read. *)
Definition read_path (file : option DataFrame) : result (option DataFrame) :=
  match file with
  | None => Ok None
  | Some f => df ← read_csv [] f; Ok (Some df)
  end.

Definition read_paths (disk : Sources (option DataFrame))
    : result (Sources (option DataFrame)) :=
  a ← read_path (aqs disk);
  n ← read_path (airnow disk);
  p ← read_path (purpleair disk);
  o ← read_path (openmeteo disk);
  h ← read_path (hvo disk);
  Ok (mkSources a n p o h).

Definition merge_all_paths (disk : Sources (option DataFrame)) : result DataFrame :=
  files ← read_paths disk;
  merge_all files.
End MergerFiles.

(** ** Notions used in the statements *)

(** The computation returns a value. *)
Definition is_ok {A : Type} (r : result A) : bool :=
  match r with
  | Ok _ => true
  | Raise _ => false
  end.

(** The value of a change flag at position [i] of a sorted column: true
    at the first position, and elsewhere true when the value differs
    from the one before it. *)
Definition changed (s : list cell) (i : nat) : bool :=
  match i with
  | O => true
  | S j =>
      match s !! i, s !! j with
      | Some a, Some p => cell_ne a p
      | _, _ => true
      end
  end.

(** The archive, when its file exists, is read back as the frame that
    was written to it. *)
Definition reads_back `{Csv} (parse_dates : list string)
    (archive : option DataFrame) : Prop :=
  ∀ file, archive = Some file → read_csv parse_dates file = Ok file.

(** The values of one column, row by row. *)
Definition column (c : string) (df : DataFrame) : list cell :=
  (λ r : Row, r !!! c) <$> rows df.


(** What [clean_purpleair] does once the time source [src] is chosen. *)
Definition purpleair_from `{Scalars} (src : string) (df : DataFrame) : result DataFrame :=
  df ← (col ← getcol src df;
        stamps ← mapR to_datetime_s col;
        Ok (assign_values "datetime_utc" stamps df));
  stamps ← getcol "datetime_utc" df;
  let df := assign_values "datetime_utc" (floor_hour <$> stamps) df in
  let df := drop_columns ["time_stamp"; "last_seen"] df in
  df ← drop_duplicates PURPLEAIR_KEY df;
  sort_values "datetime_utc" df.


(** What [clean_openmeteo] makes of one row before it filters: the
    timestamp parsed and every numeric field that is a column coerced. *)
Definition openmeteo_coerce `{Scalars} (df : DataFrame) (r : Row) : Row :=
  foldl (λ (r : Row) col,
           if has_column col df then <[col := to_numeric (r !!! col)]> r else r)
        (<["datetime_utc" := to_datetime (r !!! "datetime_utc")]> r) NUM_COLS.

(** All core weather fields that are columns of [df] are missing in [r]. *)
Definition core_missing (df : DataFrame) (r : Row) : bool :=
  forallb (λ c, negb (notna (r !!! c))) (filter (λ c, c ∈ columns df) CORE_WEATHER).

(** The text [clean_airnow] parses for the timestamp of a row. *)
Definition airnow_combined `{Scalars} (r : Row) : result cell :=
  left ← str_add_lit " " (r !!! "DateObserved");
  str_add left (astype_str (r !!! "HourObserved")).

(** The row [clean_airnow] makes of [r] once its timestamp is [stamp]. *)
Definition airnow_row (r : Row) (stamp : cell) : Row :=
  foldr delete (<["datetime_utc" := stamp]> r)
    ["DateObserved"; "HourObserved"; "DateLocal"; "HourLocal"; "LocalTimeZone"].

(** The frames [merge_all] builds its grid from and joins, in join order. *)
Definition prepared `{Scalars} (files : Sources (option DataFrame))
    : result (list DataFrame) :=
  let raw := load_all files in
  a ← prep_aqs (aqs raw);
  b ← prep_airnow (airnow raw);
  c ← prep_purpleair (purpleair raw);
  d ← prep_openmeteo (openmeteo raw);
  e ← prep_hvo (hvo raw);
  Ok [a; b; c; d; e].

(** [n] instants one hour apart, from [s] on. *)
Definition hourly (s : Z) (n : nat) : list Z :=
  (λ k : nat, s + HOUR * Z.of_nat k) <$> seq 0 n.

(** The rows [left_join] makes of one row of the base frame. *)
Definition join_or_skip (add : DataFrame) (l : Row) : list Row :=
  if df_empty add then [l] else join_row "datetime_utc" add l.

(** What [left_join] with [add] followed by keeping the first row of
    every timestamp leaves of the row [l]: [l] itself for an empty
    frame, and otherwise [l] with the values of the first row of [add]
    at its timestamp, or with missing values when there is none. *)
Definition first_match (add : DataFrame) (l : Row) : Row :=
  if df_empty add then l
  else match filter (λ r : Row, r !!! "datetime_utc" = l !!! "datetime_utc") (rows add) with
       | m :: _ => l ∪ m
       | [] => l ∪ null_row (columns add)
       end.

(** The row of the grid at the instant [t]. *)
Definition grid_row (t : Z) : Row := {[ "datetime_utc" := Ts t ]}.

(** A frame the grid builder is meant for: it has the time column, at
    least one row, and no row without a timestamp. *)
Definition valid_frame (df : DataFrame) : Prop :=
  has_column "datetime_utc" df = true ∧
  rows df ≠ [] ∧
  ∀ r : Row, r ∈ rows df → ∃ t, r !!! "datetime_utc" = Ts t.

(** A frame with the time column and at least one timestamp in it. *)
Definition dated (df : DataFrame) : Prop :=
  has_column "datetime_utc" df = true ∧ ∃ t, Ts t ∈ column "datetime_utc" df.

(** The timestamps of all frames. *)
Definition all_stamps (frames : list DataFrame) : list cell :=
  flat_map (column "datetime_utc") frames.


(** An interim file [merge_all] can use: it exists, has the columns the
    merge keeps of it, and has a row whose timestamp parses. *)
Definition usable `{Scalars} (keep : list string) (file : option DataFrame) : Prop :=
  ∃ df, file = Some df ∧
    (∀ c, c ∈ keep → c ∈ columns df) ∧
    ∃ (r : Row) t, r ∈ rows df ∧ to_datetime (r !!! "datetime_utc") = Ts t.

(** The common shape of the five [prep_*] functions. *)
Definition prep_with (keep : list string) (renamed : option (string * string))
    (df : DataFrame) : result DataFrame :=
  if df_empty df then Ok df
  else
    out ← loc_columns keep df;
    Ok (match renamed with
        | Some (old, new) => rename_column old new out
        | None => out
        end).

(** ** Notions used in the further properties *)

(** A timestamp on a whole hour (a missing one counts). *)
Definition on_the_hour (c : cell) : Prop :=
  ∀ t, c = Ts t → t mod HOUR = 0.

(** The timestamp [clean_aqs] gives a row: its GMT date and time,
    joined by a blank and parsed. *)
Definition aqs_stamp `{Scalars} (r : Row) : result cell :=
  left ← str_add_lit " " (r !!! "date_gmt");
  v ← str_add left (r !!! "time_gmt");
  Ok (to_datetime v).

(** The columns [clean_airnow] drops. *)
Definition AIRNOW_DROPPED : list string :=
  ["DateObserved"; "HourObserved"; "DateLocal"; "HourLocal"; "LocalTimeZone"].

(** The columns a prepared source adds to the merged table. *)
Definition joined_columns (add : DataFrame) : list string :=
  if df_empty add then [] else filter (λ c, c ≠ "datetime_utc") (columns add).

(** The columns a source file adds to the merged table: [named] when the
    frame read from it has rows and columns, none otherwise. *)
Definition source_columns `{Scalars} (named : list string)
    (file : option DataFrame) : list string :=
  if df_empty (_read file) then [] else named.

(** The header of the merged table when every source contributes. *)
Definition MERGED_COLUMNS : list string :=
  ["datetime_utc"; "pm25_aqs"; "aqi_airnow";
   "pm25_purpleair"; "humidity"; "temperature"; "pressure";
   "temperature_2m"; "relative_humidity_2m"; "precipitation"; "rain";
   "wind_speed_10m"; "wind_direction_10m"; "wind_gusts_10m";
   "alertLevel"; "colorCode"; "alert_change"; "color_change"].

(** The label a [prep_*] function gives a column it keeps. *)
Definition renamed_label (renamed : option (string * string)) (c : string) : string :=
  match renamed with
  | Some (old, new) => if decide (c = old) then new else c
  | None => c
  end.

(** The days a request from [w.1] to [w.2], both included, asks for. *)
Definition window_days (w : Z * Z) : list Z := seqZ w.1 (w.2 - w.1 + 1).

(** The value of a computation that returns. *)
Definition unwrap {A : Type} `{Inhabited A} (r : result A) : A :=
  match r with
  | Ok a => a
  | Raise _ => inhabitant
  end.

(** Frame [b] is frame [a] with further rows at its end, each of which
    agrees under [k] with a row of [a]. *)
Definition absorbed {K : Type} (k : Row → K) (a b : DataFrame) : Prop :=
  columns b = columns a ∧
  ∃ extra, rows b = rows a ++ extra ∧ ∀ r, r ∈ extra → k r ∈ k <$> rows a.

(** The row [clean_purpleair] makes of [r] when its time source is the
    column [src]. *)
Definition purpleair_row `{Scalars} (src : string) (r : Row) : Row :=
  delete "time_stamp" (delete "last_seen"
    (<["datetime_utc" := floor_hour (unwrap (to_datetime_s (r !!! src)))]> r)).

(** The hour a timestamp is floored to is still one pandas can hold. *)
Definition floor_held (c : cell) : Prop :=
  ∀ t, c = Ts t → - EPOCH_MAX ≤ HOUR * (t / HOUR).

(** The interim files that exist, in the order of [load_all]. *)
Definition existing (disk : Sources (option DataFrame)) : list DataFrame :=
  omap id [aqs disk; airnow disk; purpleair disk; openmeteo disk; hvo disk].
(** ** Concrete frames used in the evaluations below *)

Module Sample.
(** One AirNow observation. *)
Definition airnow_rec : Row :=
  {[ "DateObserved" := Str "2024-01-01"; "HourObserved" := Num 5;
     "ReportingArea" := Str "Hilo"; "ParameterName" := Str "PM2.5";
     "AQI" := Num 21 ]}.

Definition airnow_archive : DataFrame :=
  mkDF ["DateObserved"; "HourObserved"; "ReportingArea"; "ParameterName"; "AQI"]
       [airnow_rec].
End Sample.

Module SampleArchive.
Definition AQS_COLUMNS : list string :=
  ["state_code"; "county_code"; "site_number"; "parameter_code";
   "date_local"; "time_local"; "sample_measurement"].

(** One raw AQS sample of monitor 15-001-1006. *)
Definition aqs_rec (date_local : cell) (time_local : string) (value : Z) : Row :=
  {[ "state_code" := Num 15; "county_code" := Num 1; "site_number" := Num 1006;
     "parameter_code" := Num 88101; "date_local" := date_local;
     "time_local" := Str time_local; "sample_measurement" := Num value ]}.

(** An archive of one sample taken on 2024-01-01, its date an instant. *)
Definition aqs_archive : DataFrame :=
  mkDF AQS_COLUMNS [aqs_rec (Ts 1704067200) "00:00" 5].

(** A fetched batch that repeats the archived sample and brings a new
    one: once with its dates as instants, once with its dates as text. *)
Definition aqs_batch : list Row :=
  [aqs_rec (Ts 1704067200) "00:00" 5; aqs_rec (Ts 1704067200) "01:00" 6].

Definition aqs_batch_text : list Row :=
  [aqs_rec (Str "2024-01-01") "00:00" 5; aqs_rec (Str "2024-01-01") "01:00" 6].

Definition meteo_hour (t temperature : Z) : Row :=
  {[ "datetime_utc" := Ts t; "temperature_2m" := Num temperature ]}.

(** Hours 0 and 1 of 2024-01-01 archived, hours 2 and 1 fetched. *)
Definition meteo_archive : DataFrame :=
  mkDF ["datetime_utc"; "temperature_2m"]
       [meteo_hour 1704067200 20; meteo_hour 1704070800 21].

Definition meteo_new : list DataFrame :=
  [mkDF ["datetime_utc"; "temperature_2m"]
        [meteo_hour 1704074400 22; meteo_hour 1704070800 21]].

(** What the HVO endpoint answers. *)
Definition hvo_status : Row :=
  {[ "noticeId" := Str "n6"; "alertLevel" := Str "WATCH";
     "colorCode" := Str "ORANGE"; "alertDate" := Str "2024-01-01 00:00:00" ]}.
End SampleArchive.

Module SampleHvo.
Definition notice (pulled id level color : string) : Row :=
  {[ "timestamp_utc" := Str pulled; "noticeId" := Str id;
     "alertLevel" := Str level; "colorCode" := Str color;
     "alertDate" := Str "2024-01-01 00:00:00" ]}.

(** Five notices, archived out of order, with the alert levels
    L1, L1, L2, L2, L3 in the order of their pull times. *)
Definition five : DataFrame :=
  mkDF ["timestamp_utc"; "alertDate"; "alertLevel"; "colorCode"; "noticeId"]
       [notice "2024-01-01 03:00:00" "n3" "ADVISORY" "YELLOW";
        notice "2024-01-01 01:00:00" "n1" "NORMAL" "GREEN";
        notice "2024-01-01 02:00:00" "n2" "NORMAL" "GREEN";
        notice "2024-01-01 05:00:00" "n5" "WATCH" "ORANGE";
        notice "2024-01-01 04:00:00" "n4" "ADVISORY" "YELLOW"].

Definition five_clean : DataFrame :=
  Eval vm_compute in
    match clean_hvo five with
    | Ok d => d
    | Raise _ => empty_frame
    end.
End SampleHvo.

Module SampleAqs.
Definition sample (time_gmt : string) (value : Z) : Row :=
  {[ "state_code" := Num 15; "county_code" := Num 1; "site_number" := Num 1006;
     "parameter_code" := Num 88101; "date_gmt" := Str "2024-01-01";
     "time_gmt" := Str time_gmt; "sample_measurement" := Num value;
     "qualifier" := NA ]}.

(** Two samples of one monitor and pollutant within the same hour. *)
Definition subhour : DataFrame :=
  mkDF ["state_code"; "county_code"; "site_number"; "parameter_code";
        "date_gmt"; "time_gmt"; "sample_measurement"; "qualifier"]
       [sample "00:10" 5; sample "00:40" 9].
End SampleAqs.

Module SampleMeteo.
Definition METEO_COLUMNS : list string :=
  ["datetime_utc"; "temperature_2m"; "relative_humidity_2m"; "precipitation";
   "rain"; "wind_speed_10m"].

Definition hour (stamp : string) (temperature humidity precipitation rain wind : cell)
    : Row :=
  {[ "datetime_utc" := Str stamp; "temperature_2m" := temperature;
     "relative_humidity_2m" := humidity; "precipitation" := precipitation;
     "rain" := rain; "wind_speed_10m" := wind ]}.

(** An hour without any core value, an hour that misses only [rain], and
    an hour whose temperature does not parse. *)
Definition gaps : DataFrame :=
  mkDF METEO_COLUMNS
       [hour "2024-01-01 00:00" NA NA NA (Num 1) NA;
        hour "2024-01-01 01:00" (Num 21) (Num 80) (Num 0) NA (Num 7);
        hour "2024-01-01 02:00" (Str "n/a") (Num 81) (Num 0) (Num 0) (Num 6)].

(** Two complete rows for the same hour. *)
Definition twice : DataFrame :=
  mkDF METEO_COLUMNS
       [hour "2024-01-01 00:00" (Num 20) (Num 80) (Num 0) (Num 0) (Num 7);
        hour "2024-01-01 00:00" (Num 21) (Num 80) (Num 0) (Num 0) (Num 7)].
End SampleMeteo.

Module SamplePurple.
Definition reading (sensor time_stamp last_seen pm : Z) : Row :=
  {[ "sensor_index" := Num sensor; "time_stamp" := Num time_stamp;
     "last_seen" := Num last_seen; "pm2.5_atm" := Num pm ]}.

(** Readings that carry both time fields, with different hours. *)
Definition both : DataFrame :=
  mkDF ["sensor_index"; "time_stamp"; "last_seen"; "pm2.5_atm"]
       [reading 7 1704070000 1704080000 12;
        reading 7 1704067500 1704080000 11;
        reading 8 1704067500 1704080000 30].
End SamplePurple.

Module SampleAirnow.
Definition observation (date hour : string) (aqi : Z) : Row :=
  {[ "DateObserved" := Str date; "HourObserved" := Str hour;
     "LocalTimeZone" := Str "HST"; "ReportingArea" := Str "Hilo";
     "ParameterName" := Str "PM2.5"; "AQI" := Num aqi ]}.

Definition good : Row := observation "2024-01-01" "05:00" 21.
Definition bad : Row := observation "2024-13-45" "05:00" 30.
Definition bad_again : Row := observation "2024-13-46" "05:00" 31.

(** A dated observation and two observations whose date does not parse. *)
Definition mixed : DataFrame :=
  mkDF ["DateObserved"; "HourObserved"; "LocalTimeZone"; "ReportingArea";
        "ParameterName"; "AQI"]
       [good; bad; bad_again].
End SampleAirnow.

Module SampleGrid.
Definition at_ (t : Z) : Row := {[ "datetime_utc" := Ts t ]}.

(** Hourly samples at 00:00 and 01:00 of 2024-01-01. *)
Definition monitor : DataFrame :=
  mkDF ["datetime_utc"] [at_ 1704067200; at_ 1704070800].

(** A status notice pulled at 01:30 of the same day. *)
Definition notices : DataFrame := mkDF ["datetime_utc"] [at_ 1704072600].

Definition frames : list DataFrame := [monitor; notices].
End SampleGrid.

Module SampleMerge.
(** The interim files, as [pd.read_csv] returns them. *)
Definition aqs_row (stamp : string) (site value : Z) : Row :=
  {[ "datetime_utc" := Str stamp; "site_number" := Num site;
     "sample_measurement" := Num value ]}.

(** Hours 0, 1 and 3, with two monitoring sites at hour 1. *)
Definition aqs_file : DataFrame :=
  mkDF ["site_number"; "sample_measurement"; "datetime_utc"]
       [aqs_row "2024-01-01 00:00:00" 1006 5;
        aqs_row "2024-01-01 01:00:00" 1006 7;
        aqs_row "2024-01-01 01:00:00" 2002 8;
        aqs_row "2024-01-01 03:00:00" 1006 9].

Definition airnow_row (stamp : string) (aqi : Z) : Row :=
  {[ "datetime_utc" := Str stamp; "ReportingArea" := Str "Hilo"; "AQI" := Num aqi ]}.

(** Hours 1 and 2. *)
Definition airnow_file : DataFrame :=
  mkDF ["ReportingArea"; "AQI"; "datetime_utc"]
       [airnow_row "2024-01-01 01:00:00" 40; airnow_row "2024-01-01 02:00:00" 42].

Definition purpleair_file : DataFrame :=
  mkDF ["sensor_index"; "pm2.5_atm"; "humidity"; "temperature"; "pressure";
        "datetime_utc"]
       [ {[ "datetime_utc" := Str "2024-01-01 00:00:00"; "sensor_index" := Num 7;
            "pm2.5_atm" := Num 12; "humidity" := Num 70; "temperature" := Num 75;
            "pressure" := Num 1010 ]} ].

Definition openmeteo_file : DataFrame :=
  mkDF ["datetime_utc"; "temperature_2m"; "relative_humidity_2m"; "precipitation";
        "rain"; "wind_speed_10m"; "wind_direction_10m"; "wind_gusts_10m"]
       [ {[ "datetime_utc" := Str "2024-01-01 02:00:00"; "temperature_2m" := Num 21;
            "relative_humidity_2m" := Num 80; "precipitation" := Num 0;
            "rain" := Num 0; "wind_speed_10m" := Num 7;
            "wind_direction_10m" := Num 90; "wind_gusts_10m" := Num 11 ]} ].

(** One notice, pulled at 00:34:56. *)
Definition hvo_file : DataFrame :=
  mkDF ["alertDate"; "alertLevel"; "colorCode"; "noticeId"; "datetime_utc";
        "alert_change"; "color_change"]
       [ {[ "datetime_utc" := Str "2024-01-01 00:34:56"; "alertLevel" := Str "WATCH";
            "colorCode" := Str "ORANGE"; "noticeId" := Str "n1";
            "alert_change" := Flag true; "color_change" := Flag true ]} ].

Definition files : Sources (option DataFrame) :=
  mkSources (Some aqs_file) (Some airnow_file) (Some purpleair_file)
            (Some openmeteo_file) (Some hvo_file).

(** The AirNow file does not exist. *)
Definition airnow_missing : Sources (option DataFrame) :=
  mkSources (Some aqs_file) None (Some purpleair_file)
            (Some openmeteo_file) (Some hvo_file).

(** The AirNow file holds its header line only. *)
Definition airnow_header_only : Sources (option DataFrame) :=
  mkSources (Some aqs_file) (Some (mkDF ["ReportingArea"; "AQI"; "datetime_utc"] []))
            (Some purpleair_file) (Some openmeteo_file) (Some hvo_file).

(** The AQS file holds its header line only. *)
Definition aqs_header_only : Sources (option DataFrame) :=
  mkSources (Some (mkDF ["site_number"; "sample_measurement"; "datetime_utc"] []))
            (Some airnow_file) (Some purpleair_file) (Some openmeteo_file)
            (Some hvo_file).
End SampleMerge.


Module SampleEdge.
(** An AirNow archive that holds its header line only. *)
Definition airnow_header_only : DataFrame :=
  mkDF ["DateObserved"; "HourObserved"; "LocalTimeZone"; "ReportingArea";
        "ParameterName"; "AQI"] [].

(** A file of two fields without a header line, as it is read: its
    first line has become the labels. *)
Definition line (date : string) (hour : Z) : Row :=
  {[ "2024-01-01" := Str date; "5" := Num hour ]}.

Definition airnow_headless : DataFrame :=
  mkDF ["2024-01-01"; "5"] [line "2024-01-01" 6; line "2024-01-01" 7].

(** Two hourly AQS samples of one monitor, the later one first. *)
Definition aqs_hourly : DataFrame :=
  mkDF ["state_code"; "county_code"; "site_number"; "parameter_code";
        "date_gmt"; "time_gmt"; "sample_measurement"; "qualifier"]
       [SampleAqs.sample "01:00" 9; SampleAqs.sample "00:00" 5].

(** An HVO archive of three hourly pulls: the same notice twice, then a
    new one. *)
Definition hvo_pulls : DataFrame :=
  mkDF ["timestamp_utc"; "alertDate"; "alertLevel"; "colorCode"; "noticeId"]
       [SampleHvo.notice "2024-01-01 01:00:00" "n1" "NORMAL" "GREEN";
        SampleHvo.notice "2024-01-01 02:00:00" "n1" "NORMAL" "GREEN";
        SampleHvo.notice "2024-01-01 03:00:00" "n2" "WATCH" "ORANGE"].

(** The five interim files, with the HVO notice pulled at 23:34:56 of
    the day before the other sources begin. *)
Definition early_notice : Sources (option DataFrame) :=
  mkSources (Some SampleMerge.aqs_file) (Some SampleMerge.airnow_file)
    (Some SampleMerge.purpleair_file) (Some SampleMerge.openmeteo_file)
    (Some (mkDF ["alertDate"; "alertLevel"; "colorCode"; "noticeId"; "datetime_utc";
                 "alert_change"; "color_change"]
             [ {[ "datetime_utc" := Str "2023-12-31 23:34:56";
                  "alertLevel" := Str "WATCH"; "colorCode" := Str "ORANGE";
                  "noticeId" := Str "n1"; "alert_change" := Flag true;
                  "color_change" := Flag true ]} ])).
End SampleEdge.

Module SampleUpdate.
(** The AQS archive of [SampleArchive] after the batch that repeats its
    sample and brings a new one. *)
Definition aqs_updated : DataFrame :=
  Eval vm_compute in
    default empty_frame
      (aqs_monthly_chunk SampleArchive.aqs_batch (Some SampleArchive.aqs_archive)).

(** An AQS archive that holds its sample twice. *)
Definition aqs_doubled : DataFrame :=
  mkDF SampleArchive.AQS_COLUMNS
       [SampleArchive.aqs_rec (Ts 1704067200) "00:00" 5;
        SampleArchive.aqs_rec (Ts 1704067200) "00:00" 5].

(** The Open-Meteo archive of [SampleArchive] after its update. *)
Definition meteo_updated : DataFrame :=
  Eval vm_compute in
    default empty_frame
      (openmeteo_after SampleArchive.meteo_new (Some SampleArchive.meteo_archive)).

(** A new HVO file that repeats the last archived pull and brings one. *)
Definition hvo_latest : DataFrame :=
  mkDF ["timestamp_utc"; "alertDate"; "alertLevel"; "colorCode"; "noticeId"]
       [SampleHvo.notice "2024-01-01 03:00:00" "n2" "WATCH" "ORANGE";
        SampleHvo.notice "2024-01-01 04:00:00" "n2" "WATCH" "ORANGE"].

Definition hvo_history : DataFrame :=
  Eval vm_compute in
    match append_hvo_data (Some hvo_latest) (Some SampleEdge.hvo_pulls) with
    | Ok (Some d) => d
    | _ => empty_frame
    end.
End SampleUpdate.

Module SampleReader.
(** A reader that, like pandas, finds nothing to parse in a file
    without a header line ([EmptyDataError], a [ValueError]) and gives
    back any other file as it was written. *)
Definition strict_csv : Csv := {|
  read_csv := λ _ df,
    match columns df with
    | [] => Raise (ValueError "No columns to parse from file")
    | _ => Ok df
    end
|}.

(** The sample files with an HVO file that holds nothing. *)
Definition hvo_blank : Sources (option DataFrame) :=
  mkSources (Some SampleMerge.aqs_file) (Some SampleMerge.airnow_file)
            (Some SampleMerge.purpleair_file) (Some SampleMerge.openmeteo_file)
            (Some empty_frame).

(** The same, without an AirNow file. *)
Definition hvo_blank_airnow_missing : Sources (option DataFrame) :=
  mkSources (Some SampleMerge.aqs_file) None
            (Some SampleMerge.purpleair_file) (Some SampleMerge.openmeteo_file)
            (Some empty_frame).
End SampleReader.
(** * Properties *)

(** ** The result monad *)

Lemma bind_Ok {A B : Type} (m : result A) (f : A → result B) (b : B) :
  m ≫= f = Ok b → ∃ a, m = Ok a ∧ f a = Ok b.
Proof. destruct m as [a|e]; [eauto | discriminate]. Qed.

Lemma mapR_Ok_inv {A B : Type} (f : A → result B) (l : list A) (l' : list B) :
  mapR f l = Ok l' → Forall2 (λ x y, f x = Ok y) l l'.
Proof.
  revert l'. induction l as [|x l IH]; intros l' Hm; cbn in Hm.
  - injection Hm as <-. constructor.
  - apply bind_Ok in Hm as (y & Hy & Hm).
    apply bind_Ok in Hm as (ys & Hys & Hm).
    injection Hm as <-. constructor; auto.
Qed.

Lemma is_ok_Ok {A : Type} (r : result A) : is_ok r = true → ∃ a, r = Ok a.
Proof. destruct r as [a|e]; [eauto | discriminate]. Qed.

Lemma ok_bind {A B : Type} (a : A) (f : A → result B) : Ok a ≫= f = f a.
Proof. reflexivity. Qed.

(** [eval_ok r out H] names the value of a computation that returns one. *)
Ltac eval_ok r out H :=
  destruct (is_ok_Ok r ltac:(vm_compute; reflexivity)) as [out H].

Ltac inv_bind H :=
  let a := fresh "a" in
  let Ha := fresh "Ha" in
  apply bind_Ok in H as (a & Ha & H).

(** ** Filters *)

Section FilterFacts.
Context {A : Type} (P : A → Prop) `{!∀ x, Decision (P x)}.

Lemma filter_all (l : list A) : (∀ x, x ∈ l → P x) → filter P l = l.
Proof.
  induction l as [|x l IH]; intros HP; [done|].
  rewrite filter_cons_True by (apply HP; left).
  f_equal. apply IH. intros y Hy. apply HP. by right.
Qed.

Lemma filter_none (l : list A) : (∀ x, x ∈ l → ¬ P x) → filter P l = [].
Proof.
  induction l as [|x l IH]; intros HP; [done|].
  rewrite filter_cons_False by (apply HP; left).
  apply IH. intros y Hy. apply HP. by right.
Qed.

Lemma filter_fmap {B : Type} (f : B → A) (l : list B) :
  filter P (f <$> l) = f <$> filter (λ x, P (f x)) l.
Proof.
  induction l as [|x l IH]; [done|].
  rewrite fmap_cons, !filter_cons, IH. by destruct (decide (P (f x))).
Qed.
End FilterFacts.

(** ** drop_duplicates keeps exactly the first row of every key *)

Section DedupFacts.
Context {A K : Type} `{EqDecision K} (key : A → K).

Lemma drop_dups_elem x l : x ∈ drop_dups key l → x ∈ l.
Proof.
  revert x. induction l as [|y l IH]; intros x; cbn; [done|].
  rewrite !elem_of_cons, list_elem_of_filter. intros [->|[_ Hx]]; auto.
Qed.

Lemma drop_dups_keys k l : k ∈ key <$> drop_dups key l ↔ k ∈ key <$> l.
Proof.
  induction l as [|y l IH]; cbn; [done|].
  rewrite !elem_of_cons, <- IH, !list_elem_of_fmap.
  split.
  - intros [->|(z & -> & Hz)]; [by left|].
    apply list_elem_of_filter in Hz as [_ Hz]. right; eauto.
  - intros [->|(z & -> & Hz)]; [by left|].
    destruct (decide (key z = key y)) as [->|Hne]; [by left|].
    right. exists z. split; [done|]. by apply list_elem_of_filter.
Qed.

Lemma NoDup_fmap_filter (P : A → Prop) `{∀ x, Decision (P x)} l :
  NoDup (key <$> l) → NoDup (key <$> filter P l).
Proof.
  intros Hnd. eapply sublist_NoDup; [exact Hnd|].
  apply fmap_sublist, sublist_filter.
Qed.

Lemma drop_dups_NoDup l : NoDup (key <$> drop_dups key l).
Proof.
  induction l as [|y l IH]; cbn; [constructor|].
  apply NoDup_cons. split.
  - rewrite list_elem_of_fmap. intros (z & Hz & Hin).
    apply list_elem_of_filter in Hin as [Hne _]. congruence.
  - by apply NoDup_fmap_filter.
Qed.

Lemma drop_dups_id l : NoDup (key <$> l) → drop_dups key l = l.
Proof.
  induction l as [|y l IH]; cbn; [done|].
  rewrite NoDup_cons. intros [Hy Hl]. rewrite IH by done. f_equal.
  apply filter_all. intros z Hz Heq. apply Hy.
  rewrite <- Heq. by apply list_elem_of_fmap_2.
Qed.

Lemma drop_dups_app l1 l2 :
  drop_dups key (l1 ++ l2) =
  drop_dups key l1 ++ filter (λ y, key y ∉ key <$> l1) (drop_dups key l2).
Proof.
  induction l1 as [|x l1 IH]; cbn.
  - symmetry. apply filter_all. intros z _. apply not_elem_of_nil.
  - f_equal. rewrite IH, filter_app. f_equal.
    rewrite list_filter_filter. apply list_filter_iff.
    intros z. rewrite not_elem_of_cons. tauto.
Qed.

(** Rows whose keys all occur already add nothing. *)
Lemma drop_dups_known l1 l2 :
  (∀ y, y ∈ l2 → key y ∈ key <$> l1) →
  drop_dups key (l1 ++ l2) = drop_dups key l1.
Proof.
  intros Hk. rewrite drop_dups_app.
  rewrite (filter_none _ (drop_dups key l2)); [by rewrite app_nil_r|].
  intros z Hz Hn. apply Hn, Hk. by apply drop_dups_elem.
Qed.

Lemma drop_dups_idemp l : drop_dups key (drop_dups key l) = drop_dups key l.
Proof. apply drop_dups_id, drop_dups_NoDup. Qed.

(** The append/dedup step absorbs a batch it has already seen. *)
Lemma drop_dups_absorb a b :
  drop_dups key (drop_dups key (a ++ b) ++ b) = drop_dups key (a ++ b).
Proof.
  rewrite drop_dups_known; [apply drop_dups_idemp|].
  intros y Hy. apply drop_dups_keys.
  apply list_elem_of_fmap_2. apply elem_of_app. by right.
Qed.

(** When the rows of one key are together, the first of each group stays. *)
Lemma drop_dups_flat_map (f : A → list A) (pick : A → A) l :
  (∀ x, ∃ tl, f x = pick x :: tl) →
  (∀ x y, y ∈ f x → key y = key x) →
  drop_dups key (flat_map f l) = pick <$> drop_dups key l.
Proof.
  intros Hf Hk.
  assert (Hpick : ∀ x, key (pick x) = key x).
  { intros x. destruct (Hf x) as [tl Hx]. apply Hk. rewrite Hx. by left. }
  assert (Hone : ∀ x, drop_dups key (f x) = [pick x]).
  { intros x. destruct (Hf x) as [tl Hx].
    assert (Htl : ∀ y, y ∈ tl → key y = key x).
    { intros y Hy. apply Hk. rewrite Hx. by right. }
    rewrite Hx. cbn. f_equal. apply filter_none.
    intros z Hz Hn. apply Hn. apply drop_dups_elem in Hz.
    rewrite Hpick. auto. }
  induction l as [|x l IH]; cbn; [done|].
  rewrite drop_dups_app, Hone, IH. cbn. f_equal.
  rewrite filter_fmap. f_equal. apply list_filter_iff.
  intros z. cbn. rewrite Hpick. split.
  - intros Hn Heq. apply Hn. destruct (Hf x) as [tl Hx].
    rewrite Hx, fmap_cons, Hpick, Heq. by left.
  - intros Hne Hin. apply list_elem_of_fmap in Hin as (y & Hy & Hin).
    apply Hk in Hin. congruence.
Qed.
End DedupFacts.

(** ** sort_values permutes the rows and leaves a sorted frame alone *)

Section SortFacts.
Context {A : Type} (le : A → A → bool).

Lemma insert_sorted_perm x l : insert_sorted le x l ≡ₚ x :: l.
Proof.
  induction l as [|y l IH]; cbn; [done|].
  destruct (le x y); [done|]. rewrite IH. apply perm_swap.
Qed.

Lemma sort_by_perm l : sort_by le l ≡ₚ l.
Proof.
  induction l as [|x l IH]; cbn; [done|].
  fold (sort_by le l). by rewrite insert_sorted_perm, IH.
Qed.

Lemma sort_by_sorted_id l : Sorted (λ x y, le x y = true) l → sort_by le l = l.
Proof.
  induction 1 as [|x l Hl IH Hd]; cbn; [done|].
  fold (sort_by le l). rewrite IH.
  destruct Hd as [|y l' Hxy]; cbn; [done|]. by rewrite Hxy.
Qed.

Hypothesis le_total : ∀ x y, le x y = false → le y x = true.

Lemma insert_sorted_sorted x l :
  Sorted (λ x y, le x y = true) l → Sorted (λ x y, le x y = true) (insert_sorted le x l).
Proof.
  induction 1 as [|y l Hl IH Hd]; cbn; [by repeat constructor|].
  destruct (le x y) eqn:Hxy.
  - repeat constructor; done.
  - constructor; [done|].
    destruct Hd as [|z l' Hyz]; cbn.
    + constructor. by apply le_total.
    + destruct (le x z); constructor; [by apply le_total | done].
Qed.

Lemma sort_by_sorted l : Sorted (λ x y, le x y = true) (sort_by le l).
Proof.
  induction l as [|x l IH]; cbn; [constructor|].
  by apply insert_sorted_sorted.
Qed.

Lemma sort_by_idemp l : sort_by le (sort_by le l) = sort_by le l.
Proof. apply sort_by_sorted_id, sort_by_sorted. Qed.
End SortFacts.

Section DedupFirst.
Context {A K : Type} `{EqDecision K} (key : A → K).

(** A row no earlier row shares its key with survives. *)
Lemma drop_dups_first l1 x l2 :
  key x ∉ key <$> l1 → x ∈ drop_dups key (l1 ++ x :: l2).
Proof.
  intros Hx. rewrite drop_dups_app. apply elem_of_app. right.
  apply list_elem_of_filter. split; [done|]. cbn. by left.
Qed.
End DedupFirst.

(** ** Archive updates *)

Lemma time_le_total a b : time_le a b = false → time_le b a = true.
Proof.
  unfold time_le. destruct (cell_time a), (cell_time b); try done.
  rewrite bool_decide_eq_false, bool_decide_eq_true. lia.
Qed.

Lemma row_le_total c (r1 r2 : Row) : row_le c r1 r2 = false → row_le c r2 r1 = true.
Proof. apply time_le_total. Qed.

Lemma concat_columns_absorb (a b : DataFrame) (rs : list Row) :
  columns (concat (mkDF (columns (concat a b)) rs) b) = columns (concat a b).
Proof.
  cbn. set (cs := columns a ++ filter (λ c, c ∉ columns a) (columns b)).
  rewrite (filter_none (λ c, c ∉ cs) (columns b)); [by rewrite app_nil_r|].
  intros c Hc Hn. apply Hn. unfold cs. rewrite elem_of_app, list_elem_of_filter.
  destruct (decide (c ∈ columns a)); auto.
Qed.

Lemma missing_column_columns cs (df df' : DataFrame) :
  columns df = columns df' → missing_column cs df = missing_column cs df'.
Proof. unfold missing_column. by intros ->. Qed.

Lemma missing_column_None cs (df : DataFrame) c :
  missing_column cs df = None → c ∈ cs → c ∈ columns df.
Proof.
  unfold missing_column. intros Hm Hc.
  destruct (decide (c ∈ columns df)) as [|Hn]; [done|].
  assert (Hin : c ∈ filter (λ c, c ∉ columns df) cs) by by apply list_elem_of_filter.
  destruct (filter _ cs); [by apply elem_of_nil in Hin | discriminate].
Qed.

Lemma frame_eta (df : DataFrame) : mkDF (columns df) (rows df) = df.
Proof. by destruct df. Qed.

Lemma missing_column_singleton c (df : DataFrame) :
  c ∈ columns df → missing_column [c] df = None.
Proof.
  intros Hc. unfold missing_column.
  rewrite filter_cons. by destruct (decide (c ∉ columns df)) as [Hn|_].
Qed.

Lemma has_column_elem c (df : DataFrame) :
  has_column c df = true → c ∈ columns df.
Proof. unfold has_column. by rewrite bool_decide_eq_true. Qed.

Section ArchiveUpdates.
Context `{Csv}.

(** The AQS step leaves the de-duplicated union of the archive as it is
    read and the batch, or nothing new when a key column is missing or
    the archive cannot be read. *)
Lemma aqs_monthly_chunk_Some recs (A X : DataFrame) :
  recs ≠ [] →
  read_csv ["date_local"] A = Ok X →
  aqs_monthly_chunk recs (Some A) =
  Some (match missing_column AQS_RAW_KEY (concat X (frame_of_records recs)) with
        | Some _ => A
        | None => mkDF (columns (concat X (frame_of_records recs)))
                    (drop_dups (subset_key AQS_RAW_KEY) (rows X ++ recs))
        end).
Proof.
  intros Hne HX. destruct recs as [|r recs]; [done|].
  unfold aqs_monthly_chunk, append_unique. rewrite HX, ok_bind.
  unfold drop_duplicates. by destruct (missing_column _ _).
Qed.

Lemma aqs_monthly_chunk_Raise recs (A : DataFrame) e :
  read_csv ["date_local"] A = Raise e →
  aqs_monthly_chunk recs (Some A) = Some A.
Proof.
  intros HX. destruct recs as [|r recs]; [done|].
  unfold aqs_monthly_chunk, append_unique. by rewrite HX.
Qed.

Lemma aqs_monthly_chunk_idempotent (A : DataFrame) recs :
  reads_back ["date_local"] (aqs_monthly_chunk recs (Some A)) →
  aqs_monthly_chunk recs (aqs_monthly_chunk recs (Some A)) =
  aqs_monthly_chunk recs (Some A).
Proof.
  intros Hback.
  destruct (decide (recs = [])) as [->|Hne]; [done|].
  destruct (read_csv ["date_local"] A) as [X|e] eqn:HX.
  2: { by rewrite !(aqs_monthly_chunk_Raise recs A e HX). }
  rewrite (aqs_monthly_chunk_Some recs A X Hne HX) in Hback |- *.
  destruct (missing_column _ _) eqn:Hm.
  - by rewrite (aqs_monthly_chunk_Some recs A X Hne HX), Hm.
  - specialize (Hback _ eq_refl).
    rewrite (aqs_monthly_chunk_Some recs _ _ Hne Hback).
    erewrite missing_column_columns by apply concat_columns_absorb.
    rewrite Hm, concat_columns_absorb. cbn [rows]. f_equal. f_equal.
    apply drop_dups_absorb.
Qed.

(** The Open-Meteo step leaves the sorted, de-duplicated union of the
    archive as it is read and the fetched frames. *)
Lemma openmeteo_after_Some new_data (E X : DataFrame) :
  new_data ≠ [] →
  read_csv ["datetime_utc"] E = Ok X →
  has_column "datetime_utc" X = true →
  openmeteo_after new_data (Some E) =
  Some (mkDF (columns (concat X (concat_all new_data)))
          (sort_by (row_le "datetime_utc")
             (drop_dups (subset_key ["datetime_utc"])
                (rows X ++ rows (concat_all new_data))))).
Proof.
  intros Hne HX Hc. destruct new_data as [|d new_data]; [done|].
  assert (Hin : "datetime_utc" ∈ columns (concat X (concat_all (d :: new_data)))).
  { cbn [concat columns]. apply elem_of_app. left.
    by apply has_column_elem. }
  unfold openmeteo_after, openmeteo_main. rewrite HX, ok_bind.
  unfold getcol at 1. rewrite Hc, ok_bind.
  unfold drop_duplicates. rewrite (missing_column_singleton _ _ Hin), ok_bind.
  unfold sort_values, has_column. cbn [columns].
  by rewrite bool_decide_eq_true_2.
Qed.

Lemma openmeteo_after_idempotent (E : DataFrame) new_data :
  reads_back ["datetime_utc"] (openmeteo_after new_data (Some E)) →
  openmeteo_after new_data (openmeteo_after new_data (Some E)) =
  openmeteo_after new_data (Some E).
Proof.
  intros Hback.
  destruct (read_csv ["datetime_utc"] E) as [X|e] eqn:HX.
  2: { assert (Hk : openmeteo_after new_data (Some E) = Some E)
         by (unfold openmeteo_after, openmeteo_main; by rewrite HX).
       by rewrite !Hk. }
  destruct (has_column "datetime_utc" X) eqn:Hc.
  2: { assert (Hk : openmeteo_after new_data (Some E) = Some E)
         by (unfold openmeteo_after, openmeteo_main, getcol;
             by rewrite HX, ok_bind, Hc).
       by rewrite !Hk. }
  destruct (decide (new_data = [])) as [->|Hne].
  { assert (Hk : openmeteo_after [] (Some E) = Some E)
      by (unfold openmeteo_after, openmeteo_main, getcol;
          by rewrite HX, ok_bind, Hc).
    by rewrite !Hk. }
  rewrite (openmeteo_after_Some new_data E X Hne HX Hc) in Hback |- *.
  specialize (Hback _ eq_refl).
  rewrite (openmeteo_after_Some new_data _ _ Hne Hback).
  2: { unfold has_column. cbn [columns concat]. apply bool_decide_eq_true_2.
       apply elem_of_app. left. by apply has_column_elem. }
  rewrite concat_columns_absorb. cbn [rows]. f_equal. f_equal.
  set (key := subset_key ["datetime_utc"]).
  set (le := row_le "datetime_utc").
  set (N := rows (concat_all new_data)).
  assert (Hk : drop_dups key (sort_by le (drop_dups key (rows X ++ N)) ++ N)
               = sort_by le (drop_dups key (rows X ++ N))).
  { rewrite drop_dups_known.
    - apply drop_dups_id. rewrite sort_by_perm. apply drop_dups_NoDup.
    - intros y Hy. rewrite sort_by_perm. apply drop_dups_keys.
      apply list_elem_of_fmap_2, elem_of_app. by right. }
  rewrite Hk. apply sort_by_idemp. apply row_le_total.
Qed.

(** When the HVO step returns, it has written one record behind the
    archive. *)
Lemma hvo_hourly_appends timestamp_utc data (A : DataFrame) out :
  hvo_hourly timestamp_utc data (Some A) = Ok out →
  ∃ record, out = Some (mkDF (columns A) (rows A ++ [record])).
Proof.
  unfold hvo_hourly. destruct (new_notice _ _) as [flag|e]; [|discriminate].
  rewrite ok_bind. intros [= <-]. eauto.
Qed.

(** [append_hvo_data] drops whole-row duplicates of an archive that
    exists; a second run on an archive that reads back as it was written
    changes nothing. *)
Lemma append_hvo_data_idempotent (raw existing new out : DataFrame) :
  read_csv [] raw = Ok new →
  append_hvo_data (Some raw) (Some existing) = Ok (Some out) →
  read_csv [] out = Ok out →
  append_hvo_data (Some raw) (Some out) = Ok (Some out).
Proof.
  intros Hraw Hfirst Hback. unfold append_hvo_data in *.
  rewrite Hraw, ok_bind in Hfirst. rewrite Hraw, ok_bind, Hback, ok_bind.
  destruct (read_csv [] existing) as [X|e]; [|discriminate].
  rewrite ok_bind in Hfirst. injection Hfirst as <-.
  unfold drop_duplicates_all. do 2 f_equal.
  rewrite concat_columns_absorb. cbn [rows concat]. f_equal.
  apply drop_dups_absorb.
Qed.
End ArchiveUpdates.

(** The AirNow and PurpleAir paths write the fetched rows behind the
    archive. *)
Lemma airnow_daily_appends (A : DataFrame) recs :
  airnow_daily recs (Some A) = Some (mkDF (columns A) (rows A ++ recs)).
Proof.
  destruct recs as [|r recs]; cbn.
  - by rewrite app_nil_r, frame_eta.
  - done.
Qed.

Lemma purpleair_daily_appends `{Scalars} sensors turns :
  ∃ added, ∀ A : DataFrame,
    purpleair_daily sensors turns (Some A) = Some (mkDF (columns A) (rows A ++ added)).
Proof.
  induction turns as [|turn turns [added IH]].
  - exists []. intros A. cbn. by rewrite app_nil_r, frame_eta.
  - assert (Hturn : ∃ new, ∀ A : DataFrame,
      purpleair_turn sensors (Some A) turn = Some (mkDF (columns A) (rows A ++ new))).
    { unfold purpleair_turn. destruct (turn.2) as [df|].
      - destruct (rows df) as [|r rs].
        + exists []. intros A. by rewrite app_nil_r, frame_eta.
        + destruct (sensor_frame sensors turn.1 df) as [d|e].
          * by exists (rows d).
          * exists []. intros A. by rewrite app_nil_r, frame_eta.
      - exists []. intros A. by rewrite app_nil_r, frame_eta. }
    destruct Hturn as [new Hnew]. exists (new ++ added). intros A.
    unfold purpleair_daily in *. cbn [foldl]. rewrite Hnew, IH. cbn.
    by rewrite app_assoc.
Qed.

(** C1 (as amended). The AQS monthly and the Open-Meteo recent updates
    are idempotent on an archive that is read back as it was written:
    for every existing archive and every fetched batch, if the archive
    the first run leaves is read back as the frame that was written,
    running the step a second time with the same batch leaves that
    archive (rows de-duplicated on state, county, site, local date and
    time and pollutant code for AQS, on the timestamp for Open-Meteo,
    the first row of a key being kept).  The AirNow daily, PurpleAir
    daily and HVO hourly updates do not de-duplicate: each run writes
    the fetched rows behind the rows already archived. *)
Theorem archive_update_idempotence `{Csv} :
  (∀ (A : DataFrame) recs,
     reads_back ["date_local"] (aqs_monthly_chunk recs (Some A)) →
     aqs_monthly_chunk recs (aqs_monthly_chunk recs (Some A)) =
     aqs_monthly_chunk recs (Some A)) ∧
  (∀ (E : DataFrame) new_data,
     reads_back ["datetime_utc"] (openmeteo_after new_data (Some E)) →
     openmeteo_after new_data (openmeteo_after new_data (Some E)) =
     openmeteo_after new_data (Some E)) ∧
  (∀ (A : DataFrame) recs,
     airnow_daily recs (Some A) = Some (mkDF (columns A) (rows A ++ recs))) ∧
  (∀ (S : Scalars) sensors turns, ∃ added, ∀ A : DataFrame,
     purpleair_daily sensors turns (Some A) =
     Some (mkDF (columns A) (rows A ++ added))) ∧
  (∀ timestamp_utc data (A : DataFrame) out,
     hvo_hourly timestamp_utc data (Some A) = Ok out →
     ∃ record, out = Some (mkDF (columns A) (rows A ++ [record]))).
Proof.
  split; [exact aqs_monthly_chunk_idempotent|].
  split; [exact openmeteo_after_idempotent|].
  split; [exact airnow_daily_appends|].
  split; [intros S; apply purpleair_daily_appends|].
  exact hvo_hourly_appends.
Qed.

(** C1 on an AQS batch that repeats the archived sample, on Open-Meteo
    frames that repeat an archived hour, and on an HVO status pulled
    behind five archived notices. *)
Lemma archive_update_idempotence_witness :
  (reads_back ["date_local"]
     (aqs_monthly_chunk SampleArchive.aqs_batch (Some SampleArchive.aqs_archive)) ∧
   aqs_monthly_chunk SampleArchive.aqs_batch
     (aqs_monthly_chunk SampleArchive.aqs_batch (Some SampleArchive.aqs_archive)) =
   aqs_monthly_chunk SampleArchive.aqs_batch (Some SampleArchive.aqs_archive)) ∧
  (reads_back ["datetime_utc"]
     (openmeteo_after SampleArchive.meteo_new (Some SampleArchive.meteo_archive)) ∧
   openmeteo_after SampleArchive.meteo_new
     (openmeteo_after SampleArchive.meteo_new (Some SampleArchive.meteo_archive)) =
   openmeteo_after SampleArchive.meteo_new (Some SampleArchive.meteo_archive)) ∧
  ∃ out record,
    hvo_hourly "2024-01-01 06:00:00" SampleArchive.hvo_status (Some SampleHvo.five)
      = Ok out ∧
    out = Some (mkDF (columns SampleHvo.five) (rows SampleHvo.five ++ [record])).
Proof.
  destruct archive_update_idempotence as (Haqs & Hmeteo & _ & _ & Hhvo).
  assert (Ha : reads_back ["date_local"]
     (aqs_monthly_chunk SampleArchive.aqs_batch (Some SampleArchive.aqs_archive))).
  { intros file Hf. vm_compute in Hf. injection Hf as <-. vm_compute. reflexivity. }
  assert (Hm : reads_back ["datetime_utc"]
     (openmeteo_after SampleArchive.meteo_new (Some SampleArchive.meteo_archive))).
  { intros file Hf. vm_compute in Hf. injection Hf as <-. vm_compute. reflexivity. }
  split; [split; [exact Ha | exact (Haqs _ _ Ha)]|].
  split; [split; [exact Hm | exact (Hmeteo _ _ Hm)]|].
  eval_ok (hvo_hourly "2024-01-01 06:00:00" SampleArchive.hvo_status
             (Some SampleHvo.five)) out Hout.
  destruct (Hhvo _ _ _ _ Hout) as [record Hrec].
  exists out, record. split; [exact Hout | exact Hrec].
Defined.

(** The same archives, evaluated: the AQS archive ends with its sample
    and the new one, the Open-Meteo archive with hours 0, 1 and 2. *)
Example archive_update_samples :
  (column "time_local" <$>
     aqs_monthly_chunk SampleArchive.aqs_batch (Some SampleArchive.aqs_archive)) =
    Some [Str "00:00"; Str "01:00"] ∧
  (column "datetime_utc" <$>
     openmeteo_after SampleArchive.meteo_new (Some SampleArchive.meteo_archive)) =
    Some [Ts 1704067200; Ts 1704070800; Ts 1704074400].
Proof. split; vm_compute; reflexivity. Qed.

(** A batch whose dates are text: the reader returns the dates of the
    archive as instants, so the archived sample is not recognised in the
    batch, and a second run writes the batch once more. *)
Example aqs_monthly_chunk_text_dates :
  (column "time_local" <$>
     aqs_monthly_chunk SampleArchive.aqs_batch_text (Some SampleArchive.aqs_archive)) =
    Some [Str "00:00"; Str "00:00"; Str "01:00"] ∧
  (column "time_local" <$>
     aqs_monthly_chunk SampleArchive.aqs_batch_text
       (aqs_monthly_chunk SampleArchive.aqs_batch_text (Some SampleArchive.aqs_archive))) =
    Some [Str "00:00"; Str "01:00"; Str "00:00"; Str "01:00"].
Proof. split; vm_compute; reflexivity. Qed.

(** C1 as stated fails on the AirNow path: a second run with the same
    fetched row leaves the row three times in an archive that held it
    once, where the first run left it twice. *)
Lemma airnow_daily_not_idempotent :
  airnow_daily [Sample.airnow_rec]
    (airnow_daily [Sample.airnow_rec] (Some Sample.airnow_archive))
  ≠ airnow_daily [Sample.airnow_rec] (Some Sample.airnow_archive).
Proof.
  intros Heq.
  apply (f_equal (λ a, length (rows (default empty_frame a)))) in Heq.
  vm_compute in Heq. discriminate.
Qed.

(** ** Frames *)

Lemma mapR_Raise {A B : Type} (f : A → result B) (l : list A) e :
  mapR f l = Raise e → ∃ x, x ∈ l ∧ f x = Raise e.
Proof.
  induction l as [|x l IH]; cbn; [discriminate|].
  destruct (f x) as [y|e'] eqn:Hx; cbn.
  - destruct (mapR f l) as [ys|e'']; cbn; [discriminate|].
    intros [= <-]. destruct IH as (z & Hz & Hfz); [done|].
    exists z. split; [by right | done].
  - intros [= <-]. exists x. split; [by left | done].
Qed.

Lemma zip_with_fmap_self {A B C : Type} (g : A → B → C) (h : A → B) (l : list A) :
  zip_with g l (h <$> l) = (λ x, g x (h x)) <$> l.
Proof. induction l as [|x l IH]; cbn; [done|]. by rewrite IH. Qed.

Lemma getcol_Ok c (df : DataFrame) col :
  getcol c df = Ok col → c ∈ columns df ∧ col = (λ r : Row, r !!! c) <$> rows df.
Proof.
  unfold getcol, has_column. case_bool_decide; [|discriminate].
  by intros [= <-].
Qed.

Lemma getcol_has c (df : DataFrame) :
  has_column c df = true → getcol c df = Ok ((λ r : Row, r !!! c) <$> rows df).
Proof. unfold getcol. by intros ->. Qed.

Lemma assign_values_getcol c c' (f : cell → cell) (df : DataFrame) :
  assign_values c (f <$> ((λ r : Row, r !!! c') <$> rows df)) df =
  assign c (λ r, f (r !!! c')) df.
Proof.
  unfold assign_values, assign. f_equal.
  by rewrite <- list_fmap_compose, zip_with_fmap_self.
Qed.

Lemma has_column_assign c c' f (df : DataFrame) :
  has_column c (assign c' f df) = has_column c df || bool_decide (c = c').
Proof.
  unfold assign. cbn. unfold has_column.
  rewrite <- bool_decide_or. apply bool_decide_ext.
  case_bool_decide; cbn; rewrite ?elem_of_app, ?list_elem_of_singleton; [|tauto].
  split; [tauto|]. by intros [?| ->].
Qed.

Lemma drop_duplicates_Ok subset (df out : DataFrame) :
  drop_duplicates subset df = Ok out →
  columns out = columns df ∧
  rows out = drop_dups (subset_key subset) (rows df) ∧
  ∀ c, c ∈ subset → c ∈ columns df.
Proof.
  unfold drop_duplicates. destruct (missing_column subset df) eqn:Hm; [discriminate|].
  intros [= <-]. repeat split. intros c. by apply missing_column_None.
Qed.

Lemma drop_duplicates_has subset (df : DataFrame) :
  (∀ c, c ∈ subset → c ∈ columns df) →
  drop_duplicates subset df =
  Ok (mkDF (columns df) (drop_dups (subset_key subset) (rows df))).
Proof.
  intros Hs. unfold drop_duplicates, missing_column.
  rewrite filter_none; [done|]. intros c Hc Hn. by apply Hn, Hs.
Qed.

Lemma sort_values_Ok c (df out : DataFrame) :
  sort_values c df = Ok out →
  columns out = columns df ∧ rows out = sort_by (row_le c) (rows df).
Proof.
  unfold sort_values. destruct (has_column c df); [|discriminate].
  by intros [= <-].
Qed.

(** De-duplicating and then sorting leaves one row per key. *)
Lemma dedup_sort_NoDup subset c (df d1 d2 : DataFrame) :
  drop_duplicates subset df = Ok d1 → sort_values c d1 = Ok d2 →
  rows d2 ≡ₚ drop_dups (subset_key subset) (rows df) ∧
  NoDup (subset_key subset <$> rows d2).
Proof.
  intros (_ & Hd & _)%drop_duplicates_Ok (_ & Hs)%sort_values_Ok.
  assert (Hp : rows d2 ≡ₚ drop_dups (subset_key subset) (rows df)).
  { rewrite Hs, Hd. apply sort_by_perm. }
  split; [done|]. rewrite Hp. apply drop_dups_NoDup.
Qed.

Lemma sort_values_sorted c (df out : DataFrame) :
  sort_values c df = Ok out →
  Sorted (λ r1 r2 : Row, time_le (r1 !!! c) (r2 !!! c) = true) (rows out).
Proof.
  intros (_ & ->)%sort_values_Ok.
  apply (sort_by_sorted (row_le c)), row_le_total.
Qed.

(** A key with more fields separates at least as well. *)
Lemma NoDup_fmap_refine {A K K' : Type} (f : A → K) (g : A → K') (l : list A) :
  (∀ x y, f x = f y → g x = g y) → NoDup (g <$> l) → NoDup (f <$> l).
Proof.
  intros Hfg. induction l as [|x l IH]; cbn; [constructor|].
  rewrite !NoDup_cons. intros [Hx Hl]. split; [|auto].
  rewrite list_elem_of_fmap. intros (y & Hy & Hin). apply Hx.
  rewrite (Hfg _ _ Hy). by apply list_elem_of_fmap_2.
Qed.

Lemma lookup_total_foldr_delete_ne cs c (r : Row) :
  c ∉ cs → foldr delete r cs !!! c = r !!! c.
Proof.
  induction cs as [|k cs IH]; cbn; [done|].
  rewrite not_elem_of_cons. intros [Hne Hc].
  rewrite lookup_total_delete_ne by done. auto.
Qed.


Lemma foldl_step_ext {A B : Type} (f g : A → B → A) (l : list B) (a : A) :
  (∀ a x, f a x = g a x) → foldl f a l = foldl g a l.
Proof.
  intros Hfg. revert a. induction l as [|x l IH]; intros a; cbn; [done|].
  by rewrite Hfg, IH.
Qed.

Lemma has_column_columns c (df df' : DataFrame) :
  columns df = columns df' → has_column c df = has_column c df'.
Proof. unfold has_column. by intros ->. Qed.

Lemma forallb_ext_elem {A : Type} (f g : A → bool) (l : list A) :
  (∀ x, x ∈ l → f x = g x) → forallb f l = forallb g l.
Proof.
  induction l as [|x l IH]; intros Hfg; cbn; [done|].
  rewrite (Hfg x) by left. f_equal. apply IH. intros y Hy. apply Hfg. by right.
Qed.

Lemma frame_ext (a b : DataFrame) :
  columns a = columns b → rows a = rows b → a = b.
Proof. destruct a, b. cbn. by intros -> ->. Qed.

Lemma mapR_unwrap {A B : Type} `{Inhabited B} (f : A → result B) (l : list A) :
  (∀ x, x ∈ l → is_ok (f x) = true) →
  mapR f l = Ok ((λ x, unwrap (f x)) <$> l).
Proof.
  induction l as [|x l IH]; intros Hok; cbn; [done|].
  rewrite IH by (intros z Hz; apply Hok; by right).
  specialize (Hok x ltac:(left)). by destruct (f x).
Qed.

Lemma mapR_Ok_all {A B : Type} (f : A → result B) (l : list A) ys :
  mapR f l = Ok ys → ∀ x, x ∈ l → is_ok (f x) = true.
Proof.
  intros Hm%mapR_Ok_inv. induction Hm as [|x y l ys Hxy _ IH]; intros z Hz.
  - by apply elem_of_nil in Hz.
  - apply elem_of_cons in Hz as [->|Hz]; [by rewrite Hxy | by apply IH].
Qed.

Lemma zip_fmap_self {A B C : Type} (g : A → B) (h : A → C) (l : list A) :
  zip (g <$> l) (h <$> l) = (λ x, (g x, h x)) <$> l.
Proof. induction l as [|x l IH]; cbn; [done|]. by rewrite IH. Qed.

Lemma sort_values_has c (df out : DataFrame) :
  sort_values c df = Ok out → c ∈ columns out.
Proof.
  unfold sort_values. destruct (has_column c df) eqn:Hc; [|discriminate].
  intros [= <-]. cbn. by apply has_column_elem.
Qed.

(** ** HVO change flags *)

Lemma cell_ne_present a b :
  a ≠ NA → b ≠ NA → cell_ne a b = true ↔ a ≠ b.
Proof.
  intros Ha Hb. destruct a, b; try done; cbn; apply bool_decide_eq_true.
Qed.

Lemma cell_ne_missing a : cell_ne a NA = true ∧ cell_ne NA a = true.
Proof. by destruct a. Qed.

Lemma shifted_flags p s :
  s ≠ [] →
  zip_with (λ a b, Flag (cell_ne a b)) s (p :: removelast s) =
  zip_with (λ a b, Flag (cell_ne a b)) s (p :: s).
Proof.
  revert p. induction s as [|a s IH]; intros p Hs; [done|].
  destruct s as [|b s]; [done|].
  change (removelast (a :: b :: s)) with (a :: removelast (b :: s)).
  cbn [zip_with]. f_equal. by apply IH.
Qed.

Lemma change_flags_lookup s i a :
  s !! i = Some a → change_flags s !! i = Some (Flag (changed s i)).
Proof.
  intros Hi. unfold change_flags, shift.
  destruct s as [|b s]; [done|].
  rewrite shifted_flags by done. rewrite lookup_zip_with, Hi. cbn.
  destruct i as [|j]; cbn.
  - cbn in Hi. injection Hi as ->. by destruct a.
  - cbn in Hi. rewrite Hi.
    destruct ((b :: s) !! j) as [p|] eqn:Hj; [done|].
    apply lookup_ge_None in Hj. apply lookup_lt_Some in Hi. cbn in Hj. lia.
Qed.

Lemma change_flags_length s : length (change_flags s) = length s.
Proof.
  unfold change_flags, shift. destruct s as [|b s]; [done|].
  rewrite shifted_flags by done. rewrite length_zip_with. cbn. lia.
Qed.

Lemma column_assign_values_ne k c vs (df : DataFrame) :
  k ≠ c → length vs = length (rows df) →
  column k (assign_values c vs df) = column k df.
Proof.
  intros Hne Hlen. unfold column, assign_values. cbn.
  revert vs Hlen. induction (rows df) as [|r rs IH]; intros [|v vs] Hlen;
    try done; cbn in *.
  rewrite lookup_total_insert_ne by done. f_equal. apply IH. lia.
Qed.

Lemma column_assign_values_eq c vs (df : DataFrame) :
  length vs = length (rows df) → column c (assign_values c vs df) = vs.
Proof.
  intros Hlen. unfold column, assign_values. cbn.
  revert vs Hlen. induction (rows df) as [|r rs IH]; intros [|v vs] Hlen;
    try done; cbn in *.
  rewrite lookup_total_insert_eq. f_equal. apply IH. lia.
Qed.

Lemma assign_values_length c vs (df : DataFrame) :
  length vs = length (rows df) →
  length (rows (assign_values c vs df)) = length (rows df).
Proof. intros Hlen. cbn. rewrite length_zip_with. lia. Qed.

Lemma column_length c (df : DataFrame) : length (column c df) = length (rows df).
Proof. apply length_fmap. Qed.

Lemma getcol_column c (df : DataFrame) col : getcol c df = Ok col → col = column c df.
Proof. by intros [_ ->]%getcol_Ok. Qed.

Section HvoFlags.
Context `{Scalars}.

(** The columns of the frame [clean_hvo] returns, in terms of the
    de-duplicated and sorted frame the flags are computed on. *)
Lemma clean_hvo_columns df out :
  clean_hvo df = Ok out →
  ∃ sorted : DataFrame,
    NoDup (subset_key ["noticeId"] <$> rows sorted) ∧
    Sorted (λ r1 r2 : Row, time_le (r1 !!! "datetime_utc") (r2 !!! "datetime_utc") = true)
      (rows sorted) ∧
    length (rows out) = length (rows sorted) ∧
    (∀ k, k ≠ "alert_change" → k ≠ "color_change" → column k out = column k sorted) ∧
    column "alert_change" out = change_flags (column "alertLevel" sorted) ∧
    column "color_change" out = change_flags (column "colorCode" sorted).
Proof.
  unfold clean_hvo. intros Hc. cbn zeta in Hc.
  inv_bind Hc. cbn zeta in Hc. do 3 inv_bind Hc. cbn zeta in Hc.
  inv_bind Hc. injection Hc as <-.
  apply getcol_column in Ha2, Ha3. subst a2.
  assert (Hl1 : length (change_flags (column "alertLevel" a1)) = length (rows a1)).
  { by rewrite change_flags_length, column_length. }
  rewrite column_assign_values_ne in Ha3 by done. subst a3.
  assert (Hl2 : length (change_flags (column "colorCode" a1)) =
                length (rows (assign_values "alert_change"
                                (change_flags (column "alertLevel" a1)) a1))).
  { by rewrite change_flags_length, column_length, assign_values_length. }
  exists a1. split; [by eapply dedup_sort_NoDup|].
  split; [by eapply sort_values_sorted|].
  split; [by rewrite !assign_values_length|].
  split; [|split].
  - intros k Hk1 Hk2. by rewrite !column_assign_values_ne.
  - rewrite column_assign_values_ne by done. by rewrite column_assign_values_eq.
  - by rewrite column_assign_values_eq.
Qed.
End HvoFlags.

(** C6. When [clean_hvo] returns a frame, its rows carry distinct notice
    ids and are in ascending order of [datetime_utc]; [alert_change] at
    row [i] is true exactly when [i] is the first row or [alertLevel] at
    [i] differs from [alertLevel] at [i-1] (a missing level differs from
    everything), and [color_change] is the same for [colorCode].  In
    particular the levels L1, L1, L2, L2, L3 give the flags true, false,
    true, false, true. *)
Theorem clean_hvo_change_flags `{Scalars} (df out : DataFrame) :
  clean_hvo df = Ok out →
  NoDup (column "noticeId" out) ∧
  Sorted (λ a b, time_le a b = true) (column "datetime_utc" out) ∧
  (∀ i, (i < length (rows out))%nat →
     column "alert_change" out !! i =
       Some (Flag (changed (column "alertLevel" out) i)) ∧
     column "color_change" out !! i =
       Some (Flag (changed (column "colorCode" out) i))) ∧
  (∀ L1 L2 L3 : string, L1 ≠ L2 → L2 ≠ L3 →
     column "alertLevel" out = Str <$> [L1; L1; L2; L2; L3] →
     column "alert_change" out = Flag <$> [true; false; true; false; true]).
Proof.
  intros Hc.
  destruct (clean_hvo_columns df out Hc)
    as (sorted & Hnd & Hsort & Hlen & Hsame & Halert & Hcolor).
  assert (Hflags : ∀ i, (i < length (rows out))%nat →
     column "alert_change" out !! i =
       Some (Flag (changed (column "alertLevel" out) i)) ∧
     column "color_change" out !! i =
       Some (Flag (changed (column "colorCode" out) i))).
  { intros i Hi. rewrite Halert, Hcolor, !Hsame by done.
    rewrite Hlen in Hi.
    destruct (lookup_lt_is_Some_2 (column "alertLevel" sorted) i) as [a Ha];
      [by rewrite column_length|].
    destruct (lookup_lt_is_Some_2 (column "colorCode" sorted) i) as [c Hcc];
      [by rewrite column_length|].
    split; by eapply change_flags_lookup. }
  split; [|split; [|split]].
  - rewrite Hsame by done. revert Hnd. apply NoDup_fmap_refine.
    intros x y Hxy. cbn. by rewrite Hxy.
  - rewrite Hsame by done. unfold column.
    eapply Sorted_fmap; [|exact Hsort]. done.
  - exact Hflags.
  - intros L1 L2 L3 H12 H23 Hlev.
    assert (Hn : length (rows out) = 5%nat).
    { by rewrite <- (column_length "alertLevel"), Hlev. }
    apply (list_eq_same_length _ _ 5%nat); [done | by rewrite column_length |].
    intros i x y Hi Hx Hy. rewrite Hn in Hflags.
    destruct (Hflags i Hi) as [Hf _]. rewrite Hx, Hlev in Hf.
    injection Hf as ->.
    do 5 (destruct i as [|i]; [cbn in *; injection Hy as <-; f_equal;
      rewrite ?bool_decide_eq_true_2, ?bool_decide_eq_false_2 by congruence;
      done|]).
    lia.
Qed.

(** C6 on five notices archived out of order. *)
Lemma clean_hvo_change_flags_witness :
  clean_hvo SampleHvo.five = Ok SampleHvo.five_clean ∧
  column "alertLevel" SampleHvo.five_clean =
    Str <$> ["NORMAL"; "NORMAL"; "ADVISORY"; "ADVISORY"; "WATCH"] ∧
  column "alert_change" SampleHvo.five_clean =
    Flag <$> [true; false; true; false; true].
Proof.
  assert (Hc : clean_hvo SampleHvo.five = Ok SampleHvo.five_clean)
    by (vm_compute; reflexivity).
  assert (Hl : column "alertLevel" SampleHvo.five_clean =
               Str <$> ["NORMAL"; "NORMAL"; "ADVISORY"; "ADVISORY"; "WATCH"])
    by (vm_compute; reflexivity).
  split; [exact Hc|]. split; [exact Hl|].
  destruct (clean_hvo_change_flags _ _ Hc) as (_ & _ & _ & Hex).
  apply (Hex "NORMAL" "ADVISORY" "WATCH"); [discriminate | discriminate | exact Hl].
Defined.

(** ** Normalizers: one row per timestamp and identity key *)

Section CleanerKeys.
Context `{Scalars}.

Lemma clean_airnow_no_duplicates df out :
  clean_airnow df = Ok out →
  NoDup (subset_key ["datetime_utc"; "ReportingArea"; "ParameterName"] <$> rows out).
Proof.
  unfold clean_airnow. intros Hc.
  do 5 inv_bind Hc. cbn zeta in Hc. inv_bind Hc.
  destruct (dedup_sort_NoDup _ _ _ _ _ Ha4 Hc) as [_ Hnd].
  revert Hnd. apply NoDup_fmap_refine.
  intros x y [= H1 H2 H3]. cbn. congruence.
Qed.

Lemma clean_purpleair_no_duplicates df out :
  clean_purpleair df = Ok out →
  NoDup (subset_key ["datetime_utc"; "sensor_index"] <$> rows out).
Proof.
  unfold clean_purpleair. intros Hc.
  do 2 inv_bind Hc. cbn zeta in Hc. inv_bind Hc.
  destruct (dedup_sort_NoDup _ _ _ _ _ Ha1 Hc) as [_ Hnd].
  revert Hnd. apply NoDup_fmap_refine.
  intros x y [= H1 H2]. cbn. congruence.
Qed.

Lemma clean_openmeteo_no_duplicates df out :
  clean_openmeteo df = Ok out →
  NoDup (subset_key ["datetime_utc"] <$> rows out).
Proof.
  unfold clean_openmeteo. intros Hc.
  destruct (negb _); [discriminate|]. cbn zeta in Hc.
  do 2 inv_bind Hc.
  by destruct (dedup_sort_NoDup _ _ _ _ _ Ha0 Hc) as [_ Hnd].
Qed.
End CleanerKeys.

Lemma clean_hvo_no_duplicates `{Scalars} (df out : DataFrame) :
  clean_hvo df = Ok out →
  NoDup (subset_key ["datetime_utc"; "noticeId"] <$> rows out).
Proof.
  intros Hc.
  destruct (clean_hvo_columns df out Hc) as (sorted & Hnd & _ & _ & Hsame & _).
  assert (Hid : NoDup (column "noticeId" out)).
  { rewrite Hsame by done. revert Hnd. apply NoDup_fmap_refine.
    intros x y Hxy. cbn. by rewrite Hxy. }
  revert Hid. unfold column. apply NoDup_fmap_refine.
  intros x y [= _ Hid]. done.
Qed.

(** [clean_aqs] floors the timestamps of a frame that has one row per
    key, so that the unfloored timestamps, not the floored ones, are
    what is unique in its result. *)
Lemma clean_aqs_floors_unique `{Scalars} (df out : DataFrame) :
  clean_aqs df = Ok out →
  ∃ pre : DataFrame,
    NoDup (subset_key AQS_KEY <$> rows pre) ∧
    rows out =
      (λ r : Row, <["datetime_utc" := floor_hour (r !!! "datetime_utc")]> r) <$> rows pre.
Proof.
  unfold clean_aqs. intros Hc.
  do 4 inv_bind Hc. cbn zeta in Hc. inv_bind Hc. cbn zeta in Hc.
  do 3 inv_bind Hc. injection Hc as <-.
  exists a5. split; [by eapply dedup_sort_NoDup|].
  apply getcol_Ok in Ha6 as [_ ->].
  by rewrite assign_values_getcol.
Qed.

(** C2 fails for [clean_aqs]: two samples of one monitor and pollutant
    taken at 00:10 and 00:40 differ in their timestamps when duplicates
    are dropped, are both kept, and leave the normalizer with the same
    floored timestamp and the same identity key. *)
Theorem clean_aqs_duplicate_after_floor :
  ∃ out,
    clean_aqs SampleAqs.subhour = Ok out ∧
    subset_key ["datetime_utc"; "state_code"; "county_code"; "site_number";
                "parameter_code"] <$> rows out =
      [[Ts 1704067200; Num 15; Num 1; Num 1006; Num 88101];
       [Ts 1704067200; Num 15; Num 1; Num 1006; Num 88101]] ∧
    column "sample_measurement" out = [Num 5; Num 9] ∧
    ¬ NoDup (subset_key ["datetime_utc"; "state_code"; "county_code";
                         "site_number"; "parameter_code"] <$> rows out).
Proof.
  eval_ok (clean_aqs SampleAqs.subhour) out Hc. exists out.
  assert (He : (out ← clean_aqs SampleAqs.subhour;
                Ok (subset_key ["datetime_utc"; "state_code"; "county_code";
                                "site_number"; "parameter_code"] <$> rows out,
                    column "sample_measurement" out)) =
               Ok ([[Ts 1704067200; Num 15; Num 1; Num 1006; Num 88101];
                    [Ts 1704067200; Num 15; Num 1; Num 1006; Num 88101]],
                   [Num 5; Num 9]))
    by (vm_compute; reflexivity).
  rewrite Hc, ok_bind in He. injection He as Hk Hv.
  split; [done|]. split; [exact Hk|]. split; [exact Hv|].
  rewrite Hk. intros Hnd. apply NoDup_cons in Hnd as [Hn _].
  apply Hn. by left.
Qed.

(** ** PurpleAir time source *)

Lemma drop_duplicates_Raise subset (df : DataFrame) e :
  drop_duplicates subset df = Raise e → ∃ c, e = KeyError c.
Proof.
  unfold drop_duplicates. destruct (missing_column subset df); [|discriminate].
  intros [= <-]. eauto.
Qed.

Lemma bind_Raise {A B : Type} (m : result A) (f : A → result B) e :
  m ≫= f = Raise e → m = Raise e ∨ ∃ a, m = Ok a ∧ f a = Raise e.
Proof. destruct m as [a|e']; cbn; [eauto | intros [= <-]; auto]. Qed.

Lemma getcol_Raise c (df : DataFrame) e :
  getcol c df = Raise e → ∃ c', e = KeyError c'.
Proof.
  unfold getcol. destruct (has_column c df); [discriminate|].
  intros [= <-]. eauto.
Qed.

Lemma sort_values_Raise c (df : DataFrame) e :
  sort_values c df = Raise e → e = KeyError c.
Proof.
  unfold sort_values. destruct (has_column c df); [discriminate|].
  by intros [= <-].
Qed.

Section PurpleAir.
Context `{Scalars}.

Lemma to_datetime_s_Raise c e : to_datetime_s c = Raise e → e = ConversionError.
Proof.
  destruct c as [|z| | |]; cbn; try discriminate.
  { case_bool_decide; [discriminate | by intros [= <-]]. }
  all: destruct (scalar_to_epoch _); try discriminate; by intros [= <-].
Qed.

Lemma clean_purpleair_unfold df :
  clean_purpleair df =
  if has_column "time_stamp" df then purpleair_from "time_stamp" df
  else if has_column "last_seen" df then purpleair_from "last_seen" df
  else Raise (ValueError "❌ Expected a 'time_stamp' or 'last_seen' column in the data.").
Proof.
  unfold clean_purpleair, purpleair_from.
  destruct (has_column "time_stamp" df); [done|].
  by destruct (has_column "last_seen" df).
Qed.

Lemma purpleair_from_Raise src df e :
  purpleair_from src df = Raise e →
  e = ConversionError ∨ ∃ c, e = KeyError c.
Proof.
  unfold purpleair_from. intros Hc.
  apply bind_Raise in Hc as [Hc|(d1 & Hd1 & Hc)].
  { apply bind_Raise in Hc as [Hc|(col & _ & Hc)].
    - right. by eapply getcol_Raise.
    - apply bind_Raise in Hc as [Hc|(? & _ & ?)]; [|discriminate].
      left. apply mapR_Raise in Hc as (x & _ & Hx). by eapply to_datetime_s_Raise. }
  apply bind_Raise in Hc as [Hc|(stamps & _ & Hc)].
  { right. by eapply getcol_Raise. }
  cbn zeta in Hc. apply bind_Raise in Hc as [Hc|(d2 & _ & Hc)].
  - right. by eapply drop_duplicates_Raise.
  - right. eexists. by eapply sort_values_Raise.
Qed.

Lemma purpleair_from_Ok src df out :
  purpleair_from src df = Ok out →
  has_column src df = true ∧
  ∀ r', r' ∈ rows out →
    ∃ r t, r ∈ rows df ∧ to_datetime_s (r !!! src) = Ok t ∧
      r' !!! "datetime_utc" = floor_hour t ∧
      r' = delete "time_stamp" (delete "last_seen"
             (<["datetime_utc" := floor_hour t]> r)).
Proof.
  unfold purpleair_from. intros Hc.
  apply bind_Ok in Hc as (d1 & Hd1 & Hc).
  apply bind_Ok in Hd1 as (col & Hcol & Hd1).
  apply bind_Ok in Hd1 as (stamps & Hst & Hd1). injection Hd1 as <-.
  apply bind_Ok in Hc as (floored & Hfl & Hc). cbn zeta in Hc.
  apply bind_Ok in Hc as (d2 & Hd2 & Hc).
  apply getcol_Ok in Hcol as [Hsrc ->].
  split; [by apply bool_decide_eq_true|].
  apply mapR_Ok_inv in Hst. rewrite Forall2_fmap_l in Hst.
  apply getcol_column in Hfl.
  assert (Hlen : length stamps = length (rows df)) by (symmetry; by eapply Forall2_length).
  rewrite column_assign_values_eq in Hfl by done. subst floored.
  destruct (dedup_sort_NoDup _ _ _ _ _ Hd2 Hc) as [Hp _].
  intros r' Hr'. rewrite Hp in Hr'. apply drop_dups_elem in Hr'.
  cbn in Hr'. apply list_elem_of_fmap in Hr' as (r2 & -> & Hr2).
  apply list_elem_of_lookup in Hr2 as (i & Hi).
  apply lookup_zip_with_Some in Hi as (r1 & v & -> & Hr1 & Hv).
  apply list_lookup_fmap_Some in Hv as (t & -> & Ht).
  apply lookup_zip_with_Some in Hr1 as (r & t' & -> & Hr & Ht').
  rewrite Ht in Ht'. injection Ht' as <-.
  exists r, t. split; [by eapply list_elem_of_lookup_2|].
  split; [by eapply (Forall2_lookup_lr _ _ _ i) in Hst|].
  rewrite insert_insert_eq. split; [|done].
  rewrite !lookup_total_delete_ne by done. apply lookup_total_insert_eq.
Qed.
(** [purpleair_from] when every value of the time source converts: the
    rows are stamped one by one. *)
Lemma purpleair_from_eval src df :
  has_column src df = true →
  (∀ r, r ∈ rows df → is_ok (to_datetime_s (r !!! src)) = true) →
  purpleair_from src df =
    (d ← drop_duplicates PURPLEAIR_KEY
           (drop_columns ["time_stamp"; "last_seen"]
              (assign "datetime_utc"
                 (λ r, floor_hour (unwrap (to_datetime_s (r !!! src)))) df));
     sort_values "datetime_utc" d).
Proof.
  intros Hsrc Hok. unfold purpleair_from.
  rewrite (getcol_has src) by done. rewrite ok_bind.
  rewrite mapR_unwrap by (intros x (r & -> & Hr)%list_elem_of_fmap; by apply Hok).
  rewrite !ok_bind, <- list_fmap_compose.
  set (S := (λ x, unwrap (to_datetime_s x)) ∘ (λ r : Row, r !!! src)).
  assert (Hst : assign_values "datetime_utc" (S <$> rows df) df =
                assign "datetime_utc" S df).
  { unfold assign_values, assign. by rewrite zip_with_fmap_self. }
  rewrite Hst. rewrite getcol_has.
  2: { rewrite has_column_assign. by rewrite bool_decide_eq_true_2, orb_true_r. }
  rewrite ok_bind. cbn zeta. rewrite assign_values_getcol.
  do 3 f_equal. apply frame_ext.
  - unfold assign at 1. rewrite has_column_assign.
    by rewrite bool_decide_eq_true_2, orb_true_r.
  - cbn [rows assign]. rewrite <- list_fmap_compose.
    apply Forall_fmap_ext_1, Forall_forall. intros r _. unfold compose.
    by rewrite lookup_total_insert_eq, insert_insert_eq.
Qed.

Lemma purpleair_columns (F : Row → cell) (df : DataFrame) c :
  c ∈ columns (drop_columns ["time_stamp"; "last_seen"]
                 (assign "datetime_utc" F df)) ↔
  c ≠ "time_stamp" ∧ c ≠ "last_seen" ∧ (c ∈ columns df ∨ c = "datetime_utc").
Proof.
  unfold drop_columns, assign. cbn [columns].
  rewrite list_elem_of_filter, !not_elem_of_cons.
  pose proof (not_elem_of_nil c) as Hnil.
  destruct (has_column "datetime_utc" df) eqn:Hd.
  - apply has_column_elem in Hd. split.
    + intros [(H1 & H2 & _) H3]. auto.
    + intros (H1 & H2 & [H3| ->]); auto.
  - rewrite elem_of_app, list_elem_of_singleton. split.
    + intros [(H1 & H2 & _) H3]. auto.
    + intros (H1 & H2 & H3). auto.
Qed.

Lemma purpleair_from_ok_iff src df :
  is_ok (purpleair_from src df) = true ↔
  has_column src df = true ∧ has_column "sensor_index" df = true ∧
  ∀ r, r ∈ rows df → is_ok (to_datetime_s (r !!! src)) = true.
Proof.
  split.
  - destruct (purpleair_from src df) as [out|] eqn:Hc; [intros _|done].
    assert (Hconv : has_column src df = true ∧
              ∀ r, r ∈ rows df → is_ok (to_datetime_s (r !!! src)) = true).
    { unfold purpleair_from in Hc.
      apply bind_Ok in Hc as (d1 & Hd1 & _).
      apply bind_Ok in Hd1 as (col & Hcol & Hd1).
      apply bind_Ok in Hd1 as (stamps & Hst & _).
      apply getcol_Ok in Hcol as [Hsrc ->].
      split; [by apply bool_decide_eq_true_2|].
      intros r Hr. eapply mapR_Ok_all; [exact Hst|]. by apply list_elem_of_fmap_2. }
    destruct Hconv as [Hsrc Hok]. split; [done|]. split; [|done].
    rewrite purpleair_from_eval in Hc by done.
    apply bind_Ok in Hc as (d & Hd & _).
    apply drop_duplicates_Ok in Hd as (_ & _ & Hk).
    specialize (Hk "sensor_index" ltac:(left)).
    apply purpleair_columns in Hk as (_ & _ & [Hk|Hk]); [|done].
    by apply bool_decide_eq_true_2.
  - intros (Hsrc & Hsi & Hok). rewrite purpleair_from_eval by done.
    rewrite drop_duplicates_has.
    2: { intros c Hc. apply purpleair_columns.
         apply has_column_elem in Hsi.
         apply elem_of_cons in Hc as [->|Hc]; [by auto|].
         apply list_elem_of_singleton in Hc as ->. by auto. }
    rewrite ok_bind. unfold sort_values, has_column. cbn [columns].
    rewrite bool_decide_eq_true_2; [done|].
    apply purpleair_columns. by auto.
Qed.

Lemma purpleair_from_rows src df out :
  purpleair_from src df = Ok out →
  "datetime_utc" ∈ columns out ∧
  rows out = sort_by (row_le "datetime_utc")
               (drop_dups (subset_key PURPLEAIR_KEY) (purpleair_row src <$> rows df)).
Proof.
  intros Hc.
  assert (Hok : is_ok (purpleair_from src df) = true) by (by rewrite Hc).
  apply purpleair_from_ok_iff in Hok as (Hsrc & _ & Hok).
  rewrite purpleair_from_eval in Hc by done.
  apply bind_Ok in Hc as (d & Hd & Hc).
  split; [by eapply sort_values_has|].
  apply sort_values_Ok in Hc as [_ ->].
  apply drop_duplicates_Ok in Hd as (_ & -> & _).
  cbn [rows drop_columns assign]. by rewrite <- list_fmap_compose.
Qed.

Lemma purpleair_row_fields src (r : Row) t :
  to_datetime_s (r !!! src) = Ok t →
  purpleair_row src r !!! "sensor_index" = r !!! "sensor_index" ∧
  purpleair_row src r !!! "datetime_utc" = floor_hour t.
Proof.
  intros Ht. unfold purpleair_row. rewrite Ht. cbn [unwrap].
  split.
  - by rewrite !lookup_total_delete_ne, lookup_total_insert_ne by done.
  - rewrite !lookup_total_delete_ne by done. apply lookup_total_insert_eq.
Qed.

(** Every row of the input is represented in the result by a row of its
    sensor and its floored hour. *)
Lemma purpleair_from_complete src df out (r : Row) :
  purpleair_from src df = Ok out → r ∈ rows df →
  ∃ t r', to_datetime_s (r !!! src) = Ok t ∧ r' ∈ rows out ∧
    r' !!! "sensor_index" = r !!! "sensor_index" ∧
    r' !!! "datetime_utc" = floor_hour t.
Proof.
  intros Hc Hr.
  assert (Hok : is_ok (purpleair_from src df) = true) by (by rewrite Hc).
  apply purpleair_from_ok_iff in Hok as (_ & _ & Hok).
  specialize (Hok r Hr).
  destruct (to_datetime_s (r !!! src)) as [t|] eqn:Ht; [|done].
  destruct (purpleair_row_fields src r t Ht) as [Hsi Hdt].
  apply purpleair_from_rows in Hc as [_ Hrows].
  assert (Hk : subset_key PURPLEAIR_KEY (purpleair_row src r) ∈
               subset_key PURPLEAIR_KEY <$>
                 drop_dups (subset_key PURPLEAIR_KEY) (purpleair_row src <$> rows df)).
  { apply drop_dups_keys. by apply list_elem_of_fmap_2, list_elem_of_fmap_2. }
  apply list_elem_of_fmap in Hk as (r' & Hk & Hr').
  exists t, r'. split; [done|]. split; [by rewrite Hrows, sort_by_perm|].
  cbn in Hk. injection Hk as H1 H2. by rewrite <- H1, <- H2.
Qed.

Lemma clean_purpleair_cases df :
  let src := if has_column "time_stamp" df then "time_stamp" else "last_seen" in
  (has_column "time_stamp" df = false ∧ has_column "last_seen" df = false ∧
   has_column src df = false ∧
   clean_purpleair df =
     Raise (ValueError "❌ Expected a 'time_stamp' or 'last_seen' column in the data.")) ∨
  (has_column src df = true ∧ clean_purpleair df = purpleair_from src df).
Proof.
  cbn zeta. rewrite clean_purpleair_unfold.
  destruct (has_column "time_stamp" df) eqn:Hts; [by right|].
  destruct (has_column "last_seen" df) eqn:Hls; [by right | by left].
Qed.
End PurpleAir.

(** C8. [clean_purpleair] takes its time source from [time_stamp] when
    that is a column and otherwise from [last_seen], and raises its
    validation error exactly when neither is a column.  It returns a
    frame only if the source and [sensor_index] are columns and every
    value of the source converts, and it does return one if moreover
    every floored hour is a timestamp pandas can hold.  The frame it
    returns has a [datetime_utc] column; its rows are the rows of the
    input, each with its source read as epoch seconds and floored to
    the hour and without the two source columns, the first row of every
    sensor and hour kept: every input row is
    represented by a row of its sensor and floored hour, and every
    returned row comes from an input row.  A number of seconds within
    the range of a timestamp converts to that instant, any other number
    raises, and flooring gives the start of the hour of the instant. *)
Theorem clean_purpleair_time_source `{Scalars} (df : DataFrame) :
  let src := if has_column "time_stamp" df then "time_stamp" else "last_seen" in
  (clean_purpleair df =
     Raise (ValueError "❌ Expected a 'time_stamp' or 'last_seen' column in the data.")
   ↔ has_column "time_stamp" df = false ∧ has_column "last_seen" df = false) ∧
  (is_ok (clean_purpleair df) = true →
     has_column src df = true ∧ has_column "sensor_index" df = true ∧
     ∀ r, r ∈ rows df → is_ok (to_datetime_s (r !!! src)) = true) ∧
  (has_column src df = true → has_column "sensor_index" df = true →
   (∀ r, r ∈ rows df →
      ∃ t, to_datetime_s (r !!! src) = Ok t ∧ floor_held t) →
   is_ok (clean_purpleair df) = true) ∧
  (∀ out, clean_purpleair df = Ok out →
     has_column src df = true ∧
     "datetime_utc" ∈ columns out ∧
     rows out ≡ₚ drop_dups (subset_key PURPLEAIR_KEY)
                   (purpleair_row src <$> rows df) ∧
     (∀ r, r ∈ rows df →
        ∃ t r', to_datetime_s (r !!! src) = Ok t ∧ r' ∈ rows out ∧
          r' !!! "sensor_index" = r !!! "sensor_index" ∧
          r' !!! "datetime_utc" = floor_hour t) ∧
     (∀ r', r' ∈ rows out →
        ∃ r t, r ∈ rows df ∧ to_datetime_s (r !!! src) = Ok t ∧
          r' !!! "datetime_utc" = floor_hour t ∧
          r' = delete "time_stamp" (delete "last_seen"
                 (<["datetime_utc" := floor_hour t]> r)))) ∧
  (∀ z, (- EPOCH_MAX ≤ z ≤ EPOCH_MAX → to_datetime_s (Num z) = Ok (Ts z)) ∧
        (¬ (- EPOCH_MAX ≤ z ≤ EPOCH_MAX) →
           to_datetime_s (Num z) = Raise ConversionError) ∧
        floor_hour (Ts z) = Ts (HOUR * (z / HOUR)) ∧
        HOUR * (z / HOUR) ≤ z < HOUR * (z / HOUR) + HOUR).
Proof.
  cbn zeta.
  assert (Hfrom : ∀ src,
    (is_ok (purpleair_from src df) = true →
       has_column src df = true ∧ has_column "sensor_index" df = true ∧
       ∀ r, r ∈ rows df → is_ok (to_datetime_s (r !!! src)) = true) ∧
    (has_column src df = true → has_column "sensor_index" df = true →
     (∀ r, r ∈ rows df → ∃ t, to_datetime_s (r !!! src) = Ok t ∧ floor_held t) →
     is_ok (purpleair_from src df) = true) ∧
    (∀ out, purpleair_from src df = Ok out →
       has_column src df = true ∧
       "datetime_utc" ∈ columns out ∧
       rows out ≡ₚ drop_dups (subset_key PURPLEAIR_KEY)
                     (purpleair_row src <$> rows df) ∧
       (∀ r, r ∈ rows df →
          ∃ t r', to_datetime_s (r !!! src) = Ok t ∧ r' ∈ rows out ∧
            r' !!! "sensor_index" = r !!! "sensor_index" ∧
            r' !!! "datetime_utc" = floor_hour t) ∧
       (∀ r', r' ∈ rows out →
          ∃ r t, r ∈ rows df ∧ to_datetime_s (r !!! src) = Ok t ∧
            r' !!! "datetime_utc" = floor_hour t ∧
            r' = delete "time_stamp" (delete "last_seen"
                   (<["datetime_utc" := floor_hour t]> r))))).
  { intros src. split; [apply purpleair_from_ok_iff|]. split.
    - intros Hsrc Hsi Hconv. apply purpleair_from_ok_iff.
      split; [done|]. split; [done|]. intros r Hr.
      destruct (Hconv r Hr) as (t & -> & _). done.
    - intros out Hc.
      destruct (purpleair_from_Ok src df out Hc) as [Hsrc Hsound].
      destruct (purpleair_from_rows src df out Hc) as [Hdt Hrows].
      split; [done|]. split; [done|].
      split; [rewrite Hrows; apply sort_by_perm|]. split; [|done].
      intros r Hr. by apply (purpleair_from_complete src df out). }
  pose proof (clean_purpleair_cases df) as Hcases. cbn zeta in Hcases.
  set (src := if has_column "time_stamp" df then "time_stamp" else "last_seen") in *.
  specialize (Hfrom src). destruct Hfrom as (Hnec & Hsuf & Hout).
  split; [|split; [|split; [|split]]].
  - destruct Hcases as [(Hts & Hls & _ & Hc)|[Hsrc Hc]]; rewrite Hc; [done|].
    split.
    + intros [He|[c He]]%purpleair_from_Raise; discriminate.
    + intros [Hts Hls]. unfold src in Hsrc. rewrite Hts in Hsrc. congruence.
  - destruct Hcases as [(_ & _ & _ & Hc)|[_ Hc]]; rewrite Hc; [done | exact Hnec].
  - destruct Hcases as [(_ & _ & Hsrc & _)|[_ Hc]].
    + intros Hsrc'. congruence.
    + rewrite Hc. exact Hsuf.
  - destruct Hcases as [(_ & _ & _ & Hc)|[_ Hc]]; rewrite Hc;
      [discriminate | exact Hout].
  - intros z. unfold to_datetime_s. split; [|split; [|split]].
    + intros Hz. by rewrite bool_decide_eq_true_2.
    + intros Hz. by rewrite bool_decide_eq_false_2.
    + done.
    + unfold HOUR. pose proof (Z.mul_div_le z 3600).
      pose proof (Z.mod_pos_bound z 3600). pose proof (Z.div_mod z 3600). lia.
Qed.

(** C8 on readings that carry both time fields: the frame that is
    returned holds the first reading of sensor 7 and the reading of
    sensor 8, both in the hour of their [time_stamp], and every reading
    is represented. *)
Lemma clean_purpleair_time_source_witness :
  ∃ out, clean_purpleair SamplePurple.both = Ok out ∧
    "datetime_utc" ∈ columns out ∧
    rows out ≡ₚ drop_dups (subset_key PURPLEAIR_KEY)
                  (purpleair_row "time_stamp" <$> rows SamplePurple.both) ∧
    (∀ r, r ∈ rows SamplePurple.both →
       ∃ t r', to_datetime_s (r !!! "time_stamp") = Ok t ∧ r' ∈ rows out ∧
         r' !!! "sensor_index" = r !!! "sensor_index" ∧
         r' !!! "datetime_utc" = floor_hour t) ∧
    ∀ r', r' ∈ rows out →
      ∃ r t, r ∈ rows SamplePurple.both ∧
        to_datetime_s (r !!! "time_stamp") = Ok t ∧
        r' !!! "datetime_utc" = floor_hour t ∧
        r' = delete "time_stamp" (delete "last_seen"
               (<["datetime_utc" := floor_hour t]> r)).
Proof.
  eval_ok (clean_purpleair SamplePurple.both) out Hc.
  exists out. split; [exact Hc|].
  destruct (clean_purpleair_time_source SamplePurple.both) as (_ & _ & _ & Hok & _).
  exact (proj2 (Hok out Hc)).
Defined.

(** The same readings, evaluated: the two readings of sensor 7 fall into
    one hour and the first is kept; [last_seen] plays no role. *)
Example clean_purpleair_both :
  (out ← clean_purpleair SamplePurple.both;
   Ok (column "datetime_utc" out, column "sensor_index" out, column "pm2.5_atm" out)) =
  Ok ([Ts 1704067200; Ts 1704067200], [Num 7; Num 8], [Num 12; Num 30]).
Proof. vm_compute. reflexivity. Qed.

(** ** Open-Meteo drop rule *)

Section OpenMeteo.
Context `{Scalars}.

Lemma numeric_if_present_fold cols (d : DataFrame) :
  foldl (λ d col, numeric_if_present col d) d cols =
  mkDF (columns d)
    ((λ r : Row,
        foldl (λ (r : Row) col,
                 if has_column col d then <[col := to_numeric (r !!! col)]> r else r)
              r cols) <$> rows d).
Proof.
  revert d. induction cols as [|c cols IH]; intros d; cbn [foldl].
  - by rewrite list_fmap_id, frame_eta.
  - rewrite IH. unfold numeric_if_present.
    destruct (has_column c d) eqn:Hc; [|done].
    unfold assign. rewrite Hc. cbn [columns rows].
    rewrite <- list_fmap_compose. f_equal.
Qed.

Lemma existsb_notna_core_missing (df : DataFrame) (r : Row) :
  existsb (λ c, notna (r !!! c)) (filter (λ c, c ∈ columns df) CORE_WEATHER) = true
  ↔ core_missing df r = false.
Proof.
  unfold core_missing.
  induction (filter (λ c, c ∈ columns df) CORE_WEATHER) as [|c cs IH]; cbn; [done|].
  destruct (notna (r !!! c)); cbn; [done | apply IH].
Qed.

(** The frame [clean_openmeteo] returns, as a computation on the rows. *)
Lemma clean_openmeteo_rows (df : DataFrame) :
  has_column "datetime_utc" df = true →
  ∃ out, clean_openmeteo df = Ok out ∧
    rows out =
      sort_by (row_le "datetime_utc")
        (drop_dups (subset_key ["datetime_utc"])
           (filter (λ r, core_missing df r = false)
              (openmeteo_coerce df <$> rows df))).
Proof.
  intros Hdt. unfold clean_openmeteo. rewrite Hdt. cbn [negb]. cbn zeta.
  rewrite numeric_if_present_fold.
  assert (Hcols : columns (assign "datetime_utc"
                    (λ r : Row, to_datetime (r !!! "datetime_utc")) df) = columns df).
  { unfold assign. by rewrite Hdt. }
  set (d1 := assign "datetime_utc" _ df) in *.
  set (d2 := mkDF (columns d1) _).
  assert (Hrows : rows d2 = openmeteo_coerce df <$> rows df).
  { unfold d2, d1. cbn [rows columns assign]. rewrite <- list_fmap_compose.
    apply list_fmap_ext. intros i r _. unfold openmeteo_coerce, compose.
    apply foldl_step_ext. intros r0 col.
    by rewrite (has_column_columns col
                  (assign "datetime_utc" (λ r : Row, to_datetime (r !!! "datetime_utc")) df)
                  df Hcols). }
  assert (Hc2 : columns d2 = columns df) by exact Hcols.
  assert (Hdt2 : has_column "datetime_utc" d2 = true).
  { by rewrite (has_column_columns _ d2 df Hc2). }
  unfold dropna_all, missing_column.
  rewrite (filter_none _ (filter _ CORE_WEATHER)).
  2:{ intros c Hc Hn. apply list_elem_of_filter in Hc as [Hc _]. by apply Hn. }
  cbn [head]. rewrite ok_bind.
  rewrite drop_duplicates_has.
  2:{ intros c ->%list_elem_of_singleton. cbn [columns].
      by apply bool_decide_eq_true in Hdt2. }
  rewrite ok_bind. unfold sort_values.
  unfold has_column in Hdt2 |- *. cbn [columns]. rewrite Hdt2.
  eexists. split; [reflexivity|].
  cbn [rows]. rewrite Hrows. f_equal. f_equal.
  apply list_filter_iff. intros r. rewrite Hc2. apply existsb_notna_core_missing.
Qed.
End OpenMeteo.

Lemma coerce_fold_lookup `{Scalars} (df : DataFrame) cols (r : Row) c :
  NoDup cols →
  foldl (λ (r : Row) col,
           if has_column col df then <[col := to_numeric (r !!! col)]> r else r)
        r cols !!! c =
  if bool_decide (c ∈ cols) && has_column c df then to_numeric (r !!! c) else r !!! c.
Proof.
  revert r. induction cols as [|c0 cols IH]; intros r Hnd; cbn [foldl]; [done|].
  apply NoDup_cons in Hnd as [Hc0 Hnd]. rewrite IH by done.
  destruct (decide (c = c0)) as [->|Hne].
  - rewrite (bool_decide_eq_false_2 (c0 ∈ cols)) by done.
    rewrite (bool_decide_eq_true_2 (c0 ∈ c0 :: cols)) by left. cbn [andb].
    destruct (has_column c0 df); [|done]. by rewrite lookup_total_insert_eq.
  - assert (Hr : (if has_column c0 df then <[c0 := to_numeric (r !!! c0)]> r else r) !!! c
                 = r !!! c).
    { destruct (has_column c0 df); [|done]. by rewrite lookup_total_insert_ne. }
    rewrite Hr.
    assert (Hb : bool_decide (c ∈ cols) = bool_decide (c ∈ c0 :: cols)).
    { apply bool_decide_ext. rewrite elem_of_cons. tauto. }
    by rewrite Hb.
Qed.

Lemma NUM_COLS_NoDup : NoDup NUM_COLS.
Proof. apply (bool_decide_unpack _). vm_compute. exact I. Qed.

Lemma CORE_WEATHER_numeric :
  Forall (λ c, c ∈ NUM_COLS ∧ c ≠ "datetime_utc") CORE_WEATHER.
Proof. apply (bool_decide_unpack _). vm_compute. exact I. Qed.

Lemma openmeteo_coerce_core `{Scalars} (df : DataFrame) (r : Row) c :
  c ∈ CORE_WEATHER → has_column c df = true →
  openmeteo_coerce df r !!! c = to_numeric (r !!! c).
Proof.
  intros Hc Hcol. unfold openmeteo_coerce.
  rewrite coerce_fold_lookup by apply NUM_COLS_NoDup.
  rewrite Hcol, andb_true_r.
  pose proof CORE_WEATHER_numeric as Hall. rewrite Forall_forall in Hall.
  destruct (Hall c Hc) as [Hin Hne].
  rewrite bool_decide_eq_true_2 by done.
  by rewrite lookup_total_insert_ne.
Qed.

(** C7 (as amended). For a frame with a [datetime_utc] column,
    [clean_openmeteo] returns a frame; its missing-value rule removes a
    row exactly when every core field that is a column (temperature,
    humidity, precipitation, wind speed) is missing in it after
    coercion, a field that does not parse counting as missing and the
    other fields, such as rain, playing no role; a row that passes the
    rule is returned unless an earlier passing row has the same
    [datetime_utc], and then that hour is still represented. *)
Theorem clean_openmeteo_drop_rule `{Scalars} (df : DataFrame) :
  has_column "datetime_utc" df = true →
  ∃ out, clean_openmeteo df = Ok out ∧
    let coerced := openmeteo_coerce df <$> rows df in
    (∀ r, r ∈ rows out → r ∈ coerced ∧ core_missing df r = false) ∧
    (∀ r, r ∈ coerced → core_missing df r = false →
       ∃ r0, r0 ∈ rows out ∧ r0 !!! "datetime_utc" = r !!! "datetime_utc") ∧
    (∀ l1 r l2, coerced = l1 ++ r :: l2 → core_missing df r = false →
       (∀ r0, r0 ∈ l1 → core_missing df r0 = false →
          r0 !!! "datetime_utc" ≠ r !!! "datetime_utc") →
       r ∈ rows out) ∧
    (∀ r c, c ∈ CORE_WEATHER → has_column c df = true →
       openmeteo_coerce df r !!! c = to_numeric (r !!! c)) ∧
    (∀ (r : Row) c v, c ∉ CORE_WEATHER →
       core_missing df (<[c := v]> r) = core_missing df r).
Proof.
  intros Hdt. destruct (clean_openmeteo_rows df Hdt) as (out & Hc & Hrows).
  exists out. split; [done|]. cbn zeta.
  set (coerced := openmeteo_coerce df <$> rows df) in *.
  set (kept := filter (λ r, core_missing df r = false) coerced) in *.
  assert (Hp : rows out ≡ₚ drop_dups (subset_key ["datetime_utc"]) kept).
  { rewrite Hrows. apply sort_by_perm. }
  split; [|split; [|split; [|split]]].
  - intros r Hr. rewrite Hp in Hr. apply drop_dups_elem in Hr.
    apply list_elem_of_filter in Hr. tauto.
  - intros r Hr Hm.
    assert (Hk : subset_key ["datetime_utc"] r ∈
                 subset_key ["datetime_utc"] <$> drop_dups (subset_key ["datetime_utc"]) kept).
    { apply drop_dups_keys, list_elem_of_fmap_2. by apply list_elem_of_filter. }
    apply list_elem_of_fmap in Hk as (r0 & Hk & Hr0).
    exists r0. split; [by rewrite Hp|]. by injection Hk.
  - intros l1 r l2 Hl Hm Hfirst. rewrite Hp. unfold kept. rewrite Hl.
    rewrite filter_app, filter_cons_True by done.
    apply drop_dups_first. rewrite list_elem_of_fmap.
    intros (r0 & Hk & Hr0). apply list_elem_of_filter in Hr0 as [Hm0 Hr0].
    apply (Hfirst r0 Hr0 Hm0). by injection Hk.
  - intros r c. apply openmeteo_coerce_core.
  - intros r c v Hnc. unfold core_missing. apply forallb_ext_elem.
    intros c0 [_ Hc0]%list_elem_of_filter.
    rewrite lookup_total_insert_ne; [done|]. by intros ->.
Qed.

(** C7 on three hours: one without any core value, one that misses only
    [rain], one whose temperature does not parse. *)
Lemma clean_openmeteo_drop_rule_witness :
  has_column "datetime_utc" SampleMeteo.gaps = true ∧
  ∃ out, clean_openmeteo SampleMeteo.gaps = Ok out ∧
    ∀ r, r ∈ rows out →
      r ∈ openmeteo_coerce SampleMeteo.gaps <$> rows SampleMeteo.gaps ∧
      core_missing SampleMeteo.gaps r = false.
Proof.
  assert (Hdt : has_column "datetime_utc" SampleMeteo.gaps = true)
    by (vm_compute; reflexivity).
  split; [exact Hdt|].
  destruct (clean_openmeteo_drop_rule SampleMeteo.gaps Hdt) as (out & Hc & Hin & _).
  exists out. split; [exact Hc | exact Hin].
Defined.

(** The same frame, evaluated: the hour without core values is gone,
    the hour without [rain] is kept, and the temperature that does not
    parse is a missing value of a row that is kept. *)
Example clean_openmeteo_gaps :
  (out ← clean_openmeteo SampleMeteo.gaps;
   Ok (column "datetime_utc" out, column "temperature_2m" out, column "rain" out)) =
  Ok ([Ts 1704070800; Ts 1704074400], [Num 21; NA], [NA; Num 0]).
Proof. vm_compute. reflexivity. Qed.

(** C7 as stated fails: of two complete rows for the same hour the
    second is not returned, although none of its core fields is
    missing. *)
Lemma clean_openmeteo_drops_complete_row :
  ∃ out r,
    clean_openmeteo SampleMeteo.twice = Ok out ∧
    r ∈ openmeteo_coerce SampleMeteo.twice <$> rows SampleMeteo.twice ∧
    core_missing SampleMeteo.twice r = false ∧
    r ∉ rows out.
Proof.
  eval_ok (clean_openmeteo SampleMeteo.twice) out Hc.
  exists out, (openmeteo_coerce SampleMeteo.twice
                (SampleMeteo.hour "2024-01-01 00:00" (Num 21) (Num 80) (Num 0) (Num 0) (Num 7))).
  split; [exact Hc|]. split; [|split].
  - apply list_elem_of_fmap_2. unfold SampleMeteo.twice. cbn [rows].
    right. left.
  - vm_compute. reflexivity.
  - assert (He : (out ← clean_openmeteo SampleMeteo.twice;
                  Ok (column "temperature_2m" out)) = Ok [Num 20])
      by (vm_compute; reflexivity).
    rewrite Hc, ok_bind in He. injection He as He.
    intros Hin. apply (list_elem_of_fmap_2 (λ r : Row, r !!! "temperature_2m")) in Hin.
    fold (column "temperature_2m" out) in Hin. rewrite He in Hin.
    apply list_elem_of_singleton in Hin. vm_compute in Hin. discriminate.
Qed.

(** ** AirNow rows without a timestamp *)

Lemma Forall2_elem_of_r {A B : Type} (R : A → B → Prop) l k y :
  Forall2 R l k → y ∈ k → ∃ x, x ∈ l ∧ R x y.
Proof.
  induction 1 as [|x y' l k Hxy Hlk IH]; [by intros ?%elem_of_nil|].
  rewrite elem_of_cons. intros [->|Hy].
  - exists x. split; [by left | done].
  - destruct (IH Hy) as (x' & Hx' & HR). exists x'. split; [by right | done].
Qed.

Section AirNow.
Context `{Scalars}.

Lemma combined_rows (g h : Row → cell) (f : cell → result cell)
    (k : cell → cell → result cell) (rs : list Row) left comb :
  mapR f (g <$> rs) = Ok left →
  mapR (λ p, k p.1 p.2) (zip left (h <$> rs)) = Ok comb →
  Forall2 (λ r v, (l ← f (g r); k l (h r)) = Ok v) rs comb.
Proof.
  revert left comb. induction rs as [|r rs IH]; intros left comb Hl Hc.
  - cbn in Hl. injection Hl as <-. cbn in Hc. injection Hc as <-. constructor.
  - cbn in Hl. apply bind_Ok in Hl as (l & Hfl & Hl).
    apply bind_Ok in Hl as (ls & Hls & Hl). injection Hl as <-.
    cbn in Hc. apply bind_Ok in Hc as (v & Hv & Hc).
    apply bind_Ok in Hc as (vs & Hvs & Hc). injection Hc as <-.
    constructor; [|by eapply IH]. by rewrite Hfl.
Qed.

Lemma stamped_rows (rs : list Row) (comb : list cell) cs :
  Forall2 (λ r v, airnow_combined r = Ok v) rs comb →
  Forall2 (λ r r', ∃ v, airnow_combined r = Ok v ∧
                        r' = foldr delete (<["datetime_utc" := to_datetime v]> r) cs)
    rs
    ((λ r : Row, foldr delete r cs) <$>
       zip_with (λ (r : Row) v, <["datetime_utc" := v]> r) rs (to_datetime <$> comb)).
Proof. induction 1; cbn; constructor; eauto. Qed.

(** The rows [clean_airnow] returns: every row of the frame with its
    header gets a timestamp, loses the unused columns, and the first row
    of every key is kept. *)
Lemma clean_airnow_rows df out :
  clean_airnow df = Ok out →
  ∃ headed stamped,
    fix_header df = Ok headed ∧
    Forall2 (λ r r', ∃ v, airnow_combined r = Ok v ∧ r' = airnow_row r (to_datetime v))
      (rows headed) stamped ∧
    rows out ≡ₚ drop_dups (subset_key AIRNOW_KEY) stamped.
Proof.
  unfold clean_airnow. intros Hc.
  apply bind_Ok in Hc as (headed & Hh & Hc).
  apply bind_Ok in Hc as (date & Hdate & Hc).
  apply bind_Ok in Hc as (left & Hleft & Hc).
  apply bind_Ok in Hc as (hour & Hhour & Hc).
  apply bind_Ok in Hc as (comb & Hcomb & Hc). cbn zeta in Hc.
  apply bind_Ok in Hc as (d3 & Hd3 & Hc).
  apply getcol_Ok in Hdate as [_ ->]. apply getcol_Ok in Hhour as [_ ->].
  rewrite <- list_fmap_compose in Hcomb.
  pose proof (combined_rows _ _ _ _ _ _ _ Hleft Hcomb) as Hf.
  destruct (dedup_sort_NoDup _ _ _ _ _ Hd3 Hc) as [Hp _].
  exists headed. eexists. split; [done|]. split; [|exact Hp].
  cbn [rows drop_columns assign_values]. by apply stamped_rows.
Qed.

Lemma airnow_row_fields (r : Row) stamp :
  airnow_row r stamp !!! "datetime_utc" = stamp ∧
  airnow_row r stamp !!! "ReportingArea" = r !!! "ReportingArea" ∧
  airnow_row r stamp !!! "ParameterName" = r !!! "ParameterName".
Proof.
  unfold airnow_row. repeat split.
  - rewrite lookup_total_foldr_delete_ne
      by (apply (bool_decide_unpack _); vm_compute; exact I).
    apply lookup_total_insert_eq.
  - rewrite lookup_total_foldr_delete_ne
      by (apply (bool_decide_unpack _); vm_compute; exact I).
    by rewrite lookup_total_insert_ne.
  - rewrite lookup_total_foldr_delete_ne
      by (apply (bool_decide_unpack _); vm_compute; exact I).
    by rewrite lookup_total_insert_ne.
Qed.

Lemma airnow_key_row (r : Row) stamp :
  subset_key AIRNOW_KEY (airnow_row r stamp) =
  [r !!! "ReportingArea"; r !!! "ParameterName"; stamp].
Proof.
  destruct (airnow_row_fields r stamp) as (Hs & Ha & Hp).
  unfold subset_key, AIRNOW_KEY. cbn [fmap list_fmap]. by rewrite Hs, Ha, Hp.
Qed.
End AirNow.

(** C9. When [clean_airnow] returns a frame, every row of the input (read
    under the header [fix_header] settles) has a text to parse, and a row
    whose text does not parse is not filtered: a row with a missing
    timestamp and its reporting area and pollutant is returned, and it
    is the row itself unless an earlier row without timestamp has the
    same reporting area and pollutant. *)
Theorem clean_airnow_keeps_unparsable `{Scalars} (df out : DataFrame) :
  clean_airnow df = Ok out →
  ∃ headed, fix_header df = Ok headed ∧
    ∀ l1 r l2, rows headed = l1 ++ r :: l2 →
      ∃ v, airnow_combined r = Ok v ∧
        (to_datetime v = NA →
           (∃ r', r' ∈ rows out ∧
              r' !!! "datetime_utc" = NA ∧
              r' !!! "ReportingArea" = r !!! "ReportingArea" ∧
              r' !!! "ParameterName" = r !!! "ParameterName") ∧
           ((∀ r0 v0, r0 ∈ l1 → airnow_combined r0 = Ok v0 → to_datetime v0 = NA →
               ¬ (r0 !!! "ReportingArea" = r !!! "ReportingArea" ∧
                  r0 !!! "ParameterName" = r !!! "ParameterName")) →
            airnow_row r NA ∈ rows out)).
Proof.
  intros Hc. destruct (clean_airnow_rows df out Hc) as (headed & stamped & Hh & Hf & Hp).
  exists headed. split; [done|]. intros l1 r l2 Hl.
  rewrite Hl in Hf. apply Forall2_app_inv_l in Hf as (s1 & s' & Hf1 & Hf2 & ->).
  apply Forall2_cons_inv_l in Hf2 as (r' & s2 & (v & Hv & ->) & Hf2 & ->).
  exists v. split; [done|]. intros Hna. rewrite Hna in *. split.
  - assert (Hk : subset_key AIRNOW_KEY (airnow_row r NA) ∈
                 subset_key AIRNOW_KEY <$>
                   drop_dups (subset_key AIRNOW_KEY) (s1 ++ airnow_row r NA :: s2)).
    { apply drop_dups_keys, list_elem_of_fmap_2, elem_of_app. right. by left. }
    apply list_elem_of_fmap in Hk as (r0 & Hk & Hr0).
    exists r0. split; [by rewrite Hp|].
    destruct (airnow_row_fields r NA) as (Hs & Ha & Hpn).
    unfold subset_key, AIRNOW_KEY in Hk. cbn [fmap list_fmap] in Hk.
    injection Hk as Hk1 Hk2 Hk3. rewrite <- Hk1, <- Hk2, <- Hk3. done.
  - intros Hfirst. rewrite Hp. apply drop_dups_first.
    rewrite list_elem_of_fmap. intros (r0' & Hk & Hr0').
    destruct (Forall2_elem_of_r _ _ _ _ Hf1 Hr0') as (r0 & Hr0 & v0 & Hv0 & ->).
    rewrite !airnow_key_row in Hk. injection Hk as Hk1 Hk2 Hk3.
    by apply (Hfirst r0 v0 Hr0 Hv0).
Qed.

(** C9 on a dated observation followed by two observations of the same
    area and pollutant whose date does not parse: the first of the two
    is returned, without timestamp. *)
Lemma clean_airnow_keeps_unparsable_witness :
  ∃ out, clean_airnow SampleAirnow.mixed = Ok out ∧
    airnow_row SampleAirnow.bad NA ∈ rows out.
Proof.
  eval_ok (clean_airnow SampleAirnow.mixed) out Hc.
  exists out. split; [exact Hc|].
  destruct (clean_airnow_keeps_unparsable _ _ Hc) as (headed & Hh & Hrows).
  assert (Hm : fix_header SampleAirnow.mixed = Ok SampleAirnow.mixed)
    by (vm_compute; reflexivity).
  rewrite Hm in Hh. injection Hh as <-.
  destruct (Hrows [SampleAirnow.good] SampleAirnow.bad [SampleAirnow.bad_again] eq_refl)
    as (v & Hv & Hna).
  vm_compute in Hv. injection Hv as <-.
  destruct Hna as [_ Hself]; [vm_compute; reflexivity|].
  apply Hself. intros r0 v0 Hr0 Hv0 Hna0.
  apply list_elem_of_singleton in Hr0 as ->.
  vm_compute in Hv0. injection Hv0 as <-.
  vm_compute in Hna0. discriminate.
Defined.

(** The same frame, evaluated: the second undated observation is the
    only one that disappears, through the duplicate-key rule. *)
Example clean_airnow_mixed :
  (out ← clean_airnow SampleAirnow.mixed;
   Ok (column "datetime_utc" out, column "AQI" out)) =
  Ok ([Ts 1704085200; NA], [Num 21; Num 30]).
Proof. vm_compute. reflexivity. Qed.

(** ** The merge: one row per grid hour, first match wins *)

Lemma union_lookup_total_key (l r : Row) k :
  r !!! k = l !!! k → (l ∪ r) !!! k = l !!! k.
Proof.
  rewrite !lookup_total_alt, lookup_union.
  destruct (l !! k), (r !! k); cbn; congruence.
Qed.

Lemma null_row_lookup_total cols k : null_row cols !!! k = NA.
Proof.
  unfold null_row. induction cols as [|c cols IH]; cbn.
  - by rewrite lookup_total_empty.
  - destruct (decide (c = k)) as [->|Hne].
    + by rewrite lookup_total_insert_eq.
    + by rewrite lookup_total_insert_ne.
Qed.

Lemma join_or_skip_head add l : ∃ tl, join_or_skip add l = first_match add l :: tl.
Proof.
  unfold join_or_skip, first_match, join_row.
  destruct (df_empty add); [by exists []|].
  destruct (filter _ (rows add)) as [|m ms]; cbn; eauto.
Qed.

Lemma union_lookup_total_null (l : Row) cols k :
  (l ∪ null_row cols) !!! k = l !!! k.
Proof.
  pose proof (null_row_lookup_total cols k) as Hn.
  rewrite !lookup_total_alt in *. rewrite lookup_union.
  destruct (l !! k), (null_row cols !! k); cbn in *; done.
Qed.

Lemma join_or_skip_key add (l y : Row) :
  y ∈ join_or_skip add l → y !!! "datetime_utc" = l !!! "datetime_utc".
Proof.
  unfold join_or_skip, join_row. destruct (df_empty add).
  { by intros ->%list_elem_of_singleton. }
  destruct (filter _ (rows add)) as [|m ms] eqn:Hf.
  - intros ->%list_elem_of_singleton. apply union_lookup_total_null.
  - rewrite <- Hf. intros (r & -> & Hr)%list_elem_of_fmap.
    apply list_elem_of_filter in Hr as [Hr _].
    by apply union_lookup_total_key.
Qed.

Lemma first_match_key add (l : Row) :
  first_match add l !!! "datetime_utc" = l !!! "datetime_utc".
Proof.
  destruct (join_or_skip_head add l) as [tl Htl].
  apply (join_or_skip_key add). rewrite Htl. by left.
Qed.

Lemma flat_map_singleton {A : Type} (l : list A) : flat_map (λ x, [x]) l = l.
Proof. induction l as [|x l IH]; cbn; [done|]. by rewrite IH. Qed.

Lemma left_join_rows (base add m : DataFrame) :
  left_join base add = Ok m →
  rows m = flat_map (join_or_skip add) (rows base).
Proof.
  unfold left_join, join_or_skip. destruct (df_empty add).
  - intros [= <-]. by rewrite flat_map_singleton.
  - unfold merge_left.
    destruct (negb (has_column "datetime_utc" base)); [discriminate|].
    destruct (negb (has_column "datetime_utc" add)); [discriminate|].
    by intros [= <-].
Qed.

(** De-duplicating after a left join picks, for every base row, its
    first match. *)
Lemma drop_dups_join add (rs : list Row) :
  drop_dups (subset_key ["datetime_utc"]) (flat_map (join_or_skip add) rs) =
  first_match add <$> drop_dups (subset_key ["datetime_utc"]) rs.
Proof.
  apply drop_dups_flat_map.
  - apply join_or_skip_head.
  - intros x y Hy. unfold subset_key. cbn. f_equal. by eapply join_or_skip_key.
Qed.

(** *** The grid *)

Lemma hourly_lookup s n i t :
  hourly s n !! i = Some t ↔ t = s + HOUR * Z.of_nat i ∧ (i < n)%nat.
Proof.
  unfold hourly. rewrite list_lookup_fmap_Some. split.
  - intros (k & -> & Hk). apply lookup_seq in Hk as [-> Hi]. done.
  - intros [-> Hi]. exists i. split; [done|]. by apply lookup_seq.
Qed.

Lemma hourly_length s n : length (hourly s n) = n.
Proof. unfold hourly. by rewrite length_fmap, length_seq. Qed.

Lemma hourly_sorted s n : Sorted Z.lt (hourly s n).
Proof.
  unfold hourly. generalize 0%nat as j.
  induction n as [|n IH]; intros j; cbn; [constructor|].
  constructor; [apply IH|].
  destruct n; cbn; constructor. unfold HOUR. lia.
Qed.

Lemma hourly_NoDup s n : NoDup (hourly s n).
Proof.
  unfold hourly. apply NoDup_fmap_2; [|apply NoDup_seq].
  intros x y Hxy. unfold HOUR in Hxy. lia.
Qed.

Lemma date_range_Ok start stop idx :
  date_range start stop = Ok idx →
  ∃ s e, start = Some s ∧ stop = Some e ∧
    idx = if bool_decide (s ≤ e) then hourly s (S (Z.to_nat ((e - s) / HOUR))) else [].
Proof.
  unfold date_range. destruct start as [s|], stop as [e|]; try discriminate.
  intros [= <-]. by exists s, e.
Qed.

Lemma date_range_hourly start stop idx :
  date_range start stop = Ok idx → ∃ s n, idx = hourly s n.
Proof.
  intros (s & e & _ & _ & ->)%date_range_Ok.
  case_bool_decide; [eauto|]. by exists s, 0%nat.
Qed.

Lemma build_hourly_index_hourly frames idx :
  build_hourly_index frames = Ok idx → ∃ s n, idx = hourly s n.
Proof.
  unfold build_hourly_index. intros Hb.
  apply bind_Ok in Hb as (mins & _ & Hb). apply bind_Ok in Hb as (start & _ & Hb).
  apply bind_Ok in Hb as (maxs & _ & Hb). apply bind_Ok in Hb as (stop & _ & Hb).
  by eapply date_range_hourly.
Qed.

Section MergeAll.
Context `{Scalars}.

Lemma grid_row_key t : grid_row t !!! "datetime_utc" = Ts t.
Proof. unfold grid_row. by rewrite lookup_total_singleton. Qed.

(** The merged table, row by row: the grid row of every hour, extended
    by the first matching row of each source in join order. *)
Lemma merge_all_rows files out :
  merge_all files = Ok out →
  ∃ a b c d e idx,
    prepared files = Ok [a; b; c; d; e] ∧
    build_hourly_index [a; b; c; d; e] = Ok idx ∧
    rows out =
      (λ t, first_match e (first_match d (first_match c (first_match b
              (first_match a (grid_row t)))))) <$> idx.
Proof.
  unfold merge_all, prepared. cbn zeta. intros Hm.
  apply bind_Ok in Hm as (a & Ha & Hm). apply bind_Ok in Hm as (b & Hb & Hm).
  apply bind_Ok in Hm as (c & Hc & Hm). apply bind_Ok in Hm as (d & Hd & Hm).
  apply bind_Ok in Hm as (e & He & Hm). cbn zeta in Hm.
  apply bind_Ok in Hm as (idx & Hidx & Hm). cbn zeta in Hm.
  apply bind_Ok in Hm as (m1 & H1 & Hm). apply bind_Ok in Hm as (m2 & H2 & Hm).
  apply bind_Ok in Hm as (m3 & H3 & Hm). apply bind_Ok in Hm as (m4 & H4 & Hm).
  apply bind_Ok in Hm as (m5 & H5 & Hm). apply bind_Ok in Hm as (m6 & H6 & Hm).
  exists a, b, c, d, e, idx. rewrite Ha, Hb, Hc, Hd, He. split; [done|]. split; [done|].
  apply left_join_rows in H1, H2, H3, H4, H5.
  apply drop_duplicates_Ok in H6 as (_ & H6 & _).
  apply sort_values_Ok in Hm as (_ & Hm).
  rewrite H5, H4, H3, H2, H1 in H6. rewrite !drop_dups_join in H6.
  unfold grid_frame in H6. cbn [rows] in H6.
  change (λ t : Z, {["datetime_utc" := Ts t]}) with grid_row in H6.
  destruct (build_hourly_index_hourly _ _ Hidx) as (s & n & ->).
  rewrite drop_dups_id in H6.
  2:{ rewrite <- list_fmap_compose. apply NoDup_fmap_2; [|apply hourly_NoDup].
      intros x y Hxy. unfold compose, subset_key in Hxy.
      cbn [fmap list_fmap] in Hxy. rewrite !grid_row_key in Hxy.
      by injection Hxy. }
  rewrite <- !list_fmap_compose in H6.
  rewrite Hm, H6. apply sort_by_sorted_id.
  eapply Sorted_fmap; [|apply hourly_sorted].
  intros x y Hxy. unfold row_le, compose.
  rewrite !first_match_key, !grid_row_key. cbn. apply bool_decide_eq_true. lia.
Qed.
End MergeAll.

(** C3. The table [merge_all] produces has exactly one row per instant of
    the grid built from the prepared frames, in grid order, whatever
    number of rows a source has at one timestamp. *)
Theorem merge_all_one_row_per_grid_hour `{Scalars} files (out : DataFrame) :
  merge_all files = Ok out →
  ∃ frames idx,
    prepared files = Ok frames ∧
    build_hourly_index frames = Ok idx ∧
    column "datetime_utc" out = Ts <$> idx ∧
    length (rows out) = length idx ∧
    NoDup (column "datetime_utc" out).
Proof.
  intros Hm.
  destruct (merge_all_rows files out Hm) as (a & b & c & d & e & idx & Hp & Hidx & Hrows).
  exists [a; b; c; d; e], idx. split; [done|]. split; [done|].
  assert (Hcol : column "datetime_utc" out = Ts <$> idx).
  { unfold column. rewrite Hrows, <- list_fmap_compose.
    apply list_fmap_ext. intros i t _. unfold compose.
    by rewrite !first_match_key, grid_row_key. }
  split; [done|]. split.
  - by rewrite Hrows, length_fmap.
  - rewrite Hcol. destruct (build_hourly_index_hourly _ _ Hidx) as (s & n & ->).
    apply NoDup_fmap_2; [|apply hourly_NoDup]. by intros x y [= ->].
Qed.

(** C3 on files in which the AQS frame has two rows at hour 1. *)
Lemma merge_all_one_row_per_grid_hour_witness :
  ∃ out, merge_all SampleMerge.files = Ok out ∧
    ∃ frames idx,
      prepared SampleMerge.files = Ok frames ∧
      build_hourly_index frames = Ok idx ∧
      column "datetime_utc" out = Ts <$> idx ∧
      length (rows out) = length idx ∧
      NoDup (column "datetime_utc" out).
Proof.
  eval_ok (merge_all SampleMerge.files) out Hm.
  exists out. split; [exact Hm|].
  exact (merge_all_one_row_per_grid_hour SampleMerge.files out Hm).
Defined.

(** The scenario of the specification, with a second AQS site at hour 1:
    four grid hours, AQS present at hours 0, 1 and 3, AirNow at hours 1
    and 2; the notice pulled at 00:34:56 meets no grid hour. *)
Example merge_all_sample :
  (out ← merge_all SampleMerge.files;
   Ok (column "datetime_utc" out, column "pm25_aqs" out,
       column "aqi_airnow" out, column "alertLevel" out)) =
  Ok ([Ts 1704067200; Ts 1704070800; Ts 1704074400; Ts 1704078000],
      [Num 5; Num 7; NA; Num 9], [NA; Num 40; Num 42; NA], [NA; NA; NA; NA]).
Proof. vm_compute. reflexivity. Qed.

(** C5 fails on the code: with the AirNow file missing, [_read] hands
    [pd.DataFrame()] to [build_hourly_index], whose lookup of the time
    column raises; with the AQS file reduced to its header line, the
    minimum of the first frame is NaT, Python's [min] keeps it, and
    [pd.date_range] raises.  The other sources have data in both cases. *)
Theorem merge_all_empty_source_raises :
  merge_all SampleMerge.airnow_missing = Raise (KeyError "datetime_utc") ∧
  merge_all SampleMerge.aqs_header_only =
    Raise (ValueError "Neither `start` nor `end` can be NaT").
Proof. split; vm_compute; reflexivity. Qed.

(** An empty frame that has the time column and is not the first one is
    the only empty source the merge passes over. *)
Example merge_all_header_only_later :
  (out ← merge_all SampleMerge.airnow_header_only;
   Ok (column "datetime_utc" out, column "pm25_aqs" out)) =
  Ok ([Ts 1704067200; Ts 1704070800; Ts 1704074400; Ts 1704078000],
      [Num 5; Num 7; NA; Num 9]).
Proof. vm_compute. reflexivity. Qed.

(** *** The values the merged table reports *)

Lemma union_keeps (l x : Row) k :
  is_Some (l !! k) → (l ∪ x) !!! k = l !!! k ∧ is_Some ((l ∪ x) !! k).
Proof.
  intros [v Hv]. rewrite !lookup_total_alt, (lookup_union_Some_l _ _ _ _ Hv), Hv.
  split; [done | by eexists].
Qed.

Lemma first_match_keeps add (l : Row) k :
  is_Some (l !! k) →
  first_match add l !!! k = l !!! k ∧ is_Some (first_match add l !! k).
Proof.
  intros Hl. unfold first_match. destruct (df_empty add); [done|].
  destruct (filter _ (rows add)); by apply union_keeps.
Qed.

Lemma prep_aqs_shape `{Scalars} (df a : DataFrame) :
  prep_aqs df = Ok a → df_empty a = false →
  columns a = ["datetime_utc"; "pm25_aqs"] ∧
  ∀ m : Row, m ∈ rows a → is_Some (m !! "pm25_aqs").
Proof.
  unfold prep_aqs. destruct (df_empty df) eqn:He.
  { intros [= <-] Ha. congruence. }
  intros Hp _. apply bind_Ok in Hp as (sel & Hsel & Hp). injection Hp as <-.
  unfold loc_columns in Hsel.
  destruct (missing_column _ df); [discriminate|]. injection Hsel as <-.
  split; [reflexivity|].
  intros m Hm. cbn [rows rename_column] in Hm.
  apply list_elem_of_fmap in Hm as (r & -> & Hr).
  apply list_elem_of_fmap in Hr as (r0 & -> & _).
  cbn [fmap list_fmap list_to_map foldr uncurry].
  rewrite lookup_insert_ne by done. rewrite lookup_insert_eq.
  rewrite lookup_insert_eq. by eexists.
Qed.

Lemma first_match_aqs (a : DataFrame) t :
  df_empty a = false →
  columns a = ["datetime_utc"; "pm25_aqs"] →
  (∀ m : Row, m ∈ rows a → is_Some (m !! "pm25_aqs")) →
  is_Some (first_match a (grid_row t) !! "pm25_aqs") ∧
  first_match a (grid_row t) !!! "pm25_aqs" =
    match filter (λ m : Row, m !!! "datetime_utc" = Ts t) (rows a) with
    | m :: _ => m !!! "pm25_aqs"
    | [] => NA
    end.
Proof.
  intros He Hcols Hrows. unfold first_match. rewrite He.
  rewrite (list_filter_iff _ (λ m : Row, m !!! "datetime_utc" = Ts t)).
  2:{ intros m. by rewrite grid_row_key. }
  assert (Hg : grid_row t !! "pm25_aqs" = None).
  { unfold grid_row. by rewrite lookup_singleton_ne. }
  destruct (filter _ (rows a)) as [|m ms] eqn:Hf.
  - rewrite Hcols, lookup_total_alt, (lookup_union_r _ _ _ Hg).
    split; [by eexists | done].
  - assert (Hm : m ∈ rows a).
    { assert (Hin : m ∈ filter (λ m : Row, m !!! "datetime_utc" = Ts t) (rows a))
        by (rewrite Hf; left).
      by apply list_elem_of_filter in Hin as [_ Hin]. }
    rewrite !lookup_total_alt, (lookup_union_r _ _ _ Hg).
    split; [by apply Hrows | done].
Qed.

(** C10. When sources hold several rows at one timestamp, [merge_all]
    does not aggregate them: the row of the merged table at a grid
    instant is the grid row extended, source after source in join
    order, by the first row of the source at that instant (or by
    missing values); every later row of a source at the instant leaves
    no trace.  For AQS this makes [pm25_aqs] the measurement of the
    first AQS row at the instant. *)
Theorem merge_all_first_match `{Scalars} files (out : DataFrame) :
  merge_all files = Ok out →
  ∃ a b c d e idx,
    prepared files = Ok [a; b; c; d; e] ∧
    build_hourly_index [a; b; c; d; e] = Ok idx ∧
    rows out =
      (λ t, first_match e (first_match d (first_match c (first_match b
              (first_match a (grid_row t)))))) <$> idx ∧
    (df_empty a = false →
     ∀ i t r, idx !! i = Some t → rows out !! i = Some r →
       r !!! "pm25_aqs" =
         match filter (λ m : Row, m !!! "datetime_utc" = Ts t) (rows a) with
         | m :: _ => m !!! "pm25_aqs"
         | [] => NA
         end).
Proof.
  intros Hm.
  destruct (merge_all_rows files out Hm) as (a & b & c & d & e & idx & Hp & Hidx & Hrows).
  exists a, b, c, d, e, idx. split; [done|]. split; [done|]. split; [done|].
  intros He i t r Hi Hr.
  assert (Ha : prep_aqs (aqs (load_all files)) = Ok a).
  { unfold prepared in Hp. cbn zeta in Hp.
    apply bind_Ok in Hp as (a' & Ha' & Hp). apply bind_Ok in Hp as (b' & _ & Hp).
    apply bind_Ok in Hp as (c' & _ & Hp). apply bind_Ok in Hp as (d' & _ & Hp).
    apply bind_Ok in Hp as (e' & _ & Hp). by injection Hp as -> _ _ _ _. }
  destruct (prep_aqs_shape _ _ Ha He) as [Hcols Hpm].
  destruct (first_match_aqs a t He Hcols Hpm) as [Hsome Hval].
  rewrite Hrows, list_lookup_fmap, Hi in Hr. injection Hr as <-.
  destruct (first_match_keeps b _ "pm25_aqs" Hsome) as [Hb Hsb].
  destruct (first_match_keeps c _ "pm25_aqs" Hsb) as [Hc Hsc].
  destruct (first_match_keeps d _ "pm25_aqs" Hsc) as [Hd Hsd].
  destruct (first_match_keeps e _ "pm25_aqs" Hsd) as [He' _].
  by rewrite He', Hd, Hc, Hb.
Qed.

(** C10 on files in which the AQS frame has two rows at hour 1, with the
    measurements 7 and 8: the table reports 7. *)
Lemma merge_all_first_match_witness :
  ∃ out, merge_all SampleMerge.files = Ok out ∧
    ∃ a b c d e idx,
      prepared SampleMerge.files = Ok [a; b; c; d; e] ∧
      build_hourly_index [a; b; c; d; e] = Ok idx ∧
      rows out =
        (λ t, first_match e (first_match d (first_match c (first_match b
                (first_match a (grid_row t)))))) <$> idx.
Proof.
  eval_ok (merge_all SampleMerge.files) out Hm.
  exists out. split; [exact Hm|].
  destruct (merge_all_first_match SampleMerge.files out Hm)
    as (a & b & c & d & e & idx & Hp & Hidx & Hrows & _).
  exists a, b, c, d, e, idx.
  split; [exact Hp|]. split; [exact Hidx | exact Hrows].
Defined.

(** ** The hourly grid *)

Lemma series_min_spec s :
  match series_min s with
  | Some m => Ts m ∈ s ∧ ∀ t, Ts t ∈ s → m ≤ t
  | None => ∀ t, Ts t ∉ s
  end.
Proof.
  induction s as [|c s IH]; cbn.
  - intros t. apply not_elem_of_nil.
  - fold (series_min s). destruct c as [| | | |t0]; cbn;
      try (destruct (series_min s) as [m|];
           [destruct IH as [Hin Hle]; split;
             [by right | intros t [Ht|Ht]%elem_of_cons; [discriminate | auto]]
           | intros t [Ht|Ht]%elem_of_cons; [discriminate | by apply (IH t)]]).
    destruct (series_min s) as [m|].
    + destruct IH as [Hin Hle]. split.
      * destruct (Z.min_spec t0 m) as [[_ ->]|[_ ->]]; [by left | by right].
      * intros t [[= ->]|Ht]%elem_of_cons; [lia|]. specialize (Hle t Ht). lia.
    + split; [by left|].
      intros t [[= ->]|Ht]%elem_of_cons; [lia | by destruct (IH t)].
Qed.

Lemma series_max_spec s :
  match series_max s with
  | Some m => Ts m ∈ s ∧ ∀ t, Ts t ∈ s → t ≤ m
  | None => ∀ t, Ts t ∉ s
  end.
Proof.
  induction s as [|c s IH]; cbn.
  - intros t. apply not_elem_of_nil.
  - fold (series_max s). destruct c as [| | | |t0]; cbn;
      try (destruct (series_max s) as [m|];
           [destruct IH as [Hin Hle]; split;
             [by right | intros t [Ht|Ht]%elem_of_cons; [discriminate | auto]]
           | intros t [Ht|Ht]%elem_of_cons; [discriminate | by apply (IH t)]]).
    destruct (series_max s) as [m|].
    + destruct IH as [Hin Hle]. split.
      * destruct (Z.max_spec t0 m) as [[_ ->]|[_ ->]]; [by right | by left].
      * intros t [[= ->]|Ht]%elem_of_cons; [lia|]. specialize (Hle t Ht). lia.
    + split; [by left|].
      intros t [[= ->]|Ht]%elem_of_cons; [lia | by destruct (IH t)].
Qed.

(** Python's [min] and [max] over instants none of which is NaT. *)
Lemma py_min_fold x zs :
  ∃ m, foldl (λ m y, if ts_lt y m then y else m) (Some x) (Some <$> zs) = Some m ∧
       m ∈ x :: zs ∧ ∀ z, z ∈ x :: zs → m ≤ z.
Proof.
  revert x. induction zs as [|z zs IH]; intros x; cbn.
  - exists x. split; [done|]. split; [by left|].
    intros z ->%list_elem_of_singleton. lia.
  - case_bool_decide as Hlt.
    + destruct (IH z) as (m & -> & Hin & Hle). exists m. split; [done|].
      split; [by right|].
      intros z' [->|Hz']%elem_of_cons; [|by apply Hle].
      specialize (Hle z (ltac:(by left))). lia.
    + destruct (IH x) as (m & -> & Hin & Hle). exists m. split; [done|]. split.
      * apply elem_of_cons in Hin as [->|Hin]; [by left | by do 2 right].
      * intros z' [->|[->|Hz']%elem_of_cons]%elem_of_cons.
        -- apply Hle. by left.
        -- specialize (Hle x (ltac:(by left))). lia.
        -- apply Hle. by right.
Qed.

Lemma py_max_fold x zs :
  ∃ m, foldl (λ m y, if ts_lt m y then y else m) (Some x) (Some <$> zs) = Some m ∧
       m ∈ x :: zs ∧ ∀ z, z ∈ x :: zs → z ≤ m.
Proof.
  revert x. induction zs as [|z zs IH]; intros x; cbn.
  - exists x. split; [done|]. split; [by left|].
    intros z ->%list_elem_of_singleton. lia.
  - case_bool_decide as Hlt.
    + destruct (IH z) as (m & -> & Hin & Hle). exists m. split; [done|].
      split; [by right|].
      intros z' [->|Hz']%elem_of_cons; [|by apply Hle].
      specialize (Hle z (ltac:(by left))). lia.
    + destruct (IH x) as (m & -> & Hin & Hle). exists m. split; [done|]. split.
      * apply elem_of_cons in Hin as [->|Hin]; [by left | by do 2 right].
      * intros z' [->|[->|Hz']%elem_of_cons]%elem_of_cons.
        -- apply Hle. by left.
        -- specialize (Hle x (ltac:(by left))). lia.
        -- apply Hle. by right.
Qed.

Lemma elem_of_all_stamps c (frames : list DataFrame) :
  c ∈ all_stamps frames ↔ ∃ df, df ∈ frames ∧ c ∈ column "datetime_utc" df.
Proof.
  unfold all_stamps. induction frames as [|df frames IH]; cbn.
  - split; [by intros ?%elem_of_nil | by intros (df & ?%elem_of_nil & _)].
  - rewrite elem_of_app, IH. split.
    + intros [Hc|(df' & Hdf' & Hc)].
      * exists df. split; [by left | done].
      * exists df'. split; [by right | done].
    + intros (df' & [->|Hdf']%elem_of_cons & Hc); [by left|].
      right. by exists df'.
Qed.

Lemma Forall2_elem_of_l {A B : Type} (R : A → B → Prop) l k x :
  Forall2 R l k → x ∈ l → ∃ y, y ∈ k ∧ R x y.
Proof.
  induction 1 as [|x' y l k Hxy Hlk IH]; [by intros ?%elem_of_nil|].
  rewrite elem_of_cons. intros [->|Hx].
  - exists y. split; [by left | done].
  - destruct (IH Hx) as (y' & Hy' & HR). exists y'. split; [by right | done].
Qed.

Lemma valid_frame_dated (df : DataFrame) : valid_frame df → dated df.
Proof.
  intros (Hcol & Hne & Hts). split; [done|].
  destruct (rows df) as [|r rs] eqn:Hr; [done|].
  destruct (Hts r) as [t Ht]; [by left|]. exists t. rewrite <- Ht.
  unfold column. rewrite Hr. by left.
Qed.

Lemma dated_bounds (df : DataFrame) :
  dated df →
  ∃ lo hi,
    (s ← getcol "datetime_utc" df; Ok (series_min s)) = Ok (Some lo) ∧
    (s ← getcol "datetime_utc" df; Ok (series_max s)) = Ok (Some hi) ∧
    (Ts lo ∈ column "datetime_utc" df ∧ ∀ t, Ts t ∈ column "datetime_utc" df → lo ≤ t) ∧
    (Ts hi ∈ column "datetime_utc" df ∧ ∀ t, Ts t ∈ column "datetime_utc" df → t ≤ hi).
Proof.
  intros (Hcol & t0 & Ht0). rewrite (getcol_has _ _ Hcol), !ok_bind.
  fold (column "datetime_utc" df).
  pose proof (series_min_spec (column "datetime_utc" df)) as Hmin.
  pose proof (series_max_spec (column "datetime_utc" df)) as Hmax.
  destruct (series_min _) as [lo|]; [|by destruct (Hmin t0)].
  destruct (series_max _) as [hi|]; [|by destruct (Hmax t0)].
  by exists lo, hi.
Qed.

Lemma frames_bounds (frames : list DataFrame) :
  Forall dated frames →
  ∃ los his,
    mapR (λ df, s ← getcol "datetime_utc" df; Ok (series_min s)) frames = Ok (Some <$> los) ∧
    mapR (λ df, s ← getcol "datetime_utc" df; Ok (series_max s)) frames = Ok (Some <$> his) ∧
    Forall2 (λ df lo, Ts lo ∈ column "datetime_utc" df ∧
                      ∀ t, Ts t ∈ column "datetime_utc" df → lo ≤ t) frames los ∧
    Forall2 (λ df hi, Ts hi ∈ column "datetime_utc" df ∧
                      ∀ t, Ts t ∈ column "datetime_utc" df → t ≤ hi) frames his.
Proof.
  induction 1 as [|df frames Hdf Hfr (los & his & Hlo & Hhi & Hl & Hh)].
  - exists [], []. repeat split; constructor.
  - destruct (dated_bounds df Hdf) as (lo & hi & Hmin & Hmax & Hlb & Hub).
    exists (lo :: los), (hi :: his). cbn [mapR fmap list_fmap].
    rewrite Hmin, Hmax, Hlo, Hhi. repeat split; try done; by constructor.
Qed.

(** The grid of frames that all hold a timestamp, from the earliest
    timestamp [lo] to the latest [hi]. *)
Lemma build_hourly_index_dated (frames : list DataFrame) :
  frames ≠ [] → Forall dated frames →
  ∃ lo hi,
    (Ts lo ∈ all_stamps frames ∧ ∀ t, Ts t ∈ all_stamps frames → lo ≤ t) ∧
    (Ts hi ∈ all_stamps frames ∧ ∀ t, Ts t ∈ all_stamps frames → t ≤ hi) ∧
    build_hourly_index frames = Ok (hourly lo (S (Z.to_nat ((hi - lo) / HOUR)))).
Proof.
  intros Hne Hdated.
  destruct (frames_bounds frames Hdated) as (los & his & Hlos & Hhis & Hl & Hh).
  destruct los as [|l0 los]; [by apply Forall2_nil_inv_r in Hl|].
  destruct his as [|h0 his]; [by apply Forall2_nil_inv_r in Hh|].
  destruct (py_min_fold l0 los) as (lo & Hmin & Hlo_in & Hlo_le).
  destruct (py_max_fold h0 his) as (hi & Hmax & Hhi_in & Hhi_le).
  assert (Hlo : Ts lo ∈ all_stamps frames ∧ ∀ t, Ts t ∈ all_stamps frames → lo ≤ t).
  { split.
    - destruct (Forall2_elem_of_r _ _ _ _ Hl Hlo_in) as (df & Hdf & Hin & _).
      apply elem_of_all_stamps. eauto.
    - intros t (df & Hdf & Ht)%elem_of_all_stamps.
      destruct (Forall2_elem_of_l _ _ _ _ Hl Hdf) as (m & Hm & _ & Hle).
      specialize (Hle t Ht). specialize (Hlo_le m Hm). lia. }
  assert (Hhi : Ts hi ∈ all_stamps frames ∧ ∀ t, Ts t ∈ all_stamps frames → t ≤ hi).
  { split.
    - destruct (Forall2_elem_of_r _ _ _ _ Hh Hhi_in) as (df & Hdf & Hin & _).
      apply elem_of_all_stamps. eauto.
    - intros t (df & Hdf & Ht)%elem_of_all_stamps.
      destruct (Forall2_elem_of_l _ _ _ _ Hh Hdf) as (m & Hm & _ & Hle).
      specialize (Hle t Ht). specialize (Hhi_le m Hm). lia. }
  assert (Hord : lo ≤ hi) by (apply Hhi, Hlo).
  exists lo, hi. split; [done|]. split; [done|].
  unfold build_hourly_index. rewrite Hlos, ok_bind. cbn [fmap list_fmap py_min].
  rewrite ok_bind, Hhis, ok_bind. cbn [fmap list_fmap py_max]. rewrite ok_bind.
  rewrite Hmin, Hmax. unfold date_range. by rewrite bool_decide_eq_true_2.
Qed.

Lemma hourly_last s n : last (hourly s (S n)) = Some (s + HOUR * Z.of_nat n).
Proof.
  rewrite last_lookup, hourly_length. cbn [pred].
  apply hourly_lookup. split; [done | lia].
Qed.

(** C4 (as amended). For a non-empty list of frames that are non-empty
    and have a timestamp in every row, [build_hourly_index] returns a
    strictly increasing sequence with a constant step of one hour that
    starts at the minimum timestamp over all frames and contains every
    instant a whole number of hours after the minimum that is not after
    the maximum; its last element is within less than an hour of the
    maximum, and equal to it exactly when maximum and minimum are a
    whole number of hours apart. *)
Theorem build_hourly_index_grid (frames : list DataFrame) :
  frames ≠ [] → Forall valid_frame frames →
  ∃ lo hi idx,
    build_hourly_index frames = Ok idx ∧
    (Ts lo ∈ all_stamps frames ∧ ∀ t, Ts t ∈ all_stamps frames → lo ≤ t) ∧
    (Ts hi ∈ all_stamps frames ∧ ∀ t, Ts t ∈ all_stamps frames → t ≤ hi) ∧
    Sorted Z.lt idx ∧
    (∀ i t, idx !! i = Some t → t = lo + HOUR * Z.of_nat i) ∧
    head idx = Some lo ∧
    (∃ l, last idx = Some l ∧ l ≤ hi < l + HOUR ∧
          (l = hi ↔ (hi - lo) mod HOUR = 0)) ∧
    (∀ k, 0 ≤ k → lo + HOUR * k ≤ hi → lo + HOUR * k ∈ idx).
Proof.
  intros Hne Hvalid.
  assert (Hdated : Forall dated frames).
  { eapply Forall_impl; [exact Hvalid|]. apply valid_frame_dated. }
  destruct (build_hourly_index_dated frames Hne Hdated) as (lo & hi & Hlo & Hhi & Hidx).
  assert (Hord : lo ≤ hi) by (apply Hhi, Hlo).
  set (n := Z.to_nat ((hi - lo) / HOUR)).
  exists lo, hi, (hourly lo (S n)).
  assert (Hq : 0 ≤ (hi - lo) / HOUR) by (apply Z.div_pos; unfold HOUR; lia).
  assert (Hn : Z.of_nat n = (hi - lo) / HOUR) by (unfold n; lia).
  pose proof (Z.div_mod (hi - lo) HOUR ltac:(unfold HOUR; lia)) as Hdm.
  pose proof (Z.mod_pos_bound (hi - lo) HOUR ltac:(unfold HOUR; lia)) as Hmb.
  split; [exact Hidx|].
  split; [done|]. split; [done|]. split; [apply hourly_sorted|].
  split; [by intros i t [-> _]%hourly_lookup|].
  split.
  { rewrite head_lookup. apply hourly_lookup. split; lia. }
  split.
  { exists (lo + HOUR * Z.of_nat n). split; [apply hourly_last|]. rewrite Hn.
    split; [lia|]. split; intros Heq; lia. }
  intros k Hk Hle. apply (list_elem_of_lookup_2 _ (Z.to_nat k)).
  apply hourly_lookup. split; [by rewrite Z2Nat.id|].
  assert (k ≤ (hi - lo) / HOUR).
  { apply Z.div_le_lower_bound; unfold HOUR in *; lia. }
  unfold n. apply Nat.lt_succ_r, Z2Nat.inj_le; lia.
Qed.

Ltac solve_valid_frames :=
  repeat (apply Forall_cons; split;
          [split; [vm_compute; reflexivity|];
           split; [discriminate|];
           intros r Hr; cbn [rows] in Hr;
           repeat (apply elem_of_cons in Hr as [->|Hr];
                   [eexists; vm_compute; reflexivity|]);
           by apply elem_of_nil in Hr|]);
  apply Forall_nil_2.

Lemma sample_grid_valid : Forall valid_frame SampleGrid.frames.
Proof. unfold SampleGrid.frames, SampleGrid.monitor, SampleGrid.notices. solve_valid_frames. Qed.

(** C4 on hourly samples at 00:00 and 01:00 and a notice pulled at 01:30. *)
Lemma build_hourly_index_grid_witness :
  SampleGrid.frames ≠ [] ∧ Forall valid_frame SampleGrid.frames ∧
  ∃ lo hi idx,
    build_hourly_index SampleGrid.frames = Ok idx ∧
    head idx = Some lo ∧
    (∃ l, last idx = Some l ∧ l ≤ hi < l + HOUR ∧
          (l = hi ↔ (hi - lo) mod HOUR = 0)).
Proof.
  split; [discriminate|]. split; [exact sample_grid_valid|].
  destruct (build_hourly_index_grid SampleGrid.frames ltac:(discriminate) sample_grid_valid)
    as (lo & hi & idx & Hidx & _ & _ & _ & _ & Hhead & Hlast & _).
  exists lo, hi, idx. split; [exact Hidx|]. split; [exact Hhead | exact Hlast].
Defined.

(** C4 as stated fails: the frames are non-empty and every row has a
    timestamp, the latest of which is 01:30, and the grid that starts
    at 00:00 ends at 01:00. *)
Lemma build_hourly_index_last_before_max :
  Forall valid_frame SampleGrid.frames ∧
  build_hourly_index SampleGrid.frames = Ok [1704067200; 1704070800] ∧
  Ts 1704072600 ∈ all_stamps SampleGrid.frames ∧
  (∀ t, Ts t ∈ all_stamps SampleGrid.frames → t ≤ 1704072600) ∧
  last [1704067200; 1704070800] ≠ Some 1704072600.
Proof.
  split; [exact sample_grid_valid|].
  split; [vm_compute; reflexivity|].
  assert (Hs : all_stamps SampleGrid.frames =
               [Ts 1704067200; Ts 1704070800; Ts 1704072600])
    by (vm_compute; reflexivity).
  rewrite Hs. split; [by do 2 right; left|]. split; [|discriminate].
  intros t Ht.
  repeat (apply elem_of_cons in Ht as [[= ->]|Ht]; [lia|]).
  by apply elem_of_nil in Ht.
Qed.

(** ** The merge returns a table for usable files *)

Lemma bind_ret {A : Type} (m : result A) : (x ← m; Ok x) = m.
Proof. by destruct m. Qed.

Lemma selected_lookup_total (f : string → cell) cols k :
  k ∈ cols →
  (list_to_map ((λ c, (c, f c)) <$> cols) : Row) !!! k = f k.
Proof.
  induction cols as [|c cols IH]; [by intros ?%elem_of_nil|].
  intros Hk. cbn. destruct (decide (c = k)) as [->|Hne].
  - by rewrite lookup_total_insert_eq.
  - rewrite lookup_total_insert_ne by done. apply IH.
    apply elem_of_cons in Hk as [->|Hk]; done.
Qed.

Lemma rename_lookup_total_ne old new (df : DataFrame) (r : Row) k :
  k ≠ old → k ≠ new →
  (match r !! old with
   | Some v => <[new := v]> (delete old r)
   | None => r
   end) !!! k = r !!! k.
Proof.
  intros Ho Hn. destruct (r !! old); [|done].
  rewrite lookup_total_insert_ne by done. by rewrite lookup_total_delete_ne.
Qed.

Section Returns.
Context `{Scalars}.

Lemma prep_aqs_with df :
  prep_aqs df =
  prep_with ["datetime_utc"; "sample_measurement"]
            (Some ("sample_measurement", "pm25_aqs")) df.
Proof. reflexivity. Qed.

Lemma prep_airnow_with df :
  prep_airnow df = prep_with ["datetime_utc"; "AQI"] (Some ("AQI", "aqi_airnow")) df.
Proof. reflexivity. Qed.

Lemma prep_purpleair_with df :
  prep_purpleair df =
  prep_with ["datetime_utc"; "pm2.5_atm"; "humidity"; "temperature"; "pressure"]
            (Some ("pm2.5_atm", "pm25_purpleair")) df.
Proof. reflexivity. Qed.

Lemma prep_openmeteo_with df :
  prep_openmeteo df =
  prep_with ["datetime_utc"; "temperature_2m"; "relative_humidity_2m";
             "precipitation"; "rain"; "wind_speed_10m";
             "wind_direction_10m"; "wind_gusts_10m"] None df.
Proof.
  unfold prep_openmeteo, prep_with. destruct (df_empty df); [done|].
  by rewrite bind_ret.
Qed.

Lemma prep_hvo_with df :
  prep_hvo df =
  prep_with ["datetime_utc"; "alertLevel"; "colorCode";
             "alert_change"; "color_change"] None df.
Proof.
  unfold prep_hvo, prep_with. destruct (df_empty df); [done|].
  by rewrite bind_ret.
Qed.

(** A usable file is read and prepared into a non-empty frame that
    holds a timestamp. *)
Lemma prep_with_usable keep renamed file :
  "datetime_utc" ∈ keep →
  match renamed with
  | Some (old, new) => old ≠ "datetime_utc" ∧ new ≠ "datetime_utc"
  | None => True
  end →
  usable keep file →
  ∃ a, prep_with keep renamed (_read file) = Ok a ∧ dated a ∧ df_empty a = false.
Proof.
  intros Hdt Hren (df & -> & Hcols & r & t & Hr & Ht).
  assert (Hhas : has_column "datetime_utc" df = true).
  { apply bool_decide_eq_true. by apply Hcols. }
  unfold _read. rewrite Hhas.
  set (d := assign "datetime_utc" (λ r : Row, to_datetime (r !!! "datetime_utc")) df).
  assert (Hdc : columns d = columns df).
  { unfold d, assign. by rewrite Hhas. }
  assert (Hdr : rows d =
    (λ r : Row, <["datetime_utc" := to_datetime (r !!! "datetime_utc")]> r) <$> rows df)
    by done.
  assert (Hne : df_empty d = false).
  { unfold df_empty. rewrite Hdc, Hdr.
    destruct (columns df) as [|c cs] eqn:Hc.
    - specialize (Hcols _ Hdt). by apply elem_of_nil in Hcols.
    - destruct (rows df); [by apply elem_of_nil in Hr | done]. }
  unfold prep_with. rewrite Hne. unfold loc_columns, missing_column.
  rewrite filter_none.
  2:{ intros c Hc Hn. apply Hn. rewrite Hdc. by apply Hcols. }
  cbn [head]. rewrite ok_bind.
  set (sel := λ r : Row, (list_to_map ((λ c, (c, r !!! c)) <$> keep) : Row)).
  set (r1 := <["datetime_utc" := to_datetime (r !!! "datetime_utc")]> r).
  assert (Hr1 : r1 ∈ rows d).
  { rewrite Hdr. by apply (list_elem_of_fmap_2' _ _ r). }
  assert (Hsel : sel r1 !!! "datetime_utc" = Ts t).
  { unfold sel. rewrite (selected_lookup_total (λ c, r1 !!! c)) by done.
    unfold r1. by rewrite lookup_total_insert_eq. }
  destruct keep as [|k0 keep']; [by apply elem_of_nil in Hdt|].
  destruct renamed as [[old new]|].
  - destruct Hren as [Ho Hn]. eexists. split; [reflexivity|]. split; [split|].
    + unfold has_column, rename_column. cbn [columns].
      apply bool_decide_eq_true.
      apply (list_elem_of_fmap_2' _ _ "datetime_utc"); [done|].
      by rewrite decide_False.
    + exists t. unfold column, rename_column. cbn [rows].
      rewrite <- !list_fmap_compose.
      apply (list_elem_of_fmap_2' _ _ r1); [done|]. unfold compose.
      rewrite (rename_lookup_total_ne old new d) by done. by rewrite <- Hsel.
    + unfold df_empty, rename_column. cbn [columns rows fmap list_fmap].
      destruct (rows d); [by apply elem_of_nil in Hr1 | done].
  - eexists. split; [reflexivity|]. split; [split|].
    + unfold has_column. cbn [columns]. by apply bool_decide_eq_true.
    + exists t. unfold column. cbn [rows]. rewrite <- list_fmap_compose.
      apply (list_elem_of_fmap_2' _ _ r1); [done|]. unfold compose.
      by rewrite <- Hsel.
    + unfold df_empty. cbn [columns rows].
      destruct (rows d); [by apply elem_of_nil in Hr1 | done].
Qed.

Lemma left_join_dated (base add : DataFrame) :
  has_column "datetime_utc" base = true → dated add →
  ∃ m, left_join base add = Ok m ∧ has_column "datetime_utc" m = true.
Proof.
  intros Hb [Ha _]. unfold left_join. destruct (df_empty add); [eauto|].
  unfold merge_left. rewrite Hb, Ha. cbn [negb]. eexists. split; [reflexivity|].
  unfold has_column in *. cbn [columns]. apply bool_decide_eq_true.
  apply bool_decide_eq_true in Hb. apply elem_of_app. by left.
Qed.

(** When every interim file is usable, [merge_all] returns a table. *)
Lemma merge_all_returns files :
  usable ["datetime_utc"; "sample_measurement"] (aqs files) →
  usable ["datetime_utc"; "AQI"] (airnow files) →
  usable ["datetime_utc"; "pm2.5_atm"; "humidity"; "temperature"; "pressure"]
         (purpleair files) →
  usable ["datetime_utc"; "temperature_2m"; "relative_humidity_2m";
          "precipitation"; "rain"; "wind_speed_10m";
          "wind_direction_10m"; "wind_gusts_10m"] (openmeteo files) →
  usable ["datetime_utc"; "alertLevel"; "colorCode";
          "alert_change"; "color_change"] (hvo files) →
  ∃ out, merge_all files = Ok out.
Proof.
  intros Ua Ub Uc Ud Ue.
  apply (prep_with_usable _ (Some ("sample_measurement", "pm25_aqs")))
    in Ua as (a & Ha & Da & _); [|by left | done].
  apply (prep_with_usable _ (Some ("AQI", "aqi_airnow")))
    in Ub as (b & Hb & Db & _); [|by left | done].
  apply (prep_with_usable _ (Some ("pm2.5_atm", "pm25_purpleair")))
    in Uc as (c & Hc & Dc & _); [|by left | done].
  apply (prep_with_usable _ None) in Ud as (d & Hd & Dd & _); [|by left | done].
  apply (prep_with_usable _ None) in Ue as (e & He & De & _); [|by left | done].
  rewrite <- prep_aqs_with in Ha. rewrite <- prep_airnow_with in Hb.
  rewrite <- prep_purpleair_with in Hc. rewrite <- prep_openmeteo_with in Hd.
  rewrite <- prep_hvo_with in He.
  unfold merge_all, load_all. cbn [aqs airnow purpleair openmeteo hvo]. cbn zeta.
  rewrite Ha, ok_bind, Hb, ok_bind, Hc, ok_bind, Hd, ok_bind, He, ok_bind.
  destruct (build_hourly_index_dated [a; b; c; d; e]) as (lo & hi & _ & _ & Hidx);
    [done | repeat (apply Forall_cons_2; [done|]); apply Forall_nil_2 |].
  rewrite Hidx, ok_bind.
  destruct (left_join_dated (grid_frame (hourly lo (S (Z.to_nat ((hi - lo) / HOUR))))) a)
    as (m1 & H1 & C1); [done | done |].
  destruct (left_join_dated m1 b C1 Db) as (m2 & H2 & C2).
  destruct (left_join_dated m2 c C2 Dc) as (m3 & H3 & C3).
  destruct (left_join_dated m3 d C3 Dd) as (m4 & H4 & C4).
  destruct (left_join_dated m4 e C4 De) as (m5 & H5 & C5).
  rewrite H1, ok_bind, H2, ok_bind, H3, ok_bind, H4, ok_bind, H5, ok_bind.
  rewrite drop_duplicates_has.
  2:{ intros k ->%list_elem_of_singleton. by apply bool_decide_eq_true in C5. }
  rewrite ok_bind. unfold sort_values, has_column. cbn [columns].
  unfold has_column in C5. rewrite C5. eauto.
Qed.
End Returns.

(** * Further properties of the code *)

(** ** Normalizers *)

Lemma lookup_foldr_delete cs c (r : Row) :
  c ∈ cs → foldr delete r cs !! c = None.
Proof.
  induction cs as [|c' cs IH]; intros Hc; [by apply elem_of_nil in Hc|].
  cbn. destruct (decide (c = c')) as [->|Hne]; [by rewrite lookup_delete_eq|].
  rewrite lookup_delete_ne by done. apply IH.
  apply elem_of_cons in Hc as [?|?]; [done|done].
Qed.

Lemma sort_values_column_sorted c (df out : DataFrame) :
  sort_values c df = Ok out →
  Sorted (λ a b, time_le a b = true) (column c out).
Proof.
  intros Hs. unfold column.
  eapply Sorted_fmap; [|by eapply sort_values_sorted]. done.
Qed.

Lemma sort_values_elem c (df out : DataFrame) (r : Row) :
  sort_values c df = Ok out → r ∈ rows out ↔ r ∈ rows df.
Proof. intros [_ ->]%sort_values_Ok. by rewrite sort_by_perm. Qed.

Lemma drop_duplicates_elem subset (df out : DataFrame) (r : Row) :
  drop_duplicates subset df = Ok out → r ∈ rows out → r ∈ rows df.
Proof. intros (_ & -> & _)%drop_duplicates_Ok. apply drop_dups_elem. Qed.

Lemma floor_hour_on c : on_the_hour (floor_hour c).
Proof.
  intros t Ht. destruct c; try discriminate. cbn in Ht. injection Ht as <-.
  unfold HOUR. rewrite Z.mul_comm. apply Z.mod_mul. lia.
Qed.

Lemma on_the_hour_floor c : on_the_hour c → floor_hour c = c.
Proof.
  intros Hc. destruct c as [| | | |t]; try done. cbn. f_equal.
  specialize (Hc t eq_refl). unfold HOUR in *.
  pose proof (Z.div_mod t 3600). lia.
Qed.

Section CleanersMore.
Context `{Scalars}.

(** X1. The frame [clean_airnow] returns has one row per reporting area,
    pollutant and timestamp, is in ascending order of [datetime_utc]
    with the rows without a timestamp last, has the column
    [datetime_utc], and has lost the five date and hour columns, in its
    header and in every row. *)
Theorem clean_airnow_output (df out : DataFrame) :
  clean_airnow df = Ok out →
  NoDup (subset_key AIRNOW_KEY <$> rows out) ∧
  Sorted (λ a b, time_le a b = true) (column "datetime_utc" out) ∧
  "datetime_utc" ∈ columns out ∧
  ∀ c, c ∈ AIRNOW_DROPPED →
    (c ∉ columns out) ∧ (∀ r : Row, r ∈ rows out → r !! c = None).
Proof.
  unfold clean_airnow. intros Hc.
  apply bind_Ok in Hc as (headed & Hh & Hc).
  apply bind_Ok in Hc as (date & Hdate & Hc).
  apply bind_Ok in Hc as (left & Hleft & Hc).
  apply bind_Ok in Hc as (hour & Hhour & Hc).
  apply bind_Ok in Hc as (comb & Hcomb & Hc). cbn zeta in Hc.
  apply bind_Ok in Hc as (d3 & Hd3 & Hc).
  split; [by eapply dedup_sort_NoDup|].
  split; [by eapply sort_values_column_sorted|].
  split; [by eapply sort_values_has|].
  intros c Hin.
  pose proof (sort_values_Ok _ _ _ Hc) as [Hcols _].
  pose proof (drop_duplicates_Ok _ _ _ Hd3) as (Hcols3 & _ & _).
  split.
  - rewrite Hcols, Hcols3. cbn [columns drop_columns].
    intros [Hn _]%list_elem_of_filter. by apply Hn.
  - intros r Hr. apply (sort_values_elem _ _ _ r Hc) in Hr.
    apply (drop_duplicates_elem _ _ _ r Hd3) in Hr.
    cbn [rows drop_columns] in Hr.
    apply list_elem_of_fmap in Hr as (r0 & -> & _).
    by apply lookup_foldr_delete.
Qed.


(** X2. [clean_airnow] begins by comparing the first column label with
    the first cell.  On a frame without columns or without rows this
    raises [IndexError].  When the two agree, the twelve AirNow names
    replace the labels, which raises when the frame has not twelve
    columns; the number of rows stays what it was, so the record that
    was read as the header line is not put back. *)
Theorem clean_airnow_header_check (df : DataFrame) :
  (columns df = [] ∨ rows df = [] → clean_airnow df = Raise IndexError) ∧
  (∀ c0 (r0 : Row), head (columns df) = Some c0 → head (rows df) = Some r0 →
     r0 !!! c0 = Str c0 → length (columns df) ≠ 12%nat →
     clean_airnow df = Raise LengthMismatch) ∧
  (∀ headed, fix_header df = Ok headed →
     length (rows headed) = length (rows df) ∧
     (columns headed = AIRNOW_HEADER ∨ headed = df)).
Proof.
  split; [|split].
  - unfold clean_airnow, fix_header, first_column, iloc00.
    intros [Hc|Hr].
    + by rewrite Hc.
    + rewrite Hr. by destruct (columns df).
  - intros c0 r0 Hc Hr Heq Hlen.
    unfold clean_airnow, fix_header, first_column, iloc00, set_columns.
    destruct (columns df) as [|c cs] eqn:Hcols; [discriminate|].
    destruct (rows df) as [|r rs] eqn:Hrows; [discriminate|].
    cbn in Hc, Hr. injection Hc as ->. injection Hr as ->.
    rewrite !ok_bind, Heq.
    rewrite decide_True by done.
    rewrite decide_False; [done|].
    intros Hl. apply Hlen. by rewrite <- Hl.
  - intros headed. unfold fix_header, set_columns.
    intros Hf. apply bind_Ok in Hf as (c0 & _ & Hf).
    apply bind_Ok in Hf as (v0 & _ & Hf).
    destruct (decide (Str c0 = v0)); [|injection Hf as <-; auto].
    destruct (decide _); [|discriminate]. injection Hf as <-.
    cbn. rewrite length_fmap. auto.
Qed.


Lemma elem_of_zip_with_Forall2 {A B C D : Type} (R : A → B → Prop)
    (f : A → D → C) (g : B → D) l k x :
  Forall2 R l k → x ∈ zip_with f l (g <$> k) →
  ∃ a b, a ∈ l ∧ R a b ∧ x = f a (g b).
Proof.
  induction 1 as [|a b l k Hab _ IH]; cbn; intros Hx.
  - by apply elem_of_nil in Hx.
  - apply elem_of_cons in Hx as [->|Hx].
    + exists a, b. split; [by left|done].
    + destruct (IH Hx) as (a' & b' & Ha & HR & ->).
      exists a', b'. split; [by right|done].
Qed.

Lemma time_le_floor a b :
  time_le a b = true → time_le (floor_hour a) (floor_hour b) = true.
Proof.
  destruct a, b; cbn; try done.
  rewrite !bool_decide_eq_true. intros Hle. unfold HOUR.
  pose proof (Z.div_le_mono _ _ 3600 ltac:(lia) Hle). lia.
Qed.

(** What [clean_aqs] floors: a frame with one row per key, in ascending
    order, whose rows carry the parsed GMT date and time of a row of the
    input and a qualifier. *)
Lemma clean_aqs_pre (df out : DataFrame) :
  clean_aqs df = Ok out →
  ∃ pre : DataFrame,
    NoDup (subset_key AQS_KEY <$> rows pre) ∧
    Sorted (λ r1 r2 : Row,
              time_le (r1 !!! "datetime_utc") (r2 !!! "datetime_utc") = true)
      (rows pre) ∧
    rows out =
      (λ r : Row, <["datetime_utc" := floor_hour (r !!! "datetime_utc")]> r)
        <$> rows pre ∧
    columns out = columns pre ∧
    ("date_gmt" ∉ columns pre) ∧
    (∀ r' : Row, r' ∈ rows pre →
       r' !!! "qualifier" ≠ NA ∧
       ∃ r, r ∈ rows df ∧ aqs_stamp r = Ok (r' !!! "datetime_utc")).
Proof.
  unfold clean_aqs. intros Hc.
  apply bind_Ok in Hc as (date & Hdate & Hc).
  apply bind_Ok in Hc as (left & Hleft & Hc).
  apply bind_Ok in Hc as (time & Htime & Hc).
  apply bind_Ok in Hc as (comb & Hcomb & Hc). cbn zeta in Hc.
  apply bind_Ok in Hc as (qual & Hqual & Hc). cbn zeta in Hc.
  apply bind_Ok in Hc as (d4 & Hd4 & Hc).
  apply bind_Ok in Hc as (d5 & Hd5 & Hc).
  apply bind_Ok in Hc as (stamps & Hstamps & Hc). injection Hc as <-.
  apply getcol_Ok in Hdate as [_ ->]. apply getcol_Ok in Htime as [_ ->].
  pose proof (combined_rows _ _ _ _ _ _ _ Hleft Hcomb) as Hf.
  pose proof (getcol_Ok _ _ _ Hqual) as [Hqin ->].
  rewrite assign_values_getcol in Hd4.
  pose proof (getcol_Ok _ _ _ Hstamps) as [Hdin ->].
  pose proof (drop_duplicates_Ok _ _ _ Hd4) as (Hc4 & Hr4 & _).
  pose proof (sort_values_Ok _ _ _ Hd5) as [Hc5 Hr5].
  exists d5. split; [by eapply dedup_sort_NoDup|].
  split; [by eapply sort_values_sorted|].
  split; [by rewrite assign_values_getcol|].
  split.
  { cbn [columns assign_values]. unfold has_column.
    by rewrite bool_decide_eq_true_2. }
  split.
  { rewrite Hc5, Hc4. cbn [columns assign]. unfold has_column.
    rewrite bool_decide_eq_true_2 by done. cbn [columns drop_columns].
    intros [Hn _]%list_elem_of_filter. apply Hn.
    apply (bool_decide_unpack _). vm_compute. exact I. }
  intros r' Hr'. rewrite Hr5, sort_by_perm, Hr4 in Hr'.
  apply drop_dups_elem in Hr'. cbn [rows assign drop_columns] in Hr'.
  apply list_elem_of_fmap in Hr' as (r2 & -> & Hr2).
  apply list_elem_of_fmap in Hr2 as (r1 & -> & Hr1).
  cbn [rows assign_values] in Hr1.
  apply (elem_of_zip_with_Forall2 _ _ _ _ _ _ Hf) in Hr1
    as (r & v & Hr & Hv & ->).
  split.
  { rewrite lookup_total_insert_eq. by destruct (_ !!! "qualifier"). }
  exists r. split; [done|].
  rewrite lookup_total_insert_ne by done.
  rewrite lookup_total_foldr_delete_ne.
  2: { apply (bool_decide_unpack _). vm_compute. exact I. }
  rewrite lookup_total_insert_eq.
  unfold aqs_stamp. apply bind_Ok in Hv as (l & Hl & Hv).
  by rewrite Hl, ok_bind, Hv.
Qed.

(** X3. The frame [clean_aqs] returns is in ascending order of
    [datetime_utc] (flooring keeps the order the sort made), every
    timestamp in it is on a whole hour, and no qualifier is missing. *)
Theorem clean_aqs_output (df out : DataFrame) :
  clean_aqs df = Ok out →
  Sorted (λ a b, time_le a b = true) (column "datetime_utc" out) ∧
  (∀ r : Row, r ∈ rows out →
     on_the_hour (r !!! "datetime_utc") ∧ r !!! "qualifier" ≠ NA).
Proof.
  intros Hc.
  destruct (clean_aqs_pre df out Hc) as (pre & _ & Hs & Hrows & _ & _ & Hpre).
  split.
  - unfold column. rewrite Hrows, <- list_fmap_compose.
    eapply Sorted_fmap; [|exact Hs].
    intros r1 r2 Hle. cbn. rewrite !lookup_total_insert_eq.
    by apply time_le_floor.
  - intros r Hr. rewrite Hrows in Hr.
    apply list_elem_of_fmap in Hr as (r' & -> & Hr').
    rewrite lookup_total_insert_eq, lookup_total_insert_ne by done.
    split; [apply floor_hour_on | by apply Hpre].
Qed.

(** X4. When the GMT date and time of every row of the input is a whole
    hour (or does not parse), the frame [clean_aqs] returns has one row
    per monitoring site, pollutant and timestamp. *)
Theorem clean_aqs_hourly_unique (df out : DataFrame) :
  (∀ (r : Row) c, r ∈ rows df → aqs_stamp r = Ok c → on_the_hour c) →
  clean_aqs df = Ok out →
  NoDup (subset_key AQS_KEY <$> rows out).
Proof.
  intros Hhour Hc.
  destruct (clean_aqs_pre df out Hc) as (pre & Hnd & _ & Hrows & _ & _ & Hpre).
  rewrite Hrows, <- list_fmap_compose.
  erewrite list_fmap_ext; [exact Hnd|].
  intros i r' Hi. apply list_elem_of_lookup_2 in Hi.
  destruct (Hpre r' Hi) as (_ & r & Hr & Hstamp).
  pose proof (on_the_hour_floor _ (Hhour r _ Hr Hstamp)) as Hfl.
  unfold compose, subset_key, AQS_KEY. cbn [fmap list_fmap].
  rewrite Hfl, lookup_total_insert_eq.
  by rewrite !lookup_total_insert_ne by done.
Qed.

Lemma purpleair_from_shape src (df out : DataFrame) :
  purpleair_from src df = Ok out →
  NoDup (subset_key PURPLEAIR_KEY <$> rows out) ∧
  Sorted (λ a b, time_le a b = true) (column "datetime_utc" out) ∧
  ∀ c, c ∈ ["time_stamp"; "last_seen"] → c ∉ columns out.
Proof.
  unfold purpleair_from. intros Hc.
  apply bind_Ok in Hc as (d1 & _ & Hc).
  apply bind_Ok in Hc as (stamps & _ & Hc). cbn zeta in Hc.
  apply bind_Ok in Hc as (d4 & Hd4 & Hc).
  split; [by eapply dedup_sort_NoDup|].
  split; [by eapply sort_values_column_sorted|].
  intros c Hin.
  pose proof (sort_values_Ok _ _ _ Hc) as [-> _].
  pose proof (drop_duplicates_Ok _ _ _ Hd4) as (-> & _ & _).
  cbn [columns drop_columns].
  intros [Hn _]%list_elem_of_filter. by apply Hn.
Qed.

(** X5. The frame [clean_purpleair] returns has one row per sensor and
    timestamp, is in ascending order of [datetime_utc], has every
    timestamp on a whole hour, and has lost the two epoch columns, in
    its header and in every row. *)
Theorem clean_purpleair_output (df out : DataFrame) :
  clean_purpleair df = Ok out →
  NoDup (subset_key PURPLEAIR_KEY <$> rows out) ∧
  Sorted (λ a b, time_le a b = true) (column "datetime_utc" out) ∧
  (∀ r : Row, r ∈ rows out →
     on_the_hour (r !!! "datetime_utc") ∧
     r !! "time_stamp" = None ∧ r !! "last_seen" = None) ∧
  ("time_stamp" ∉ columns out) ∧ ("last_seen" ∉ columns out).
Proof.
  rewrite clean_purpleair_unfold. intros Hc.
  assert (∃ src, purpleair_from src df = Ok out) as [src Hsrc].
  { destruct (has_column "time_stamp" df); [eauto|].
    destruct (has_column "last_seen" df); [eauto|discriminate]. }
  destruct (purpleair_from_shape _ _ _ Hsrc) as (Hnd & Hs & Hcols).
  destruct (purpleair_from_Ok _ _ _ Hsrc) as [_ Hrows].
  split; [done|]. split; [done|].
  split.
  - intros r' Hr'. destruct (Hrows r' Hr') as (r & t & _ & _ & Hdt & ->).
    rewrite Hdt. split; [apply floor_hour_on|].
    split; [by rewrite lookup_delete_eq|].
    rewrite lookup_delete_ne by done. by rewrite lookup_delete_eq.
  - split; apply Hcols; [by left | right; by left].
Qed.

Lemma parse_if_present_columns col (d : DataFrame) :
  columns (parse_if_present col d) = columns d.
Proof.
  unfold parse_if_present, assign. by destruct (has_column col d).
Qed.

Lemma assign_values_columns_ne c k vs (df : DataFrame) :
  k ≠ c → k ∉ columns df → k ∉ columns (assign_values c vs df).
Proof.
  intros Hne Hk. cbn. destruct (has_column c df); [done|].
  rewrite elem_of_app, list_elem_of_singleton. by intros [?|?].
Qed.

Lemma getcol_missing c (df : DataFrame) :
  c ∉ columns df → getcol c df = Raise (KeyError c).
Proof.
  intros Hn. unfold getcol, has_column. by rewrite bool_decide_eq_false_2.
Qed.

(** X6. The normalizers for PurpleAir, HVO and AQS do not accept the
    frame they return: each has dropped a column it starts from, so that
    a second pass raises, with the validation error of [clean_purpleair]
    and with a [KeyError] for [timestamp_utc] and [date_gmt]. *)
Theorem clean_again_raises :
  (∀ df out : DataFrame, clean_purpleair df = Ok out →
     clean_purpleair out =
       Raise (ValueError "❌ Expected a 'time_stamp' or 'last_seen' column in the data.")) ∧
  (∀ df out : DataFrame, clean_hvo df = Ok out →
     clean_hvo out = Raise (KeyError "timestamp_utc")) ∧
  (∀ df out : DataFrame, clean_aqs df = Ok out →
     clean_aqs out = Raise (KeyError "date_gmt")).
Proof.
  split; [|split].
  - intros df out Hc.
    destruct (clean_purpleair_output df out Hc) as (_ & _ & _ & H1 & H2).
    unfold clean_purpleair, has_column.
    by rewrite !bool_decide_eq_false_2.
  - intros df out. unfold clean_hvo. intros Hc. cbn zeta in Hc.
    apply bind_Ok in Hc as (stamps & _ & Hc). cbn zeta in Hc.
    apply bind_Ok in Hc as (d1 & Hd1 & Hc).
    apply bind_Ok in Hc as (d2 & Hd2 & Hc).
    apply bind_Ok in Hc as (level & _ & Hc). cbn zeta in Hc.
    apply bind_Ok in Hc as (color & _ & Hc). injection Hc as <-.
    assert (Hn : "timestamp_utc" ∉ columns d2).
    { pose proof (sort_values_Ok _ _ _ Hd2) as [-> _].
      pose proof (drop_duplicates_Ok _ _ _ Hd1) as (-> & _ & _).
      cbn [columns drop_columns].
      intros [Hn _]%list_elem_of_filter. apply Hn. by left. }
    cbn zeta. rewrite (getcol_missing "timestamp_utc"); [done|].
    cbn [foldl]. rewrite !parse_if_present_columns.
    by do 2 (apply assign_values_columns_ne; [discriminate|]).
  - intros df out Hc.
    destruct (clean_aqs_pre df out Hc) as (pre & _ & _ & _ & Hcols & Hn & _).
    unfold clean_aqs. rewrite (getcol_missing "date_gmt"); [done|].
    by rewrite Hcols.
Qed.



(** Converting the fields [cols] of a row, those that [P] selects. *)
Lemma fold_convert_lookup (P : string → bool) (f : cell → cell) cols (r : Row) c :
  NoDup cols →
  foldl (λ (r : Row) col, if P col then <[col := f (r !!! col)]> r else r) r cols !! c =
  if bool_decide (c ∈ cols) && P c then Some (f (r !!! c)) else r !! c.
Proof.
  revert r. induction cols as [|c0 cols IH]; intros r Hnd; cbn [foldl]; [done|].
  apply NoDup_cons in Hnd as [Hc0 Hnd]. rewrite IH by done.
  destruct (decide (c = c0)) as [->|Hne].
  - rewrite (bool_decide_eq_false_2 (c0 ∈ cols)) by done.
    rewrite (bool_decide_eq_true_2 (c0 ∈ c0 :: cols)) by left. cbn [andb].
    destruct (P c0); [|done]. by rewrite lookup_insert_eq.
  - assert (Hb : bool_decide (c ∈ cols) = bool_decide (c ∈ c0 :: cols)).
    { apply bool_decide_ext. rewrite elem_of_cons. tauto. }
    rewrite <- Hb. destruct (P c0); [|done].
    by rewrite lookup_insert_ne, lookup_total_insert_ne.
Qed.

Lemma fold_convert_lookup_total (P : string → bool) (f : cell → cell) cols (r : Row) c :
  NoDup cols →
  foldl (λ (r : Row) col, if P col then <[col := f (r !!! col)]> r else r) r cols !!! c =
  if bool_decide (c ∈ cols) && P c then f (r !!! c) else r !!! c.
Proof.
  intros Hnd. rewrite (lookup_total_alt (foldl _ _ _)), fold_convert_lookup by done.
  destruct (_ && _); [done|]. by rewrite lookup_total_alt.
Qed.

Lemma to_numeric_idemp c : to_numeric (to_numeric c) = to_numeric c.
Proof.
  destruct c; cbn; try done; by destruct (scalar_to_numeric _).
Qed.

Lemma to_datetime_idemp c : to_datetime (to_datetime c) = to_datetime c.
Proof.
  destruct c; cbn; try done; by destruct (scalar_to_datetime _).
Qed.

Lemma openmeteo_coerce_idemp (df : DataFrame) (r : Row) :
  openmeteo_coerce df (openmeteo_coerce df r) = openmeteo_coerce df r.
Proof.
  assert (Hdt : "datetime_utc" ∉ NUM_COLS).
  { apply (bool_decide_unpack _). vm_compute. exact I. }
  apply map_eq. intros k. unfold openmeteo_coerce.
  rewrite !fold_convert_lookup by apply NUM_COLS_NoDup.
  destruct (bool_decide (k ∈ NUM_COLS) && has_column k df) eqn:Hk.
  - apply andb_true_iff in Hk as [Hin Hcol].
    apply bool_decide_eq_true in Hin.
    assert (Hne : k ≠ "datetime_utc") by (by intros ->).
    rewrite !lookup_total_insert_ne by done.
    rewrite fold_convert_lookup_total by apply NUM_COLS_NoDup.
    rewrite (bool_decide_eq_true_2 _ Hin), Hcol. cbn [andb].
    by rewrite to_numeric_idemp, lookup_total_insert_ne.
  - destruct (decide (k = "datetime_utc")) as [->|Hne].
    + rewrite !lookup_insert_eq.
      rewrite fold_convert_lookup_total by apply NUM_COLS_NoDup.
      rewrite (bool_decide_eq_false_2 _ Hdt). cbn [andb].
      by rewrite lookup_total_insert_eq, to_datetime_idemp.
    + rewrite !lookup_insert_ne by done.
      rewrite fold_convert_lookup by apply NUM_COLS_NoDup.
      by rewrite Hk, lookup_insert_ne.
Qed.

Lemma dropna_all_Ok subset (df out : DataFrame) :
  dropna_all subset df = Ok out → columns out = columns df.
Proof.
  unfold dropna_all. destruct (missing_column _ _); [discriminate|].
  by intros [= <-].
Qed.

Lemma clean_openmeteo_columns (df out : DataFrame) :
  clean_openmeteo df = Ok out →
  has_column "datetime_utc" df = true ∧ columns out = columns df.
Proof.
  unfold clean_openmeteo.
  destruct (has_column "datetime_utc" df) eqn:Hdt; [|discriminate].
  cbn [negb]. cbn zeta. rewrite numeric_if_present_fold. intros Hc.
  apply bind_Ok in Hc as (d1 & Hd1 & Hc).
  apply bind_Ok in Hc as (d2 & Hd2 & Hc).
  split; [done|].
  pose proof (sort_values_Ok _ _ _ Hc) as [-> _].
  pose proof (drop_duplicates_Ok _ _ _ Hd2) as (-> & _ & _).
  rewrite (dropna_all_Ok _ _ _ Hd1). cbn [columns assign]. by rewrite Hdt.
Qed.

Lemma fmap_fixed {A : Type} (f : A → A) (l : list A) :
  (∀ x, x ∈ l → f x = x) → f <$> l = l.
Proof.
  induction l as [|x l IH]; intros Hf; [done|].
  cbn. rewrite Hf by left. f_equal. apply IH. intros y Hy. apply Hf. by right.
Qed.

(** X7. [clean_openmeteo] accepts the frame it returns and leaves it as
    it is: a second pass changes nothing. *)
Theorem clean_openmeteo_idempotent (df out : DataFrame) :
  clean_openmeteo df = Ok out → clean_openmeteo out = Ok out.
Proof.
  intros Hc.
  destruct (clean_openmeteo_columns df out Hc) as [Hdt Hcols].
  destruct (clean_openmeteo_rows df Hdt) as (out' & Hc' & Hrows).
  rewrite Hc in Hc'. injection Hc' as <-.
  assert (Hdt' : has_column "datetime_utc" out = true).
  { by rewrite (has_column_columns _ out df Hcols). }
  destruct (clean_openmeteo_rows out Hdt') as (out2 & Hc2 & Hrows2).
  destruct (clean_openmeteo_columns out out2 Hc2) as [_ Hcols2].
  rewrite Hc2. f_equal.
  assert (Hin : ∀ r, r ∈ rows out →
            core_missing df r = false ∧ ∃ r0, r = openmeteo_coerce df r0).
  { intros r. rewrite Hrows, sort_by_perm. intros Hr.
    apply drop_dups_elem in Hr. apply list_elem_of_filter in Hr as [Hm Hr].
    apply list_elem_of_fmap in Hr as (r0 & -> & _). eauto. }
  assert (Hco : ∀ r, openmeteo_coerce out r = openmeteo_coerce df r).
  { intros r. unfold openmeteo_coerce. apply foldl_step_ext. intros r1 col.
    by rewrite (has_column_columns col out df Hcols). }
  assert (Hcm : ∀ r, core_missing out r = core_missing df r).
  { intros r. unfold core_missing. by rewrite Hcols. }
  assert (Hr2 : rows out2 = rows out).
  { rewrite Hrows2.
    rewrite (fmap_fixed (openmeteo_coerce out)).
    2: { intros r Hr. destruct (Hin r Hr) as [_ [r0 ->]].
         rewrite Hco. apply openmeteo_coerce_idemp. }
    rewrite filter_all.
    2: { intros r Hr. rewrite Hcm. by apply Hin. }
    rewrite drop_dups_id by (by eapply clean_openmeteo_no_duplicates).
    rewrite Hrows. apply sort_by_idemp, row_le_total. }
  by apply frame_ext.
Qed.

(** The fields [clean_hvo] parses as dates, on one row. *)
Lemma parse_if_present_fold cols (d : DataFrame) :
  foldl (λ d col, parse_if_present col d) d cols =
  mkDF (columns d)
    ((λ r : Row,
        foldl (λ (r : Row) col,
                 if has_column col d then <[col := to_datetime (r !!! col)]> r else r)
              r cols) <$> rows d).
Proof.
  revert d. induction cols as [|c cols IH]; intros d; cbn [foldl].
  - by rewrite list_fmap_id, frame_eta.
  - rewrite IH. unfold parse_if_present.
    destruct (has_column c d) eqn:Hc; [|done].
    unfold assign. rewrite Hc. cbn [columns rows].
    rewrite <- list_fmap_compose. f_equal.
Qed.

Lemma column_rows_pair k1 k2 (a b : DataFrame) (r : Row) :
  column k1 a = column k1 b → column k2 a = column k2 b →
  r ∈ rows b →
  ∃ r' : Row, r' ∈ rows a ∧ r' !!! k1 = r !!! k1 ∧ r' !!! k2 = r !!! k2.
Proof.
  unfold column. intros H1 H2 Hr.
  apply list_elem_of_lookup_1 in Hr as [i Hi].
  assert (Hb1 : ((λ r : Row, r !!! k1) <$> rows b) !! i = Some (r !!! k1))
    by (by rewrite list_lookup_fmap, Hi).
  assert (Hb2 : ((λ r : Row, r !!! k2) <$> rows b) !! i = Some (r !!! k2))
    by (by rewrite list_lookup_fmap, Hi).
  rewrite <- H1 in Hb1. rewrite <- H2 in Hb2.
  rewrite list_lookup_fmap in Hb1, Hb2.
  destruct (rows a !! i) as [r'|] eqn:Ha; [|discriminate].
  cbn in Hb1, Hb2. injection Hb1 as Hb1. injection Hb2 as Hb2.
  exists r'. split; [by eapply list_elem_of_lookup_2|done].
Qed.

(** X8. [clean_hvo] keeps one row per notice, the first one archived:
    the notice ids of its result are those of the input, without
    repetition, and the row of a notice carries as [datetime_utc] the
    parsed pull time of the first row of the input with that id. *)
Theorem clean_hvo_first_pull (df out : DataFrame) :
  clean_hvo df = Ok out →
  NoDup (column "noticeId" out) ∧
  (∀ id, id ∈ column "noticeId" out ↔ id ∈ column "noticeId" df) ∧
  (∀ l1 (r : Row) l2, rows df = l1 ++ r :: l2 →
     (∀ r0 : Row, r0 ∈ l1 → r0 !!! "noticeId" ≠ r !!! "noticeId") →
     ∃ r' : Row, r' ∈ rows out ∧
       r' !!! "noticeId" = r !!! "noticeId" ∧
       r' !!! "datetime_utc" = to_datetime (r !!! "timestamp_utc")).
Proof.
  intros Hc.
  destruct (clean_hvo_columns df out Hc) as (s0 & Hnd0 & _ & _ & Hsame0 & _).
  split.
  { rewrite Hsame0 by done. revert Hnd0. apply NoDup_fmap_refine.
    intros x y Hxy. cbn. by rewrite Hxy. }
  clear s0 Hnd0 Hsame0.
  unfold clean_hvo in Hc. cbn zeta in Hc. rewrite parse_if_present_fold in Hc.
  set (P := λ r : Row, foldl _ r _) in Hc.
  apply bind_Ok in Hc as (stamps & Hst & Hc). cbn zeta in Hc.
  apply bind_Ok in Hc as (d1 & Hd1 & Hc).
  apply bind_Ok in Hc as (d2 & Hd2 & Hc).
  apply bind_Ok in Hc as (level & Hlev & Hc). cbn zeta in Hc.
  apply bind_Ok in Hc as (color & Hcol & Hc). injection Hc as <-.
  pose proof (getcol_Ok _ _ _ Hst) as [Hts ->]. cbn [columns rows] in Hts, Hd1.
  apply getcol_column in Hlev, Hcol. subst level.
  rewrite column_assign_values_ne in Hcol
    by (done || by rewrite change_flags_length, column_length).
  subst color.
  set (out := assign_values "color_change" _ _).
  assert (Hsame : ∀ k, k ≠ "alert_change" → k ≠ "color_change" →
            column k out = column k d2).
  { intros k Hk1 Hk2. unfold out.
    rewrite !column_assign_values_ne; try done;
      by rewrite change_flags_length, column_length, ?assign_values_length
        by (by rewrite change_flags_length, column_length). }
  pose proof (drop_duplicates_Ok _ _ _ Hd1) as (_ & Hr1 & _).
  pose proof (sort_values_Ok _ _ _ Hd2) as [_ Hr2].
  cbn [rows drop_columns assign_values] in Hr1.
  rewrite <- (list_fmap_id ((λ r : Row, r !!! "timestamp_utc") <$> (P <$> rows df)))
    in Hr1.
  change (zip_with _ (P <$> rows df) (id <$> _)) with
    (rows (assign_values "datetime_utc"
             (id <$> ((λ r : Row, r !!! "timestamp_utc") <$>
                        rows (mkDF (columns df) (P <$> rows df))))
             (mkDF (columns df) (P <$> rows df)))) in Hr1.
  rewrite assign_values_getcol in Hr1. cbn [rows assign] in Hr1.
  rewrite <- !list_fmap_compose in Hr1.
  set (row := (λ r : Row, foldr delete r ["timestamp_utc"]) ∘ _ ∘ P) in Hr1.
  assert (Hid : ∀ r : Row, row r !!! "noticeId" = r !!! "noticeId").
  { intros r. unfold row, compose. cbn [foldr].
    rewrite lookup_total_delete_ne, lookup_total_insert_ne by done.
    unfold P. rewrite fold_convert_lookup_total.
    2: { apply (bool_decide_unpack _). vm_compute. exact I. }
    rewrite bool_decide_eq_false_2; [done|].
    apply (bool_decide_unpack _). vm_compute. exact I. }
  assert (Hdt : ∀ r : Row,
            row r !!! "datetime_utc" = to_datetime (r !!! "timestamp_utc")).
  { intros r. unfold row, compose. cbn [foldr].
    rewrite lookup_total_delete_ne, lookup_total_insert_eq by done.
    unfold id, P. rewrite fold_convert_lookup_total.
    2: { apply (bool_decide_unpack _). vm_compute. exact I. }
    rewrite bool_decide_eq_true_2 by left. unfold has_column.
    by rewrite bool_decide_eq_true_2. }
  assert (Hkey : ∀ x y : Row,
            subset_key ["noticeId"] x = subset_key ["noticeId"] y ↔
            x !!! "noticeId" = y !!! "noticeId").
  { intros x y. cbn. split; [by intros [= ->] | by intros ->]. }
  split.
  - intros id. rewrite (Hsame "noticeId") by done. unfold column.
    rewrite Hr2. rewrite !list_elem_of_fmap. split.
    + intros (r' & -> & Hr'). rewrite sort_by_perm, Hr1 in Hr'.
      apply drop_dups_elem, list_elem_of_fmap in Hr' as (r & -> & Hr).
      exists r. by rewrite Hid.
    + intros (r & -> & Hr).
      assert (Hk : subset_key ["noticeId"] (row r) ∈
                   subset_key ["noticeId"] <$> drop_dups (subset_key ["noticeId"])
                                                  (row <$> rows df)).
      { apply drop_dups_keys. by apply list_elem_of_fmap_2, list_elem_of_fmap_2. }
      apply list_elem_of_fmap in Hk as (r' & Hk & Hr').
      exists r'. split.
      * apply Hkey in Hk. by rewrite <- Hk, Hid.
      * by rewrite sort_by_perm, Hr1.
  - intros l1 r l2 Hrows Hfirst.
    assert (Hin : row r ∈ rows d2).
    { rewrite Hr2, sort_by_perm, Hr1, Hrows, fmap_app, fmap_cons.
      apply drop_dups_first. intros Hk.
      apply list_elem_of_fmap in Hk as (x & Hk & Hx).
      apply list_elem_of_fmap in Hx as (r0 & -> & Hr0).
      apply Hkey in Hk. rewrite !Hid in Hk. by apply (Hfirst r0). }
    destruct (column_rows_pair "noticeId" "datetime_utc" out d2 (row r))
      as (r' & Hr' & H1 & H2); [by apply Hsame | by apply Hsame | done |].
    exists r'. split; [done|]. by rewrite H1, H2, Hid, Hdt.
Qed.
End CleanersMore.

(** X1 on a dated observation followed by two undated ones. *)
Lemma clean_airnow_output_witness :
  ∃ out, clean_airnow SampleAirnow.mixed = Ok out ∧
    NoDup (subset_key AIRNOW_KEY <$> rows out) ∧
    Sorted (λ a b, time_le a b = true) (column "datetime_utc" out) ∧
    "DateObserved" ∉ columns out.
Proof.
  eval_ok (clean_airnow SampleAirnow.mixed) out Hc. exists out.
  destruct (clean_airnow_output _ _ Hc) as (Hnd & Hs & _ & Hd).
  split; [exact Hc|]. split; [exact Hnd|]. split; [exact Hs|].
  apply (Hd "DateObserved"). by left.
Defined.

(** X2 on an archive that holds its header line only, on a frame of two
    columns whose first row repeats the first label, and on three
    observations under their own header. *)
Lemma clean_airnow_header_check_witness :
  clean_airnow SampleEdge.airnow_header_only = Raise IndexError ∧
  clean_airnow SampleEdge.airnow_headless = Raise LengthMismatch ∧
  ∃ headed, fix_header SampleAirnow.mixed = Ok headed ∧
    length (rows headed) = length (rows SampleAirnow.mixed).
Proof.
  destruct (clean_airnow_header_check SampleEdge.airnow_header_only) as (H1 & _ & _).
  destruct (clean_airnow_header_check SampleEdge.airnow_headless) as (_ & H2 & _).
  destruct (clean_airnow_header_check SampleAirnow.mixed) as (_ & _ & H3).
  split; [apply H1; by right|].
  split.
  { apply (H2 "2024-01-01" (SampleEdge.line "2024-01-01" 6)); try reflexivity.
    cbn. lia. }
  eval_ok (fix_header SampleAirnow.mixed) headed Hh.
  exists headed. split; [exact Hh|]. exact (proj1 (H3 headed Hh)).
Defined.

(** X6 on the sample frames of the three sources. *)
Lemma clean_again_raises_witness :
  (∃ out, clean_purpleair SamplePurple.both = Ok out ∧
     clean_purpleair out =
       Raise (ValueError "❌ Expected a 'time_stamp' or 'last_seen' column in the data.")) ∧
  (∃ out, clean_hvo SampleHvo.five = Ok out ∧
     clean_hvo out = Raise (KeyError "timestamp_utc")) ∧
  (∃ out, clean_aqs SampleAqs.subhour = Ok out ∧
     clean_aqs out = Raise (KeyError "date_gmt")).
Proof.
  destruct clean_again_raises as (H1 & H2 & H3).
  split; [|split].
  - eval_ok (clean_purpleair SamplePurple.both) out Hc.
    exists out. split; [exact Hc | exact (H1 _ _ Hc)].
  - eval_ok (clean_hvo SampleHvo.five) out Hc.
    exists out. split; [exact Hc | exact (H2 _ _ Hc)].
  - eval_ok (clean_aqs SampleAqs.subhour) out Hc.
    exists out. split; [exact Hc | exact (H3 _ _ Hc)].
Defined.

(** X5 on readings of two sensors within one hour. *)
Lemma clean_purpleair_output_witness :
  ∃ out, clean_purpleair SamplePurple.both = Ok out ∧
    NoDup (subset_key PURPLEAIR_KEY <$> rows out) ∧
    ∀ r : Row, r ∈ rows out → on_the_hour (r !!! "datetime_utc").
Proof.
  eval_ok (clean_purpleair SamplePurple.both) out Hc. exists out.
  destruct (clean_purpleair_output _ _ Hc) as (Hnd & _ & Hr & _).
  split; [exact Hc|]. split; [exact Hnd|].
  intros r Hin. exact (proj1 (Hr r Hin)).
Defined.

(** X3 and X4 on hourly samples of one monitor, archived out of order. *)
Lemma clean_aqs_output_witness :
  ∃ out, clean_aqs SampleEdge.aqs_hourly = Ok out ∧
    Sorted (λ a b, time_le a b = true) (column "datetime_utc" out) ∧
    column "datetime_utc" out = [Ts 1704067200; Ts 1704070800].
Proof.
  eval_ok (clean_aqs SampleEdge.aqs_hourly) out Hc. exists out.
  split; [exact Hc|].
  split; [exact (proj1 (clean_aqs_output _ _ Hc))|].
  assert (He : (out ← clean_aqs SampleEdge.aqs_hourly;
                Ok (column "datetime_utc" out)) =
               Ok [Ts 1704067200; Ts 1704070800]) by (vm_compute; reflexivity).
  rewrite Hc, ok_bind in He. by injection He.
Defined.

Lemma clean_aqs_hourly_unique_witness :
  ∃ out, clean_aqs SampleEdge.aqs_hourly = Ok out ∧
    NoDup (subset_key AQS_KEY <$> rows out).
Proof.
  eval_ok (clean_aqs SampleEdge.aqs_hourly) out Hc. exists out.
  split; [exact Hc|].
  apply (clean_aqs_hourly_unique SampleEdge.aqs_hourly out); [|exact Hc].
  intros r c Hr Hs t ->.
  unfold SampleEdge.aqs_hourly in Hr. cbn [rows] in Hr.
  repeat (apply elem_of_cons in Hr as [->|Hr]);
    [| |by apply elem_of_nil in Hr];
    vm_compute in Hs; injection Hs as <-; reflexivity.
Defined.

(** X7 on three hours of weather with gaps. *)
Lemma clean_openmeteo_idempotent_witness :
  ∃ out, clean_openmeteo SampleMeteo.gaps = Ok out ∧ clean_openmeteo out = Ok out.
Proof.
  eval_ok (clean_openmeteo SampleMeteo.gaps) out Hc. exists out.
  split; [exact Hc | exact (clean_openmeteo_idempotent _ _ Hc)].
Defined.

(** X8 on an archive in which notice [n1] was pulled at 01:00, at 02:00
    and, with a new id, at 03:00. *)
Lemma clean_hvo_first_pull_witness :
  ∃ out r', clean_hvo SampleEdge.hvo_pulls = Ok out ∧
    r' ∈ rows out ∧ r' !!! "noticeId" = Str "n1" ∧
    r' !!! "datetime_utc" = Ts 1704070800.
Proof.
  eval_ok (clean_hvo SampleEdge.hvo_pulls) out Hc.
  destruct (clean_hvo_first_pull _ _ Hc) as (_ & _ & Hfirst).
  destruct (Hfirst [] (SampleHvo.notice "2024-01-01 01:00:00" "n1" "NORMAL" "GREEN")
              [SampleHvo.notice "2024-01-01 02:00:00" "n1" "NORMAL" "GREEN";
               SampleHvo.notice "2024-01-01 03:00:00" "n2" "WATCH" "ORANGE"])
    as (r' & Hr' & Hid & Hdt).
  - reflexivity.
  - intros r0 Hr0. by apply elem_of_nil in Hr0.
  - exists out, r'. split; [exact Hc|]. split; [exact Hr'|].
    split; [exact Hid | exact Hdt].
Defined.

(** ** Merge *)

Section MergerMore.
Context `{Scalars}.

Lemma prepared_inv files (a b c d e : DataFrame) :
  prepared files = Ok [a; b; c; d; e] →
  prep_aqs (_read (aqs files)) = Ok a ∧
  prep_airnow (_read (airnow files)) = Ok b ∧
  prep_purpleair (_read (purpleair files)) = Ok c ∧
  prep_openmeteo (_read (openmeteo files)) = Ok d ∧
  prep_hvo (_read (hvo files)) = Ok e.
Proof.
  unfold prepared, load_all. cbn [aqs airnow purpleair openmeteo hvo]. cbn zeta.
  intros Hp.
  apply bind_Ok in Hp as (a' & Ha & Hp). apply bind_Ok in Hp as (b' & Hb & Hp).
  apply bind_Ok in Hp as (c' & Hc & Hp). apply bind_Ok in Hp as (d' & Hd & Hp).
  apply bind_Ok in Hp as (e' & He & Hp). injection Hp as -> -> -> -> ->.
  done.
Qed.

Lemma left_join_columns (base add m : DataFrame) :
  left_join base add = Ok m →
  columns m = columns base ++ joined_columns add.
Proof.
  unfold left_join, joined_columns. destruct (df_empty add).
  - intros [= <-]. by rewrite app_nil_r.
  - unfold merge_left.
    destruct (negb (has_column "datetime_utc" base)); [discriminate|].
    destruct (negb (has_column "datetime_utc" add)); [discriminate|].
    by intros [= <-].
Qed.

(** The header of the merged table, in terms of the prepared frames. *)
Lemma merge_all_joined files out :
  merge_all files = Ok out →
  ∃ a b c d e,
    prepared files = Ok [a; b; c; d; e] ∧
    columns out =
      "datetime_utc" :: joined_columns a ++ joined_columns b ++ joined_columns c ++
                        joined_columns d ++ joined_columns e.
Proof.
  unfold merge_all, prepared. cbn zeta. intros Hm.
  apply bind_Ok in Hm as (a & Ha & Hm). apply bind_Ok in Hm as (b & Hb & Hm).
  apply bind_Ok in Hm as (c & Hc & Hm). apply bind_Ok in Hm as (d & Hd & Hm).
  apply bind_Ok in Hm as (e & He & Hm). cbn zeta in Hm.
  apply bind_Ok in Hm as (idx & Hidx & Hm). cbn zeta in Hm.
  apply bind_Ok in Hm as (m1 & H1 & Hm). apply bind_Ok in Hm as (m2 & H2 & Hm).
  apply bind_Ok in Hm as (m3 & H3 & Hm). apply bind_Ok in Hm as (m4 & H4 & Hm).
  apply bind_Ok in Hm as (m5 & H5 & Hm). apply bind_Ok in Hm as (m6 & H6 & Hm).
  exists a, b, c, d, e. rewrite Ha, Hb, Hc, Hd, He. split; [done|].
  apply left_join_columns in H1, H2, H3, H4, H5.
  apply drop_duplicates_Ok in H6 as (H6 & _ & _).
  apply sort_values_Ok in Hm as (Hm & _).
  rewrite Hm, H6, H5, H4, H3, H2, H1. cbn [columns grid_frame].
  by rewrite <- !app_assoc.
Qed.

Lemma missing_column_Some cs (df : DataFrame) c :
  c ∈ cs → c ∉ columns df → ∃ c', missing_column cs df = Some c'.
Proof.
  intros Hc Hn. unfold missing_column.
  assert (Hin : c ∈ filter (λ c, c ∉ columns df) cs) by by apply list_elem_of_filter.
  destruct (filter _ cs) as [|c' l]; [by apply elem_of_nil in Hin | by exists c'].
Qed.

Lemma loc_columns_Ok cols (df out : DataFrame) :
  loc_columns cols df = Ok out →
  (∀ c, c ∈ cols → c ∈ columns df) ∧
  out = mkDF cols ((λ r : Row, list_to_map ((λ c, (c, r !!! c)) <$> cols)) <$> rows df).
Proof.
  unfold loc_columns. destruct (missing_column cols df) eqn:Hm; [discriminate|].
  intros [= <-]. split; [|done]. intros c Hc. by eapply missing_column_None.
Qed.

(** What a [prep_*] function returns for a frame that is not empty. *)
Lemma prep_with_Ok keep renamed (df p : DataFrame) :
  prep_with keep renamed df = Ok p →
  df_empty df = false →
  keep ≠ [] →
  df_empty p = false ∧
  columns p = renamed_label renamed <$> keep ∧
  (∀ c, c ∈ keep → c ∈ columns df) ∧
  ∀ c, c ∈ keep →
    match renamed with
    | Some (old, new) => c ≠ old ∧ c ≠ new
    | None => True
    end →
    ∀ m : Row, m ∈ rows p → ∃ r : Row, r ∈ rows df ∧ m !!! c = r !!! c.
Proof.
  unfold prep_with. intros Hp He Hk. rewrite He in Hp.
  apply bind_Ok in Hp as (sel & Hsel & Hp).
  apply loc_columns_Ok in Hsel as [Hcols ->].
  assert (Hrows : rows df ≠ []).
  { intros Hr. unfold df_empty in He. rewrite Hr in He. by destruct (columns df). }
  destruct renamed as [[old new]|]; injection Hp as <-.
  - split; [|split; [|split]].
    + unfold df_empty, rename_column. cbn [columns rows].
      destruct keep; [done|]. destruct (rows df); done.
    + done.
    + done.
    + intros c Hc [Ho Hn] m Hm. cbn [rows rename_column] in Hm.
      apply list_elem_of_fmap in Hm as (x & -> & Hx).
      apply list_elem_of_fmap in Hx as (r & -> & Hr).
      exists r. split; [done|].
      set (s := (list_to_map ((λ c, (c, r !!! c)) <$> keep) : Row)).
      rewrite (rename_lookup_total_ne old new df s) by done.
      unfold s. by rewrite (selected_lookup_total (λ c, r !!! c)).
  - split; [|split; [|split]].
    + unfold df_empty. cbn [columns rows].
      destruct keep; [done|]. destruct (rows df); done.
    + cbn. by rewrite list_fmap_id.
    + done.
    + intros c Hc _ m Hm. cbn [rows] in Hm.
      apply list_elem_of_fmap in Hm as (r & -> & Hr).
      exists r. split; [done|].
      by rewrite (selected_lookup_total (λ c, r !!! c)).
Qed.

Lemma prep_with_empty keep renamed (df p : DataFrame) :
  prep_with keep renamed df = Ok p → df_empty df = true → p = df.
Proof. unfold prep_with. intros Hp He. rewrite He in Hp. by injection Hp. Qed.

Lemma prep_with_joined keep renamed (df p : DataFrame) :
  prep_with keep renamed df = Ok p → keep ≠ [] →
  joined_columns p =
    if df_empty df then []
    else filter (λ c, c ≠ "datetime_utc") (renamed_label renamed <$> keep).
Proof.
  intros Hp Hk. unfold joined_columns. destruct (df_empty df) eqn:He.
  - rewrite (prep_with_empty _ _ _ _ Hp He). by rewrite He.
  - destruct (prep_with_Ok _ _ _ _ Hp He Hk) as (-> & -> & _). done.
Qed.

(** X9. When each of the five interim files exists, has the columns the
    merge keeps of it and has a row whose timestamp parses, [merge_all]
    returns a table: it has at least one row, and its header is
    [datetime_utc] followed by the value columns of AQS, AirNow,
    PurpleAir, Open-Meteo and HVO, in this order. *)
Theorem merge_all_usable files :
  usable ["datetime_utc"; "sample_measurement"] (aqs files) →
  usable ["datetime_utc"; "AQI"] (airnow files) →
  usable ["datetime_utc"; "pm2.5_atm"; "humidity"; "temperature"; "pressure"]
         (purpleair files) →
  usable ["datetime_utc"; "temperature_2m"; "relative_humidity_2m";
          "precipitation"; "rain"; "wind_speed_10m";
          "wind_direction_10m"; "wind_gusts_10m"] (openmeteo files) →
  usable ["datetime_utc"; "alertLevel"; "colorCode";
          "alert_change"; "color_change"] (hvo files) →
  ∃ out, merge_all files = Ok out ∧
    columns out = MERGED_COLUMNS ∧ rows out ≠ [].
Proof.
  intros Ua Ub Uc Ud Ue.
  destruct (merge_all_returns files Ua Ub Uc Ud Ue) as [out Hm].
  exists out. split; [done|].
  apply (prep_with_usable _ (Some ("sample_measurement", "pm25_aqs")))
    in Ua as (a & Ha & Da & Ea); [|by left | done].
  apply (prep_with_usable _ (Some ("AQI", "aqi_airnow")))
    in Ub as (b & Hb & Db & Eb); [|by left | done].
  apply (prep_with_usable _ (Some ("pm2.5_atm", "pm25_purpleair")))
    in Uc as (c & Hc & Dc & Ec); [|by left | done].
  apply (prep_with_usable _ None) in Ud as (d & Hd & Dd & Ed); [|by left | done].
  apply (prep_with_usable _ None) in Ue as (e & He & De & Ee); [|by left | done].
  destruct (merge_all_joined files out Hm) as (a' & b' & c' & d' & e' & Hp & Hcols).
  destruct (merge_all_rows files out Hm)
    as (a2 & b2 & c2 & d2 & e2 & idx & Hp2 & Hidx & Hrows).
  rewrite Hp in Hp2. injection Hp2 as <- <- <- <- <-.
  apply prepared_inv in Hp as (Ha' & Hb' & Hc' & Hd' & He').
  rewrite prep_aqs_with, Ha in Ha'. rewrite prep_airnow_with, Hb in Hb'.
  rewrite prep_purpleair_with, Hc in Hc'. rewrite prep_openmeteo_with, Hd in Hd'.
  rewrite prep_hvo_with, He in He'.
  injection Ha' as <-. injection Hb' as <-. injection Hc' as <-.
  injection Hd' as <-. injection He' as <-.
  split.
  - rewrite Hcols.
    rewrite (prep_with_joined _ _ _ _ Ha), (prep_with_joined _ _ _ _ Hb),
      (prep_with_joined _ _ _ _ Hc), (prep_with_joined _ _ _ _ Hd),
      (prep_with_joined _ _ _ _ He) by done.
    assert (Hne : ∀ keep renamed file p,
              prep_with keep renamed (_read file) = Ok p → keep ≠ [] →
              df_empty p = false → df_empty (_read file) = false).
    { intros keep renamed file p Hp Hk Hep.
      destruct (df_empty (_read file)) eqn:Hd0; [|done].
      by rewrite (prep_with_empty _ _ _ _ Hp Hd0), Hd0 in Hep. }
    rewrite (Hne _ _ _ _ Ha), (Hne _ _ _ _ Hb), (Hne _ _ _ _ Hc),
      (Hne _ _ _ _ Hd), (Hne _ _ _ _ He) by done.
    reflexivity.
  - destruct (build_hourly_index_dated [a; b; c; d; e]) as (lo & hi & _ & _ & Hidx');
      [done | repeat (apply Forall_cons_2; [done|]); apply Forall_nil_2 |].
    rewrite Hidx in Hidx'. injection Hidx' as ->.
    rewrite Hrows. unfold hourly. cbn [seq fmap list_fmap]. done.
Qed.

(** X10. The header of the table [merge_all] returns is [datetime_utc]
    followed, source by source in join order, by the value columns of
    the sources whose file holds rows; a source whose file holds no row
    adds no column, so that the table lacks, for example, [aqi_airnow]
    when the AirNow file holds its header line only. *)
Theorem merge_all_header files (out : DataFrame) :
  merge_all files = Ok out →
  columns out =
    "datetime_utc" ::
      source_columns ["pm25_aqs"] (aqs files) ++
      source_columns ["aqi_airnow"] (airnow files) ++
      source_columns ["pm25_purpleair"; "humidity"; "temperature"; "pressure"]
        (purpleair files) ++
      source_columns ["temperature_2m"; "relative_humidity_2m"; "precipitation";
                      "rain"; "wind_speed_10m"; "wind_direction_10m";
                      "wind_gusts_10m"] (openmeteo files) ++
      source_columns ["alertLevel"; "colorCode"; "alert_change"; "color_change"]
        (hvo files).
Proof.
  intros Hm.
  destruct (merge_all_joined files out Hm) as (a & b & c & d & e & Hp & ->).
  apply prepared_inv in Hp as (Ha & Hb & Hc & Hd & He).
  rewrite prep_aqs_with in Ha. rewrite prep_airnow_with in Hb.
  rewrite prep_purpleair_with in Hc. rewrite prep_openmeteo_with in Hd.
  rewrite prep_hvo_with in He.
  rewrite (prep_with_joined _ _ _ _ Ha), (prep_with_joined _ _ _ _ Hb),
    (prep_with_joined _ _ _ _ Hc), (prep_with_joined _ _ _ _ Hd),
    (prep_with_joined _ _ _ _ He) by done.
  reflexivity.
Qed.

Lemma read_empty (df : DataFrame) : df_empty (_read (Some df)) = df_empty df.
Proof.
  unfold _read. destruct (has_column "datetime_utc" df) eqn:Hc; [|done].
  unfold df_empty, assign. rewrite Hc. cbn [columns rows].
  destruct (columns df); [done|]. by destruct (rows df).
Qed.

Lemma read_stamps (df : DataFrame) (r : Row) :
  has_column "datetime_utc" df = true → r ∈ rows (_read (Some df)) →
  ∃ r0 : Row, r0 ∈ rows df ∧
    r !!! "datetime_utc" = to_datetime (r0 !!! "datetime_utc").
Proof.
  intros Hc. unfold _read. rewrite Hc. cbn [rows assign].
  intros (r0 & -> & Hr0)%list_elem_of_fmap.
  exists r0. by rewrite lookup_total_insert_eq.
Qed.

Lemma merged_stamps (a b c d e : DataFrame) (idx : list Z) :
  (λ r : Row, r !!! "datetime_utc") <$>
    ((λ t, first_match e (first_match d (first_match c (first_match b
             (first_match a (grid_row t)))))) <$> idx) = Ts <$> idx.
Proof.
  rewrite <- list_fmap_compose. apply list_fmap_ext. intros i t _.
  unfold compose. by rewrite !first_match_key, grid_row_key.
Qed.

(** X11. The timestamps of the merged table are a whole number of hours
    apart from its first one.  So when that first timestamp, the
    earliest of all sources, is not on a whole hour while the AQS file
    has rows and its timestamps are whole hours, no AQS row is joined:
    [pm25_aqs] is missing in every row of the table. *)
Theorem merge_all_off_hour_grid files (out aqs_df : DataFrame) t0 :
  merge_all files = Ok out →
  head (column "datetime_utc" out) = Some (Ts t0) →
  (∀ t, Ts t ∈ column "datetime_utc" out → (t - t0) mod HOUR = 0) ∧
  (aqs files = Some aqs_df → df_empty aqs_df = false →
   (∀ r : Row, r ∈ rows aqs_df →
      on_the_hour (to_datetime (r !!! "datetime_utc"))) →
   t0 mod HOUR ≠ 0 →
   ∀ r : Row, r ∈ rows out → r !!! "pm25_aqs" = NA).
Proof.
  intros Hm Hhead.
  destruct (merge_all_rows files out Hm)
    as (a & b & c & d & e & idx & Hp & Hidx & Hrows).
  destruct (build_hourly_index_hourly _ _ Hidx) as (s & n & ->).
  assert (Hcol : column "datetime_utc" out = Ts <$> hourly s n).
  { unfold column. rewrite Hrows. apply merged_stamps. }
  assert (Hs : t0 = s).
  { rewrite Hcol in Hhead. destruct n as [|n]; [discriminate|].
    unfold hourly in Hhead. cbn in Hhead. injection Hhead as <-. lia. }
  subst t0.
  assert (Hgrid : ∀ t, t ∈ hourly s n → (t - s) mod HOUR = 0).
  { intros t Ht. apply list_elem_of_lookup_1 in Ht as [i Hi].
    apply hourly_lookup in Hi as [-> _].
    replace (s + HOUR * Z.of_nat i - s) with (Z.of_nat i * HOUR) by lia.
    apply Z.mod_mul. unfold HOUR. lia. }
  split.
  { intros t Ht. rewrite Hcol in Ht.
    apply list_elem_of_fmap in Ht as (t' & [= ->] & Ht'). by apply Hgrid. }
  intros Hfile Hne Hhour Hoff r Hr.
  apply prepared_inv in Hp as (Ha & _). rewrite Hfile in Ha.
  assert (Hre : df_empty (_read (Some aqs_df)) = false) by by rewrite read_empty.
  pose proof Ha as Ha'. rewrite prep_aqs_with in Ha'.
  destruct (prep_with_Ok _ _ _ _ Ha' Hre) as (Hea & _ & Hcols & Hst); [done|].
  destruct (prep_aqs_shape _ _ Ha Hea) as [Hca Hpm].
  rewrite Hrows in Hr. apply list_elem_of_fmap in Hr as (t & -> & Ht).
  destruct (first_match_aqs a t Hea Hca Hpm) as [Hsome Hval].
  destruct (first_match_keeps b _ "pm25_aqs" Hsome) as [Hb Hsb].
  destruct (first_match_keeps c _ "pm25_aqs" Hsb) as [Hc Hsc].
  destruct (first_match_keeps d _ "pm25_aqs" Hsc) as [Hd Hsd].
  destruct (first_match_keeps e _ "pm25_aqs" Hsd) as [He' _].
  rewrite He', Hd, Hc, Hb, Hval.
  rewrite filter_none; [done|].
  intros m Hin Heq.
  destruct (Hst "datetime_utc") with (m := m) as (r1 & Hr1 & Hm1);
    [by left | done | done |].
  assert (Hdt : has_column "datetime_utc" aqs_df = true).
  { apply bool_decide_eq_true.
    assert (Hc0 : "datetime_utc" ∈ columns (_read (Some aqs_df)))
      by (apply Hcols; by left).
    unfold _read in Hc0. destruct (has_column "datetime_utc" aqs_df) eqn:Hh.
    - by apply has_column_elem.
    - done. }
  destruct (read_stamps _ _ Hdt Hr1) as (r0 & Hr0 & Hst0).
  pose proof (Hhour r0 Hr0 t) as Hon.
  rewrite <- Hst0, <- Hm1, Heq in Hon. specialize (Hon eq_refl).
  pose proof (Hgrid t Ht) as Hg. apply Hoff.
  unfold HOUR in *.
  pose proof (Z.div_mod t 3600 ltac:(lia)) as Ht1.
  pose proof (Z.div_mod (t - s) 3600 ltac:(lia)) as Ht2.
  replace s with ((t / 3600 - (t - s) / 3600) * 3600) by lia.
  apply Z.mod_mul. lia.
Qed.

Lemma mapR_Raise_some {A B : Type} (f : A → result B) (l : list A) x e0 :
  x ∈ l → f x = Raise e0 →
  (∀ y e, f y = Raise e → e = e0) →
  mapR f l = Raise e0.
Proof.
  intros Hx Hfx Hall. induction l as [|y l IH]; [by apply elem_of_nil in Hx|].
  cbn. destruct (f y) as [b|e] eqn:Hy.
  - apply elem_of_cons in Hx as [->|Hx]; [congruence|].
    rewrite ok_bind. by rewrite (IH Hx).
  - by rewrite (Hall _ _ Hy).
Qed.

Lemma build_hourly_index_missing (frames : list DataFrame) (f : DataFrame) :
  f ∈ frames → has_column "datetime_utc" f = false →
  build_hourly_index frames = Raise (KeyError "datetime_utc").
Proof.
  intros Hf Hc. unfold build_hourly_index.
  assert (Hm : mapR (λ df, s ← getcol "datetime_utc" df; Ok (series_min s)) frames
               = Raise (KeyError "datetime_utc")).
  { apply (mapR_Raise_some _ frames f); [done| |].
    - unfold getcol. by rewrite Hc.
    - intros y e. unfold getcol. destruct (has_column "datetime_utc" y).
      + rewrite ok_bind. discriminate.
      + by intros [= <-]. }
  by rewrite Hm.
Qed.

Lemma prep_with_Raise keep renamed (df : DataFrame) e :
  prep_with keep renamed df = Raise e → ∃ c, c ∈ keep ∧ e = KeyError c.
Proof.
  unfold prep_with, loc_columns, missing_column.
  destruct (df_empty df); [discriminate|].
  destruct (filter _ keep) as [|c l] eqn:Hf; [discriminate|].
  cbn. intros [= <-]. exists c. split; [|done].
  assert (Hin : c ∈ filter (λ c, c ∉ columns df) keep) by (rewrite Hf; left).
  by apply list_elem_of_filter in Hin as [_ Hin].
Qed.

Lemma prep_with_missing keep renamed :
  prep_with keep renamed (_read None) = Ok empty_frame.
Proof. reflexivity. Qed.

(** When one of the files is read as no frame at all, the grid builder
    has no [datetime_utc] column to read. *)
Lemma merge_all_missing_read files :
  aqs files = None ∨ airnow files = None ∨ purpleair files = None ∨
  openmeteo files = None ∨ hvo files = None →
  ∃ c, merge_all files = Raise (KeyError c).
Proof.
  intros Hnone. unfold merge_all, load_all.
  cbn [aqs airnow purpleair openmeteo hvo]. cbn zeta.
  rewrite prep_aqs_with, prep_airnow_with, prep_purpleair_with,
    prep_openmeteo_with, prep_hvo_with.
  destruct (prep_with _ _ (_read (aqs files))) as [a|ea] eqn:Ha.
  2: { destruct (prep_with_Raise _ _ _ _ Ha) as (k & _ & ->). by exists k. }
  rewrite ok_bind.
  destruct (prep_with _ _ (_read (airnow files))) as [b|eb] eqn:Hb.
  2: { destruct (prep_with_Raise _ _ _ _ Hb) as (k & _ & ->). by exists k. }
  rewrite ok_bind.
  destruct (prep_with _ _ (_read (purpleair files))) as [c|ec] eqn:Hc.
  2: { destruct (prep_with_Raise _ _ _ _ Hc) as (k & _ & ->). by exists k. }
  rewrite ok_bind.
  destruct (prep_with _ _ (_read (openmeteo files))) as [d|ed] eqn:Hd.
  2: { destruct (prep_with_Raise _ _ _ _ Hd) as (k & _ & ->). by exists k. }
  rewrite ok_bind.
  destruct (prep_with _ _ (_read (hvo files))) as [e|ee] eqn:He.
  2: { destruct (prep_with_Raise _ _ _ _ He) as (k & _ & ->). by exists k. }
  rewrite ok_bind.
  exists "datetime_utc".
  rewrite (build_hourly_index_missing [a; b; c; d; e] empty_frame); [done| |done].
  destruct Hnone as [Hn|[Hn|[Hn|[Hn|Hn]]]]; rewrite Hn in *.
  - rewrite prep_with_missing in Ha. injection Ha as <-. by left.
  - rewrite prep_with_missing in Hb. injection Hb as <-. right. by left.
  - rewrite prep_with_missing in Hc. injection Hc as <-. do 2 right. by left.
  - rewrite prep_with_missing in Hd. injection Hd as <-. do 3 right. by left.
  - rewrite prep_with_missing in He. injection He as <-. do 4 right. by left.
Qed.

Lemma mapR_length {A B : Type} (f : A → result B) (l : list A) l' :
  mapR f l = Ok l' → length l' = length l.
Proof. intros Hm%mapR_Ok_inv. symmetry. by eapply Forall2_length. Qed.

Lemma build_hourly_index_Raise (frames : list DataFrame) e :
  frames ≠ [] →
  build_hourly_index frames = Raise e →
  e = KeyError "datetime_utc" ∨
  e = ValueError "Neither `start` nor `end` can be NaT".
Proof.
  intros Hne. unfold build_hourly_index. intros Hb.
  assert (Hget : ∀ (g : list cell → option Z) (fr : list DataFrame) e',
            mapR (λ df, s ← getcol "datetime_utc" df; Ok (g s)) fr = Raise e' →
            e' = KeyError "datetime_utc").
  { intros g fr e' (x & _ & Hx)%mapR_Raise. unfold getcol in Hx.
    destruct (has_column "datetime_utc" x); [discriminate|]. by injection Hx. }
  apply bind_Raise in Hb as [Hb|(mins & Hmins & Hb)]; [left; by eapply Hget|].
  assert (Hl : length mins = length frames) by by eapply mapR_length.
  destruct mins as [|m0 mins]; [by destruct frames|].
  cbn [py_min] in Hb. rewrite ok_bind in Hb.
  apply bind_Raise in Hb as [Hb|(maxs & Hmaxs & Hb)]; [left; by eapply Hget|].
  assert (Hl' : length maxs = length frames) by by eapply mapR_length.
  destruct maxs as [|x0 maxs]; [by destruct frames|].
  cbn [py_max] in Hb. rewrite ok_bind in Hb.
  unfold date_range in Hb.
  repeat case_match; try discriminate; injection Hb as <-; by right.
Qed.

Lemma left_join_Raise (base add : DataFrame) e :
  left_join base add = Raise e → e = KeyError "datetime_utc".
Proof.
  unfold left_join, merge_left. destruct (df_empty add); [discriminate|].
  destruct (negb (has_column "datetime_utc" base)); [by intros [= <-]|].
  destruct (negb (has_column "datetime_utc" add)); [by intros [= <-]|].
  discriminate.
Qed.

(** Once the files are read, [merge_all] fails with a [KeyError] or with
    the [ValueError] of [pd.date_range]. *)
Lemma merge_all_read_errors files e :
  merge_all files = Raise e →
  (∃ c, e = KeyError c) ∨
  e = ValueError "Neither `start` nor `end` can be NaT".
Proof.
  unfold merge_all. cbn zeta.
  rewrite prep_aqs_with, prep_airnow_with, prep_purpleair_with,
    prep_openmeteo_with, prep_hvo_with.
  intros Hm.
  apply bind_Raise in Hm as [Hm|(a & _ & Hm)].
  { destruct (prep_with_Raise _ _ _ _ Hm) as (k & _ & ->). eauto. }
  apply bind_Raise in Hm as [Hm|(b & _ & Hm)].
  { destruct (prep_with_Raise _ _ _ _ Hm) as (k & _ & ->). eauto. }
  apply bind_Raise in Hm as [Hm|(c & _ & Hm)].
  { destruct (prep_with_Raise _ _ _ _ Hm) as (k & _ & ->). eauto. }
  apply bind_Raise in Hm as [Hm|(d & _ & Hm)].
  { destruct (prep_with_Raise _ _ _ _ Hm) as (k & _ & ->). eauto. }
  apply bind_Raise in Hm as [Hm|(e0 & _ & Hm)].
  { destruct (prep_with_Raise _ _ _ _ Hm) as (k & _ & ->). eauto. }
  cbn zeta in Hm.
  apply bind_Raise in Hm as [Hm|(idx & _ & Hm)].
  { apply build_hourly_index_Raise in Hm as [->| ->]; [eauto|by right|done]. }
  cbn zeta in Hm.
  do 5 (apply bind_Raise in Hm as [Hm|(? & _ & Hm)];
        [apply left_join_Raise in Hm as ->; eauto|]).
  apply bind_Raise in Hm as [Hm|(? & _ & Hm)].
  { apply drop_duplicates_Raise in Hm as [k ->]. eauto. }
  apply sort_values_Raise in Hm as ->. eauto.
Qed.
End MergerMore.

Section MergerPaths.
Context `{Scalars} `{Csv}.

Lemma read_path_Raise file e :
  read_path file = Raise e → ∃ f, file = Some f ∧ read_csv [] f = Raise e.
Proof.
  destruct file as [f|]; [|discriminate]. cbn.
  destruct (read_csv [] f) as [df|e'] eqn:Hf; [discriminate|].
  intros [= <-]. eauto.
Qed.

Lemma read_path_Ok file out :
  read_path file = Ok out → (file = None ↔ out = None).
Proof.
  destruct file as [f|]; cbn; [|by intros [= <-]].
  destruct (read_csv [] f); [|discriminate]. by intros [= <-].
Qed.

Lemma read_paths_Raise disk e :
  read_paths disk = Raise e →
  ∃ f, f ∈ existing disk ∧ read_csv [] f = Raise e.
Proof.
  unfold read_paths, existing. intros Hr.
  repeat (apply bind_Raise in Hr as [Hr|(? & _ & Hr)];
          [apply read_path_Raise in Hr as (f & Hf & Hr); exists f;
           split; [|done]; rewrite list_elem_of_omap; exists (Some f);
           split; [|done]; rewrite <- Hf; set_solver |]).
  discriminate.
Qed.

Lemma read_path_Ok_read file out f :
  read_path file = Ok out → Some f = file → is_ok (read_csv [] f) = true.
Proof. intros Hr <-. cbn in Hr. by destruct (read_csv [] f). Qed.

Lemma read_paths_Ok_all disk files f :
  read_paths disk = Ok files → f ∈ existing disk →
  is_ok (read_csv [] f) = true.
Proof.
  unfold read_paths, existing. intros Hr Hf.
  apply list_elem_of_omap in Hf as (o & Hin & Hof).
  destruct o as [f0|]; [|discriminate]. cbn in Hof. injection Hof as ->.
  apply bind_Ok in Hr as (a & Ha & Hr). apply bind_Ok in Hr as (n & Hn & Hr).
  apply bind_Ok in Hr as (p & Hp & Hr). apply bind_Ok in Hr as (o & Ho & Hr).
  apply bind_Ok in Hr as (h & Hh & _).
  apply elem_of_cons in Hin as [Hin|Hin]; [exact (read_path_Ok_read _ _ _ Ha Hin)|].
  apply elem_of_cons in Hin as [Hin|Hin]; [exact (read_path_Ok_read _ _ _ Hn Hin)|].
  apply elem_of_cons in Hin as [Hin|Hin]; [exact (read_path_Ok_read _ _ _ Hp Hin)|].
  apply elem_of_cons in Hin as [Hin|Hin]; [exact (read_path_Ok_read _ _ _ Ho Hin)|].
  apply elem_of_cons in Hin as [Hin|Hin]; [exact (read_path_Ok_read _ _ _ Hh Hin)|].
  by apply elem_of_nil in Hin.
Qed.

Lemma read_paths_Ok disk :
  (∀ f, f ∈ existing disk → is_ok (read_csv [] f) = true) →
  ∃ files, read_paths disk = Ok files ∧
    (aqs disk = None ↔ aqs files = None) ∧
    (airnow disk = None ↔ airnow files = None) ∧
    (purpleair disk = None ↔ purpleair files = None) ∧
    (openmeteo disk = None ↔ openmeteo files = None) ∧
    (hvo disk = None ↔ hvo files = None).
Proof.
  intros Hok. destruct (read_paths disk) as [files|e] eqn:Hr.
  - exists files. split; [done|]. unfold read_paths in Hr.
    apply bind_Ok in Hr as (a & Ha & Hr). apply bind_Ok in Hr as (n & Hn & Hr).
    apply bind_Ok in Hr as (p & Hp & Hr). apply bind_Ok in Hr as (o & Ho & Hr).
    apply bind_Ok in Hr as (h & Hh & Hr). injection Hr as <-.
    cbn [aqs airnow purpleair openmeteo hvo].
    split; [exact (read_path_Ok _ _ Ha)|]. split; [exact (read_path_Ok _ _ Hn)|].
    split; [exact (read_path_Ok _ _ Hp)|]. split; [exact (read_path_Ok _ _ Ho)|].
    exact (read_path_Ok _ _ Hh).
  - apply read_paths_Raise in Hr as (f & Hf & Hr).
    specialize (Hok f Hf). by rewrite Hr in Hok.
Qed.

(** X12. The files are read before anything else: when [pd.read_csv]
    raises for a file that exists, [merge_all] ends with an exception of
    the reader.  When the reader returns a frame for every file that
    exists and one of the five files does not exist, [merge_all] raises
    a [KeyError]: the frame that stands for the missing file has no
    [datetime_utc] column for the grid builder to read. *)
Theorem merge_all_paths_missing disk :
  ((∃ f, f ∈ existing disk ∧ is_ok (read_csv [] f) = false) →
   ∃ f e, f ∈ existing disk ∧ read_csv [] f = Raise e ∧
          merge_all_paths disk = Raise e) ∧
  ((∀ f, f ∈ existing disk → is_ok (read_csv [] f) = true) →
   aqs disk = None ∨ airnow disk = None ∨ purpleair disk = None ∨
   openmeteo disk = None ∨ hvo disk = None →
   ∃ c, merge_all_paths disk = Raise (KeyError c)).
Proof.
  unfold merge_all_paths. split.
  - intros (f & Hf & Hbad).
    destruct (read_paths disk) as [files|e] eqn:Hr.
    + rewrite (read_paths_Ok_all disk files f Hr Hf) in Hbad. discriminate.
    + destruct (read_paths_Raise disk e Hr) as (f' & Hf' & He).
      by exists f', e.
  - intros Hok Hnone. destruct (read_paths_Ok disk Hok) as (files & -> & Hfiles).
    rewrite ok_bind. apply merge_all_missing_read.
    destruct Hfiles as (H1 & H2 & H3 & H4 & H5). tauto.
Qed.

(** X13. [merge_all] fails in three ways only: with the exception
    [pd.read_csv] raises for one of the files that exist, with a
    [KeyError] for a column that a file lacks, or with the [ValueError]
    of [pd.date_range] for a start or end that is not a time. *)
Theorem merge_all_paths_errors disk e :
  merge_all_paths disk = Raise e →
  (∃ f, f ∈ existing disk ∧ read_csv [] f = Raise e) ∨
  (∃ c, e = KeyError c) ∨
  e = ValueError "Neither `start` nor `end` can be NaT".
Proof.
  unfold merge_all_paths. intros Hm.
  apply bind_Raise in Hm as [Hm|(files & _ & Hm)].
  - left. by apply read_paths_Raise.
  - right. by apply merge_all_read_errors in Hm.
Qed.
End MergerPaths.

Ltac solve_usable :=
  eexists; split; [reflexivity|]; split;
    [ intros c Hc; repeat (apply elem_of_cons in Hc as [->|Hc]);
        [ apply (bool_decide_unpack _); vm_compute; exact I .. | by apply elem_of_nil in Hc ]
    | eexists _, _; split; [apply list_elem_of_here | vm_compute; reflexivity] ].

(** X9 on the five sample files. *)
Lemma merge_all_usable_witness :
  ∃ out, merge_all SampleMerge.files = Ok out ∧
    columns out = MERGED_COLUMNS ∧ rows out ≠ [].
Proof.
  apply merge_all_usable; cbn [SampleMerge.files aqs airnow purpleair openmeteo hvo].
  - unfold SampleMerge.aqs_file. solve_usable.
  - unfold SampleMerge.airnow_file. solve_usable.
  - unfold SampleMerge.purpleair_file. solve_usable.
  - unfold SampleMerge.openmeteo_file. solve_usable.
  - unfold SampleMerge.hvo_file. solve_usable.
Defined.

(** X10 on files of which the AirNow file holds its header line only:
    the table has no [aqi_airnow] column. *)
Lemma merge_all_header_witness :
  ∃ out, merge_all SampleMerge.airnow_header_only = Ok out ∧
    columns out =
      ["datetime_utc"; "pm25_aqs";
       "pm25_purpleair"; "humidity"; "temperature"; "pressure";
       "temperature_2m"; "relative_humidity_2m"; "precipitation"; "rain";
       "wind_speed_10m"; "wind_direction_10m"; "wind_gusts_10m";
       "alertLevel"; "colorCode"; "alert_change"; "color_change"].
Proof.
  eval_ok (merge_all SampleMerge.airnow_header_only) out Hm. exists out.
  split; [exact Hm|].
  rewrite (merge_all_header _ _ Hm). vm_compute. reflexivity.
Defined.

(** X11 on files in which the HVO notice was pulled at 23:34:56, before
    the first AQS hour: the grid runs from 23:34:56 in steps of one hour
    and no AQS measurement is joined. *)
Lemma merge_all_off_hour_grid_witness :
  ∃ out, merge_all SampleEdge.early_notice = Ok out ∧
    head (column "datetime_utc" out) = Some (Ts 1704065696) ∧
    ∀ r : Row, r ∈ rows out → r !!! "pm25_aqs" = NA.
Proof.
  eval_ok (merge_all SampleEdge.early_notice) out Hm. exists out.
  assert (Hh : (out ← merge_all SampleEdge.early_notice;
                Ok (head (column "datetime_utc" out))) = Ok (Some (Ts 1704065696)))
    by (vm_compute; reflexivity).
  rewrite Hm, ok_bind in Hh. injection Hh as Hh.
  split; [exact Hm|]. split; [exact Hh|].
  destruct (merge_all_off_hour_grid _ out SampleMerge.aqs_file _ Hm Hh) as [_ Hna].
  apply Hna.
  - reflexivity.
  - reflexivity.
  - intros r Hr t Ht. unfold SampleMerge.aqs_file in Hr. cbn [rows] in Hr.
    repeat (apply elem_of_cons in Hr as [->|Hr]);
      [ vm_compute in Ht; injection Ht as <-; reflexivity ..
      | by apply elem_of_nil in Hr ].
  - intros Hz. vm_compute in Hz. discriminate.
Defined.

(** The same files, evaluated. *)
Example merge_all_early_notice :
  (out ← merge_all SampleEdge.early_notice;
   Ok (column "datetime_utc" out, column "pm25_aqs" out, column "alertLevel" out)) =
  Ok ([Ts 1704065696; Ts 1704069296; Ts 1704072896; Ts 1704076496],
      [NA; NA; NA; NA], [Str "WATCH"; NA; NA; NA]).
Proof. vm_compute. reflexivity. Qed.

(** X12 on files of which the AirNow file does not exist, read as they
    were written. *)
Lemma merge_all_paths_missing_witness :
  ∃ c, merge_all_paths SampleMerge.airnow_missing = Raise (KeyError c).
Proof.
  apply (proj2 (merge_all_paths_missing SampleMerge.airnow_missing)).
  - intros f _. reflexivity.
  - right. left. reflexivity.
Defined.

(** With a reader that finds nothing to parse in the HVO file, the
    missing AirNow file is never looked at: the reader's exception is
    what [merge_all] raises. *)
Example merge_all_paths_unreadable :
  @merge_all_paths iso_scalars SampleReader.strict_csv
    SampleReader.hvo_blank_airnow_missing =
    Raise (ValueError "No columns to parse from file") ∧
  @merge_all_paths iso_scalars SampleReader.strict_csv SampleReader.hvo_blank =
    Raise (ValueError "No columns to parse from file").
Proof. split; vm_compute; reflexivity. Qed.

(** X13 on files of which the AQS file holds its header line only. *)
Lemma merge_all_paths_errors_witness :
  merge_all_paths SampleMerge.aqs_header_only =
    Raise (ValueError "Neither `start` nor `end` can be NaT") ∧
  ((∃ f, f ∈ existing SampleMerge.aqs_header_only ∧
         read_csv [] f = Raise (ValueError "Neither `start` nor `end` can be NaT")) ∨
   (∃ c, ValueError "Neither `start` nor `end` can be NaT" = KeyError c) ∨
   ValueError "Neither `start` nor `end` can be NaT" =
     ValueError "Neither `start` nor `end` can be NaT").
Proof.
  assert (Hr : merge_all_paths SampleMerge.aqs_header_only =
               Raise (ValueError "Neither `start` nor `end` can be NaT"))
    by (vm_compute; reflexivity).
  split; [exact Hr|]. exact (merge_all_paths_errors _ _ Hr).
Defined.

(** ** Archive updates *)

Lemma drop_dups_length {A K : Type} `{EqDecision K} (key : A → K) (l : list A) :
  (length (drop_dups key l) ≤ length l)%nat.
Proof.
  induction l as [|x l IH]; cbn; [done|].
  pose proof (length_filter (λ y, key y ≠ key x) (drop_dups key l)). lia.
Qed.

Lemma elem_of_column_key c (l : list Row) (v : cell) :
  v ∈ (λ r : Row, r !!! c) <$> l ↔ [v] ∈ subset_key [c] <$> l.
Proof.
  rewrite !list_elem_of_fmap. split.
  - intros (r & -> & Hr). by exists r.
  - intros (r & [= ->] & Hr). by exists r.
Qed.

Section ArchivesMore.
Context `{Csv}.

(** X14. [append_unique] gives the archived rows precedence: the new
    archive is the archive as it is read, its duplicate keys dropped,
    followed by the first fetched row of every key that is not
    archived.  A fetched row whose key is archived is discarded, also
    when it carries other values than the archived row.  The count that
    is reported is the difference of the two lengths; when the archive
    has no duplicate keys it is the number of rows added, between zero
    and the size of the batch. *)
Theorem append_unique_archive_first recs (A X out : DataFrame) n :
  recs ≠ [] →
  read_csv ["date_local"] A = Ok X →
  append_unique recs (Some A) = Ok (n, Some out) →
  let key := subset_key AQS_RAW_KEY in
  rows out =
    drop_dups key (rows X) ++
    filter (λ r, key r ∉ key <$> rows X) (drop_dups key recs) ∧
  (∀ r' : Row, r' ∈ rows out → key r' ∈ key <$> rows X → r' ∈ rows X) ∧
  n = Z.of_nat (length (rows out)) - Z.of_nat (length (rows X)) ∧
  (NoDup (key <$> rows X) →
     0 ≤ n ≤ Z.of_nat (length recs) ∧
     rows out = rows X ++ drop (length (rows X)) (rows out)).
Proof.
  intros Hne Hread Hap key.
  destruct recs as [|r0 recs0] eqn:Hrecs; [done|]. rewrite <- Hrecs in *. clear Hne.
  unfold append_unique in Hap. rewrite Hrecs in Hap at 1.
  rewrite Hread, ok_bind in Hap.
  apply bind_Ok in Hap as (comb & Hcomb & Hap). injection Hap as <- <-.
  apply drop_duplicates_Ok in Hcomb as (_ & Hrows & _).
  cbn [rows concat frame_of_records] in Hrows.
  rewrite drop_dups_app in Hrows. fold key in Hrows.
  split; [done|]. split; [|split].
  - intros r' Hr' Hk. rewrite Hrows in Hr'.
    apply elem_of_app in Hr' as [Hr'|Hr'].
    + by apply drop_dups_elem in Hr'.
    + by apply list_elem_of_filter in Hr' as [Hn _].
  - done.
  - intros Hnd. rewrite (drop_dups_id key (rows X) Hnd) in Hrows.
    unfold frame_len. rewrite Hrows, length_app.
    pose proof (length_filter (λ r, key r ∉ key <$> rows X) (drop_dups key recs)).
    pose proof (drop_dups_length key recs).
    split; [lia|]. by rewrite drop_app_length.
Qed.

(** X15. After an update by [openmeteo_recent.main] the archive has one
    row per timestamp, in ascending order; every timestamp of the
    archive as it was read and of the fetched frames is in it; and for
    a timestamp that was archived it is the archived row that is
    kept. *)
Theorem openmeteo_main_update new_data (E X out : DataFrame) :
  new_data ≠ [] →
  read_csv ["datetime_utc"] E = Ok X →
  openmeteo_main new_data (Some E) = Ok (Some out) →
  NoDup (column "datetime_utc" out) ∧
  Sorted (λ a b, time_le a b = true) (column "datetime_utc" out) ∧
  (∀ v, v ∈ column "datetime_utc" out ↔
        v ∈ column "datetime_utc" X ∨ v ∈ column "datetime_utc" (concat_all new_data)) ∧
  (∀ r' : Row, r' ∈ rows out →
     r' !!! "datetime_utc" ∈ column "datetime_utc" X → r' ∈ rows X).
Proof.
  intros Hne Hread Hm. unfold openmeteo_main in Hm.
  rewrite Hread, ok_bind in Hm.
  apply bind_Ok in Hm as (stamps & _ & Hm).
  destruct new_data as [|d0 ds] eqn:Hnew; [done|]. rewrite <- Hnew in *. clear Hne.
  cbn zeta in Hm.
  apply bind_Ok in Hm as (d1 & Hd1 & Hm).
  apply bind_Ok in Hm as (d2 & Hd2 & Hm). injection Hm as <-.
  pose proof (dedup_sort_NoDup _ _ _ _ _ Hd1 Hd2) as [Hperm Hnd].
  cbn [rows concat] in Hperm. rewrite drop_dups_app in Hperm.
  split; [|split; [|split]].
  - revert Hnd. unfold column. apply NoDup_fmap_refine.
    intros x y Hxy. cbn. by rewrite Hxy.
  - by eapply sort_values_column_sorted.
  - intros v. unfold column. rewrite <- elem_of_app, <- fmap_app.
    rewrite !elem_of_column_key, Hperm, <- drop_dups_app.
    apply drop_dups_keys.
  - intros r' Hr' Hv. rewrite Hperm in Hr'.
    apply elem_of_app in Hr' as [Hr'|Hr'].
    + by apply drop_dups_elem in Hr'.
    + apply list_elem_of_filter in Hr' as [Hn _]. destruct Hn.
      unfold column in Hv. by apply elem_of_column_key in Hv.
Qed.

(** X16. [append_hvo_data] leaves the archive alone when there is no new
    file, and copies the new file when there is no archive.  When both
    exist the new archive holds the rows of both as they are read, the
    archive first, each row once: no two of its rows agree on all
    columns, and a second run on an archive that is read back as it was
    written changes nothing. *)
Theorem append_hvo_data_union (raw file : DataFrame) (new X out : DataFrame) :
  (∀ archive, append_hvo_data None archive = Ok archive) ∧
  (read_csv [] raw = Ok new → append_hvo_data (Some raw) None = Ok (Some new)) ∧
  (read_csv [] raw = Ok new → read_csv [] file = Ok X →
   append_hvo_data (Some raw) (Some file) = Ok (Some out) →
   let whole := subset_key (columns out) in
   rows out = drop_dups whole (rows X ++ rows new) ∧
   NoDup (whole <$> rows out) ∧
   (∀ k, k ∈ whole <$> rows out ↔ k ∈ whole <$> (rows X ++ rows new)) ∧
   (read_csv [] out = Ok out →
    append_hvo_data (Some raw) (Some out) = Ok (Some out))).
Proof.
  split; [done|]. split.
  { intros Hraw. unfold append_hvo_data. by rewrite Hraw. }
  intros Hraw Hfile Hap whole.
  assert (Hout : out = drop_duplicates_all (concat X new)).
  { unfold append_hvo_data in Hap. rewrite Hraw, ok_bind, Hfile, ok_bind in Hap.
    by injection Hap. }
  assert (Hrows : rows out = drop_dups whole (rows X ++ rows new)).
  { unfold whole. by rewrite Hout. }
  split; [done|]. split; [|split].
  - rewrite Hrows. apply drop_dups_NoDup.
  - intros k. rewrite Hrows. apply drop_dups_keys.
  - intros Hback. by apply (append_hvo_data_idempotent raw file new out).
Qed.
End ArchivesMore.

(** X14 on an archive of one sample and a batch that repeats it and
    brings a new one: one row is added. *)
Lemma append_unique_archive_first_witness :
  append_unique SampleArchive.aqs_batch (Some SampleArchive.aqs_archive) =
    Ok (1, Some SampleUpdate.aqs_updated) ∧
  rows SampleUpdate.aqs_updated =
    rows SampleArchive.aqs_archive ++
    drop (length (rows SampleArchive.aqs_archive)) (rows SampleUpdate.aqs_updated).
Proof.
  assert (Hread : read_csv ["date_local"] SampleArchive.aqs_archive =
                  Ok SampleArchive.aqs_archive) by (vm_compute; reflexivity).
  assert (Hap : append_unique SampleArchive.aqs_batch (Some SampleArchive.aqs_archive) =
                Ok (1, Some SampleUpdate.aqs_updated)) by (vm_compute; reflexivity).
  split; [exact Hap|].
  destruct (append_unique_archive_first SampleArchive.aqs_batch
              SampleArchive.aqs_archive SampleArchive.aqs_archive
              SampleUpdate.aqs_updated 1 ltac:(discriminate) Hread Hap)
    as (_ & _ & _ & Hnd).
  apply Hnd. apply (bool_decide_unpack _). vm_compute. exact I.
Defined.

(** On an archive that holds its sample twice, the count reported for a
    batch that repeats the sample is negative. *)
Example append_unique_negative_count :
  match append_unique [SampleArchive.aqs_rec (Ts 1704067200) "00:00" 5]
          (Some SampleUpdate.aqs_doubled) with
  | Ok (n, Some out) => n = -1 ∧ length (rows out) = 1%nat
  | _ => False
  end.
Proof. vm_compute. split; reflexivity. Qed.

(** X15 on an archive of two hours and fetched frames that repeat one of
    them and bring a third. *)
Lemma openmeteo_main_update_witness :
  openmeteo_main SampleArchive.meteo_new (Some SampleArchive.meteo_archive) =
    Ok (Some SampleUpdate.meteo_updated) ∧
  NoDup (column "datetime_utc" SampleUpdate.meteo_updated) ∧
  Sorted (λ a b, time_le a b = true) (column "datetime_utc" SampleUpdate.meteo_updated).
Proof.
  assert (Hread : read_csv ["datetime_utc"] SampleArchive.meteo_archive =
                  Ok SampleArchive.meteo_archive) by (vm_compute; reflexivity).
  assert (Hm : openmeteo_main SampleArchive.meteo_new (Some SampleArchive.meteo_archive) =
               Ok (Some SampleUpdate.meteo_updated)) by (vm_compute; reflexivity).
  split; [exact Hm|].
  destruct (openmeteo_main_update SampleArchive.meteo_new SampleArchive.meteo_archive
              SampleArchive.meteo_archive SampleUpdate.meteo_updated
              ltac:(discriminate) Hread Hm)
    as (Hnd & Hs & _).
  split; [exact Hnd | exact Hs].
Defined.

(** X16 on an archive of three pulls and a new file that repeats the
    last of them and brings a fourth. *)
Lemma append_hvo_data_union_witness :
  append_hvo_data (Some SampleUpdate.hvo_latest) (Some SampleEdge.hvo_pulls) =
    Ok (Some SampleUpdate.hvo_history) ∧
  length (rows SampleUpdate.hvo_history) = 4%nat ∧
  NoDup (subset_key (columns SampleUpdate.hvo_history) <$> rows SampleUpdate.hvo_history) ∧
  append_hvo_data (Some SampleUpdate.hvo_latest) (Some SampleUpdate.hvo_history) =
    Ok (Some SampleUpdate.hvo_history).
Proof.
  assert (Hraw : read_csv [] SampleUpdate.hvo_latest = Ok SampleUpdate.hvo_latest)
    by (vm_compute; reflexivity).
  assert (Hfile : read_csv [] SampleEdge.hvo_pulls = Ok SampleEdge.hvo_pulls)
    by (vm_compute; reflexivity).
  assert (Hap : append_hvo_data (Some SampleUpdate.hvo_latest) (Some SampleEdge.hvo_pulls) =
                Ok (Some SampleUpdate.hvo_history)) by (vm_compute; reflexivity).
  assert (Hback : read_csv [] SampleUpdate.hvo_history = Ok SampleUpdate.hvo_history)
    by (vm_compute; reflexivity).
  destruct (append_hvo_data_union SampleUpdate.hvo_latest SampleEdge.hvo_pulls
              SampleUpdate.hvo_latest SampleEdge.hvo_pulls SampleUpdate.hvo_history)
    as (_ & _ & Hboth).
  destruct (Hboth Hraw Hfile Hap) as (_ & Hnd & _ & Hid).
  split; [exact Hap|]. split; [reflexivity|]. split; [exact Hnd | exact (Hid Hback)].
Defined.

(** ** Request windows *)

Lemma aqs_chunks_cover turns current end_date :
  end_date - current + 1 ≤ Z.of_nat turns →
  flat_map window_days (aqs_chunks turns current end_date) =
    seqZ current (end_date - current + 1) ∧
  Forall (λ w, w.1 ≤ w.2 < w.1 + CHUNK_DAYS) (aqs_chunks turns current end_date).
Proof.
  revert current. induction turns as [|turns IH]; intros current Hfuel.
  - cbn. split; [|constructor]. by rewrite seqZ_nil by lia.
  - cbn [aqs_chunks]. case_bool_decide as Hle.
    2: { split; [|constructor]. cbn. by rewrite seqZ_nil by lia. }
    cbn zeta. set (chunk_end := Z.min (current + (CHUNK_DAYS - 1)) end_date).
    assert (Hce : current ≤ chunk_end ≤ end_date ∧ chunk_end < current + CHUNK_DAYS)
      by (unfold chunk_end, CHUNK_DAYS; lia).
    destruct (IH (chunk_end + 1)) as [IHd IHf]; [lia|].
    split.
    + cbn [flat_map]. rewrite IHd. unfold window_days. cbn [fst snd].
      replace (end_date - current + 1)
        with ((chunk_end - current + 1) + (end_date - (chunk_end + 1) + 1)) by lia.
      rewrite (seqZ_app current (chunk_end - current + 1)
                 (end_date - (chunk_end + 1) + 1)) by lia.
      by replace (current + (chunk_end - current + 1)) with (chunk_end + 1) by lia.
    + constructor; [cbn; lia | done].
Qed.

Lemma aqs_chunks_enough t1 t2 current end_date :
  end_date - current + 1 ≤ Z.of_nat t1 →
  end_date - current + 1 ≤ Z.of_nat t2 →
  aqs_chunks t1 current end_date = aqs_chunks t2 current end_date.
Proof.
  revert t2 current. induction t1 as [|t1 IH]; intros t2 current H1 H2.
  - destruct t2 as [|t2]; [done|]. cbn. by rewrite bool_decide_eq_false_2 by lia.
  - destruct t2 as [|t2].
    + cbn. by rewrite bool_decide_eq_false_2 by lia.
    + cbn [aqs_chunks]. case_bool_decide; [|done]. cbn zeta. f_equal.
      apply IH; unfold CHUNK_DAYS; lia.
Qed.

(** X17. The chunk loop of [aqs_monthly.py] asks for every day from
    [start_date] to [end_date] exactly once, in order, in windows of at
    most thirty days that do not overlap; it asks for nothing when
    [start_date] is after [end_date].  As many turns as there are days
    are enough for the loop to end, and more turns change nothing. *)
Theorem aqs_monthly_windows_cover start_date end_date :
  flat_map window_days (aqs_monthly_windows start_date end_date) =
    seqZ start_date (end_date - start_date + 1) ∧
  Forall (λ w, w.1 ≤ w.2 < w.1 + CHUNK_DAYS)
    (aqs_monthly_windows start_date end_date) ∧
  ∀ turns, (Z.to_nat (end_date - start_date + 1) ≤ turns)%nat →
    aqs_chunks turns start_date end_date = aqs_monthly_windows start_date end_date.
Proof.
  unfold aqs_monthly_windows.
  destruct (aqs_chunks_cover (Z.to_nat (end_date - start_date + 1))
              start_date end_date) as [Hd Hf]; [lia|].
  split; [done|]. split; [done|].
  intros turns Ht. apply aqs_chunks_enough; lia.
Qed.

(** A span of 75 days is fetched in windows of 30, 30 and 15 days. *)
Example aqs_monthly_windows_75 :
  aqs_monthly_windows 19000 19074 = [(19000, 19029); (19030, 19059); (19060, 19074)].
Proof. vm_compute. reflexivity. Qed.

Lemma openmeteo_chunks_chain turns current end_date :
  current < end_date →
  end_date - current ≤ Z.of_nat turns * (31 * DAY) →
  let ws := openmeteo_chunks turns current end_date in
  (fst <$> ws) ++ [end_date] = current :: (snd <$> ws) ∧
  Forall (λ w, w.1 < w.2 ≤ w.1 + 31 * DAY) ws ∧
  ∀ d, current / DAY ≤ d ≤ end_date / DAY →
    ∃ w, w ∈ ws ∧ w.1 / DAY ≤ d ≤ w.2 / DAY.
Proof.
  revert current. induction turns as [|turns IH]; intros current Hlt Hfuel.
  { unfold DAY in *. lia. }
  cbn [openmeteo_chunks]. rewrite bool_decide_eq_true_2 by done. cbn zeta.
  set (chunk_end := Z.min (current + 31 * DAY) end_date).
  assert (Hce : current < chunk_end ≤ end_date ∧ chunk_end ≤ current + 31 * DAY)
    by (unfold chunk_end, DAY; lia).
  destruct (decide (chunk_end = end_date)) as [Heq|Hne].
  - assert (Hnil : openmeteo_chunks turns chunk_end end_date = []).
    { rewrite Heq. destruct turns; [done|]. cbn.
      by rewrite bool_decide_eq_false_2 by lia. }
    rewrite Hnil. cbn. split; [by rewrite Heq|]. split.
    + constructor; [cbn; lia | constructor].
    + intros d Hd. exists (current, chunk_end). split; [by left|].
      cbn. by rewrite Heq.
  - destruct (IH chunk_end) as (IHc & IHf & IHd).
    { lia. } { unfold chunk_end, DAY in *. lia. }
    split; [|split].
    + cbn [fmap list_fmap fst snd app]. f_equal. exact IHc.
    + constructor; [cbn; lia | done].
    + intros d Hd. destruct (decide (d ≤ chunk_end / DAY)) as [Hd1|Hd1].
      * exists (current, chunk_end). split; [by left|]. cbn. lia.
      * destruct (IHd d) as (w & Hw & Hwd); [lia|].
        exists w. split; [by right | done].
Qed.

Lemma openmeteo_chunks_enough t1 t2 current end_date :
  end_date - current ≤ Z.of_nat t1 * (31 * DAY) →
  end_date - current ≤ Z.of_nat t2 * (31 * DAY) →
  openmeteo_chunks t1 current end_date = openmeteo_chunks t2 current end_date.
Proof.
  revert t2 current. induction t1 as [|t1 IH]; intros t2 current H1 H2.
  - destruct t2 as [|t2]; [done|]. cbn. by rewrite bool_decide_eq_false_2 by lia.
  - destruct t2 as [|t2].
    + cbn. by rewrite bool_decide_eq_false_2 by lia.
    + cbn [openmeteo_chunks]. case_bool_decide; [|done]. cbn zeta. f_equal.
      apply IH; unfold DAY in *; lia.
Qed.

(** X18. For a start before the end, the chunk loop of
    [openmeteo_recent.main] hands [fetch_chunk] windows of at most 31
    days that follow one another without a gap from the start to the
    end: each window begins at the instant the one before it ends, so
    that the day of that instant is asked for twice, and every day from
    the day of the start to the day of the end is asked for.  One turn
    more than the span holds whole windows is enough for the loop to
    end. *)
Theorem openmeteo_windows_chain start_date end_date :
  start_date < end_date →
  let ws := openmeteo_windows start_date end_date in
  (fst <$> ws) ++ [end_date] = start_date :: (snd <$> ws) ∧
  Forall (λ w, w.1 < w.2 ≤ w.1 + 31 * DAY) ws ∧
  (∀ d, start_date / DAY ≤ d ≤ end_date / DAY →
     ∃ w, w ∈ ws ∧ w.1 / DAY ≤ d ≤ w.2 / DAY) ∧
  ∀ turns,
    (Z.to_nat ((end_date - start_date) / (31 * DAY) + 1) ≤ turns)%nat →
    openmeteo_chunks turns start_date end_date = ws.
Proof.
  intros Hlt. cbn zeta. unfold openmeteo_windows.
  set (n := Z.to_nat ((end_date - start_date) / (31 * DAY) + 1)).
  assert (Hfuel : end_date - start_date ≤ Z.of_nat n * (31 * DAY)).
  { unfold n, DAY in *.
    pose proof (Z.div_mod (end_date - start_date) (31 * 86400) ltac:(lia)).
    pose proof (Z.mod_pos_bound (end_date - start_date) (31 * 86400) ltac:(lia)).
    pose proof (Z.div_pos (end_date - start_date) (31 * 86400) ltac:(lia) ltac:(lia)).
    rewrite Z2Nat.id by lia. lia. }
  destruct (openmeteo_chunks_chain n start_date end_date Hlt Hfuel) as (Hc & Hf & Hd).
  split; [done|]. split; [done|]. split; [done|].
  intros turns Ht. apply openmeteo_chunks_enough; [|done].
  assert (Z.of_nat n ≤ Z.of_nat turns) by lia. unfold DAY in *. nia.
Qed.

(** X18 on a span of forty days. *)
Lemma openmeteo_windows_chain_witness :
  1704067200 < 1707523200 ∧
  openmeteo_windows 1704067200 1707523200 =
    [(1704067200, 1706745600); (1706745600, 1707523200)] ∧
  (fst <$> openmeteo_windows 1704067200 1707523200) ++ [1707523200] =
    1704067200 :: (snd <$> openmeteo_windows 1704067200 1707523200).
Proof.
  split; [lia|]. split; [vm_compute; reflexivity|].
  apply (openmeteo_windows_chain 1704067200 1707523200). lia.
Defined.

Lemma windows_chain (f : nat → Z * Z) (n : nat) :
  (∀ i, (S i < n)%nat → (f i).2 = (f (S i)).1) →
  (0 < n)%nat →
  (fst <$> (f <$> seq 0 n)) ++ [(f (n - 1)%nat).2] =
    (f 0%nat).1 :: (snd <$> (f <$> seq 0 n)).
Proof.
  induction n as [|m IH]; intros Hnext Hpos; [lia|].
  destruct m as [|k]; [done|].
  rewrite seq_S, !fmap_app. cbn [fmap list_fmap Nat.add].
  replace (S (S k) - 1)%nat with (S k) by lia.
  rewrite <- (Hnext k) by lia.
  replace k with (S k - 1)%nat at 2 by lia.
  rewrite IH; [done| |lia].
  intros i Hi. apply Hnext. lia.
Qed.

(** X19. [fetch_sensor_history] of [purpleair.py] asks for nothing when
    the span from [start] to [end] holds no whole day.  Otherwise its
    windows are at most thirty days long and follow one another without
    a gap from [start] to an instant [stop] less than a day before
    [end]; [stop] is [end] itself unless the whole days of the span are
    a multiple of thirty and a part of a day is left over, in which case
    that part is never asked for. *)
Theorem history_windows_chain start end_ :
  let total_days := (end_ - start) / DAY in
  let ws := history_windows start end_ in
  (total_days ≤ 0 → ws = []) ∧
  (0 < total_days →
   ∃ stop,
     (fst <$> ws) ++ [stop] = start :: (snd <$> ws) ∧
     Forall (λ w, w.1 < w.2 ≤ w.1 + 30 * DAY) ws ∧
     end_ - DAY < stop ≤ end_ ∧
     (stop = end_ ↔ total_days `mod` 30 ≠ 0 ∨ (end_ - start) `mod` DAY = 0)).
Proof.
  cbn zeta. unfold history_windows. cbn zeta.
  set (total_days := (end_ - start) / DAY).
  set (chunks := - (- total_days / 30)).
  set (f := λ i : nat,
         (start + Z.of_nat i * 30 * DAY,
          Z.min (start + Z.of_nat i * 30 * DAY + 30 * DAY) end_)).
  assert (Hday : total_days * DAY ≤ end_ - start < total_days * DAY + DAY ∧
                 (end_ - start) `mod` DAY = end_ - start - total_days * DAY).
  { unfold total_days, DAY.
    pose proof (Z.div_mod (end_ - start) 86400 ltac:(lia)).
    pose proof (Z.mod_pos_bound (end_ - start) 86400 ltac:(lia)). lia. }
  assert (Hn : 30 * (chunks - 1) < total_days ≤ 30 * chunks ∧
               (total_days `mod` 30 = 0 ↔ total_days = 30 * chunks)).
  { unfold chunks.
    pose proof (Z.div_mod (- total_days) 30 ltac:(lia)).
    pose proof (Z.mod_pos_bound (- total_days) 30 ltac:(lia)).
    pose proof (Z.div_mod total_days 30 ltac:(lia)).
    pose proof (Z.mod_pos_bound total_days 30 ltac:(lia)). lia. }
  destruct Hday as [Hday Hrem], Hn as [Hn Hmul].
  split.
  - intros Hle. replace (Z.to_nat chunks) with 0%nat by lia. done.
  - intros Hpos.
    assert (Hlt : ∀ i, (i < Z.to_nat chunks)%nat →
              start + Z.of_nat i * 30 * DAY < end_).
    { intros i Hi. unfold DAY in *. nia. }
    exists (f (Z.to_nat chunks - 1)%nat).2. split; [|split; [|split]].
    + assert (Hf0 : (f 0%nat).1 = start) by (unfold f; cbn [fst]; lia).
      rewrite (windows_chain f); [by rewrite Hf0| |lia].
      intros i Hi. unfold f. cbn [fst snd].
      pose proof (Hlt (S i) Hi). lia.
    + apply Forall_fmap, Forall_forall. intros i Hi%elem_of_seq.
      cbn. pose proof (Hlt i ltac:(lia)). unfold DAY in *. lia.
    + unfold f. cbn [snd].
      replace (Z.of_nat (Z.to_nat chunks - 1)) with (chunks - 1) by lia.
      unfold DAY in *. lia.
    + unfold f. cbn [snd].
      replace (Z.of_nat (Z.to_nat chunks - 1)) with (chunks - 1) by lia.
      rewrite Hrem. unfold DAY in *. lia.
Qed.

(** Ninety days and six hours: three windows of thirty days, and the
    last six hours are left out. *)
Example history_windows_tail :
  history_windows 1704067200 (1704067200 + 90 * 86400 + 21600) =
    [(1704067200, 1706659200); (1706659200, 1709251200);
     (1709251200, 1711843200)].
Proof. vm_compute. reflexivity. Qed.

Lemma year_windows_cover (l : list Z) (a b : Z) :
  StronglySorted Z.lt l → head l = Some a → last l = Some b →
  a ≤ b ∧
  flat_map window_days
    ((λ i : nat, (l !!! i, l !!! S i - 1)) <$> seq 0 (length l - 1)) =
  seqZ a (b - a).
Proof.
  revert a. induction l as [|x l IH]; intros a Hs Ha Hb; [done|].
  injection Ha as <-. apply StronglySorted_inv in Hs as [Hs Hx].
  destruct l as [|y l].
  - injection Hb as <-. split; [lia|]. cbn. by rewrite seqZ_nil by lia.
  - destruct (IH y Hs eq_refl Hb) as [Hyb IHd].
    assert (Hxy : x < y) by (by apply Forall_cons in Hx as [? _]).
    split; [lia|].
    cbn [length]. replace (S (S (length l)) - 1)%nat with (S (length l)) by lia.
    cbn [seq fmap list_fmap flat_map]. rewrite <- fmap_S_seq, <- list_fmap_compose.
    cbn [length] in IHd.
    replace (S (length l) - 1)%nat with (length l) in IHd by lia.
    replace (b - x) with ((y - x) + (b - y)) by lia.
    rewrite (seqZ_app x (y - x) (b - y)) by lia.
    replace (x + (y - x)) with y by lia. rewrite <- IHd.
    f_equal. unfold window_days. cbn [fst snd].
    change ((x :: y :: l) !!! 0%nat) with x.
    change ((x :: y :: l) !!! 1%nat) with y.
    f_equal. lia.
Qed.

(** X20. The backfill of [aqs.py] fails with an [IndexError] when no
    year begins within its range.  Otherwise, for the year starts in
    rising order and none after [end_date], it asks for every day from
    the first year start to the day before [end_date] exactly once and
    in order: [end_date] itself, and the days of the range before the
    first year start, are never asked for. *)
Theorem backfill_windows_cover years end_date :
  (years = [] → backfill_windows years end_date = Raise IndexError) ∧
  (∀ first, head years = Some first →
     StronglySorted Z.lt years → Forall (λ y, y ≤ end_date) years →
     ∃ ws, backfill_windows years end_date = Ok ws ∧
       flat_map window_days ws = seqZ first (end_date - first)).
Proof.
  split; [by intros ->|].
  intros first Hh Hs Hle. unfold backfill_windows.
  destruct (last years) as [newest|] eqn:Hl.
  2: { apply last_None in Hl. by subst. }
  eexists. split; [done|].
  case_bool_decide as Hne.
  - apply (year_windows_cover _ first end_date).
    + apply StronglySorted_app_2; [|done|repeat constructor].
      intros y1 y2 Hy1 ->%list_elem_of_singleton.
      apply last_Some in Hl as [l' ->].
      rewrite Forall_app, Forall_singleton in Hle.
      apply elem_of_app in Hy1 as [Hy1| ->%list_elem_of_singleton]; [|lia].
      apply StronglySorted_app_1_elem_of with (x1 := y1) (x2 := newest) in Hs;
        [lia|done|by left].
    + by destruct years.
    + by rewrite last_snoc.
  - assert (newest = end_date) as -> by (destruct (decide (newest = end_date)); tauto).
    by apply (year_windows_cover _ first end_date).
Qed.

(** X20 for a range from 2 November 2021 to 2 November 2023, in which
    the years 2022 and 2023 begin: the first sixty days of the range
    and its last day are not asked for. *)
Lemma backfill_windows_cover_witness :
  backfill_windows [18993; 19358] 19663 =
    Ok [(18993, 19357); (19358, 19662)] ∧
  ∃ ws, backfill_windows [18993; 19358] 19663 = Ok ws ∧
    flat_map window_days ws = seqZ 18993 (19663 - 18993).
Proof.
  split; [vm_compute; reflexivity|].
  apply (proj2 (backfill_windows_cover [18993; 19358] 19663) 18993).
  - reflexivity.
  - repeat constructor; lia.
  - repeat constructor; lia.
Defined.

(** ** Rows that repeat archived rows *)

Lemma absorbed_fmap {K K' : Type} (k : Row → K) (k' : Row → K') (G : Row → Row)
    (a b a' b' : DataFrame) :
  (∀ r1 r2 : Row, k r1 = k r2 → k' (G r1) = k' (G r2)) →
  absorbed k a b →
  columns b' = columns a' → rows a' = G <$> rows a → rows b' = G <$> rows b →
  absorbed k' a' b'.
Proof.
  intros HG [Hc (extra & Hr & Hin)] Hc' Ha Hb. split; [done|].
  exists (G <$> extra). split; [by rewrite Hb, Hr, fmap_app, Ha|].
  intros r' (r & -> & Hr')%list_elem_of_fmap.
  apply Hin, list_elem_of_fmap in Hr' as (r0 & Hk & Hr0).
  rewrite Ha, <- list_fmap_compose. apply list_elem_of_fmap.
  exists r0. split; [by apply HG | done].
Qed.

Lemma absorbed_rowwise {K' : Type} (k' : Row → K') (G : Row → Row)
    (a b a' b' : DataFrame) :
  absorbed id a b →
  columns b' = columns a' → rows a' = G <$> rows a → rows b' = G <$> rows b →
  absorbed k' a' b'.
Proof.
  apply absorbed_fmap. intros r1 r2 Hr. unfold id in Hr. by rewrite Hr.
Qed.

Lemma absorbed_drop_duplicates subset (a b : DataFrame) :
  absorbed (subset_key subset) a b →
  drop_duplicates subset b = drop_duplicates subset a.
Proof.
  intros [Hc (extra & Hr & Hin)]. unfold drop_duplicates.
  rewrite (missing_column_columns subset b a Hc).
  destruct (missing_column subset a); [done|].
  by rewrite Hc, Hr, drop_dups_known.
Qed.

Lemma absorbed_append {K : Type} (k : Row → K) (a : DataFrame) extra :
  (∀ r, r ∈ extra → k r ∈ k <$> rows a) →
  absorbed k a (mkDF (columns a) (rows a ++ extra)).
Proof. intros Hin. split; [done|]. by exists extra. Qed.

Lemma absorbed_id_elem (a b : DataFrame) (r : Row) :
  absorbed id a b → r ∈ rows b → r ∈ rows a.
Proof.
  intros [_ (extra & Hr & Hin)]. rewrite Hr, elem_of_app. intros [|Hx]; [done|].
  apply Hin in Hx. by rewrite list_fmap_id in Hx.
Qed.

Section Absorb.
Context `{Scalars}.

Lemma clean_airnow_Ok_inv (df out : DataFrame) :
  clean_airnow df = Ok out →
  ∃ headed, fix_header df = Ok headed ∧
    has_column "DateObserved" headed = true ∧
    has_column "HourObserved" headed = true ∧
    ∀ r, r ∈ rows headed → is_ok (airnow_combined r) = true.
Proof.
  unfold clean_airnow. intros Hc.
  apply bind_Ok in Hc as (headed & Hh & Hc).
  apply bind_Ok in Hc as (date & Hdate & Hc).
  apply bind_Ok in Hc as (left & Hleft & Hc).
  apply bind_Ok in Hc as (hour & Hhour & Hc).
  apply bind_Ok in Hc as (comb & Hcomb & _).
  apply getcol_Ok in Hdate as [HD ->]. apply getcol_Ok in Hhour as [HH ->].
  rewrite <- list_fmap_compose in Hcomb.
  pose proof (combined_rows _ _ _ _ _ _ _ Hleft Hcomb) as Hf.
  exists headed. unfold has_column. rewrite !bool_decide_eq_true_2 by done.
  repeat split; [done|]. intros r Hr.
  destruct (Forall2_elem_of_l _ _ _ _ Hf Hr) as (v & _ & Hv).
  unfold compose in Hv. cbn beta in Hv. unfold airnow_combined. by rewrite Hv.
Qed.

(** [clean_airnow] when every row has a text to parse: the rows are
    stamped one by one. *)
Lemma clean_airnow_eval (df headed : DataFrame) :
  fix_header df = Ok headed →
  has_column "DateObserved" headed = true →
  has_column "HourObserved" headed = true →
  (∀ r, r ∈ rows headed → is_ok (airnow_combined r) = true) →
  clean_airnow df =
    (d ← drop_duplicates AIRNOW_KEY
           (drop_columns AIRNOW_DROPPED
              (assign "datetime_utc"
                 (λ r, to_datetime (unwrap (airnow_combined r))) headed));
     sort_values "datetime_utc" d).
Proof.
  intros Hfix HD HH Hok. unfold clean_airnow. rewrite Hfix, ok_bind.
  rewrite (getcol_has "DateObserved") by done. rewrite ok_bind.
  rewrite (mapR_unwrap (str_add_lit " ")).
  2: { intros x (r & -> & Hr)%list_elem_of_fmap. specialize (Hok r Hr).
       unfold airnow_combined in Hok.
       by destruct (str_add_lit " " (r !!! "DateObserved")). }
  rewrite ok_bind. rewrite (getcol_has "HourObserved") by done. rewrite ok_bind.
  rewrite <- !list_fmap_compose, zip_fmap_self.
  rewrite (mapR_unwrap (λ p, str_add p.1 p.2)).
  2: { intros x (r & -> & Hr)%list_elem_of_fmap. specialize (Hok r Hr).
       unfold airnow_combined in Hok. unfold compose. cbn [fst snd].
       by destruct (str_add_lit " " (r !!! "DateObserved")). }
  rewrite ok_bind. cbn zeta. do 3 f_equal.
  unfold assign_values, assign. f_equal.
  rewrite <- !list_fmap_compose, zip_with_fmap_self.
  apply Forall_fmap_ext_1, Forall_forall. intros r Hr. specialize (Hok r Hr).
  unfold compose, airnow_combined in *. cbn [fst snd].
  by destruct (str_add_lit " " (r !!! "DateObserved")).
Qed.

Lemma fix_header_absorbed (a b headed : DataFrame) :
  absorbed id a b → fix_header a = Ok headed →
  ∃ headed', fix_header b = Ok headed' ∧ absorbed id headed headed'.
Proof.
  intros Hab Hfix. pose proof Hab as [Hc (extra & Hr & Hin)].
  unfold fix_header in *.
  assert (H1 : first_column b = first_column a)
    by (unfold first_column; by rewrite Hc).
  rewrite H1. destruct (first_column a) as [c0|e]; [|done].
  rewrite ok_bind in *.
  assert (H2 : iloc00 a = Raise IndexError ∨ iloc00 b = iloc00 a).
  { unfold iloc00. rewrite Hc, Hr. destruct (columns a); [by left|].
    destruct (rows a); [by left | by right]. }
  destruct H2 as [H2|H2]; [by rewrite H2 in Hfix|]. rewrite H2.
  destruct (iloc00 a) as [v0|e]; [|done]. rewrite ok_bind in *.
  destruct (decide (Str c0 = v0)).
  - unfold set_columns in *. rewrite Hc.
    destruct (decide (length AIRNOW_HEADER = length (columns a))); [|done].
    injection Hfix as <-. eexists. split; [done|].
    eapply (absorbed_rowwise id
              (λ r : Row, list_to_map (zip AIRNOW_HEADER (subset_key (columns a) r))));
      [exact Hab | done | done | done].
  - injection Hfix as <-. by exists b.
Qed.

Lemma clean_airnow_absorbed (a b out : DataFrame) :
  absorbed id a b → clean_airnow a = Ok out → clean_airnow b = Ok out.
Proof.
  intros Hab Hc.
  destruct (clean_airnow_Ok_inv a out Hc) as (headed & Hfix & HD & HH & Hok).
  destruct (fix_header_absorbed a b headed Hab Hfix) as (headed' & Hfix' & Hh).
  pose proof Hh as [Hcols _].
  rewrite (clean_airnow_eval a headed) in Hc by done.
  rewrite (clean_airnow_eval b headed'); cycle 1.
  { done. }
  { unfold has_column in *. by rewrite Hcols. }
  { unfold has_column in *. by rewrite Hcols. }
  { intros r Hr. apply Hok. by eapply absorbed_id_elem. }
  rewrite <- Hc. f_equal. apply absorbed_drop_duplicates.
  eapply absorbed_rowwise; [exact Hh | | |].
  - unfold drop_columns, assign, has_column. cbn [columns]. by rewrite Hcols.
  - cbn [rows drop_columns assign]. by rewrite <- list_fmap_compose.
  - cbn [rows drop_columns assign]. by rewrite <- list_fmap_compose.
Qed.
Lemma purpleair_from_absorbed src (a b out : DataFrame) :
  absorbed id a b → purpleair_from src a = Ok out → purpleair_from src b = Ok out.
Proof.
  intros Hab Hc. pose proof Hab as [Hcols _].
  assert (Hok : is_ok (purpleair_from src a) = true) by (by rewrite Hc).
  apply purpleair_from_ok_iff in Hok as (Hsrc & _ & Hok).
  rewrite purpleair_from_eval in Hc by done.
  rewrite purpleair_from_eval; cycle 1.
  { by rewrite (has_column_columns src b a). }
  { intros r Hr. apply Hok. by eapply absorbed_id_elem. }
  rewrite <- Hc. f_equal. apply absorbed_drop_duplicates.
  eapply absorbed_rowwise; [exact Hab | | |].
  - unfold drop_columns, assign, has_column. cbn [columns]. by rewrite Hcols.
  - cbn [rows drop_columns assign]. by rewrite <- list_fmap_compose.
  - cbn [rows drop_columns assign]. by rewrite <- list_fmap_compose.
Qed.

Lemma clean_purpleair_absorbed (a b out : DataFrame) :
  absorbed id a b → clean_purpleair a = Ok out → clean_purpleair b = Ok out.
Proof.
  intros Hab. pose proof Hab as [Hcols _].
  rewrite !clean_purpleair_unfold.
  rewrite !(has_column_columns _ b a Hcols).
  destruct (has_column "time_stamp" a); [by apply purpleair_from_absorbed|].
  destruct (has_column "last_seen" a); [by apply purpleair_from_absorbed|done].
Qed.

Lemma getcol_frame c cols (rs : list Row) :
  getcol c (mkDF cols rs) =
  if bool_decide (c ∈ cols) then Ok ((λ r : Row, r !!! c) <$> rs)
  else Raise (KeyError c).
Proof. reflexivity. Qed.

Lemma clean_hvo_absorbed (a b : DataFrame) :
  absorbed (λ r : Row, r !!! "noticeId") a b → clean_hvo b = clean_hvo a.
Proof.
  intros Hab. pose proof Hab as [Hcols _].
  unfold clean_hvo. cbn zeta. rewrite !parse_if_present_fold.
  assert (HP : (λ r : Row,
                  foldl (λ (r : Row) col,
                           if has_column col b
                           then <[col := to_datetime (r !!! col)]> r else r)
                        r ["timestamp_utc"; "alertDate"; "colorDate"]) =
               (λ r : Row,
                  foldl (λ (r : Row) col,
                           if has_column col a
                           then <[col := to_datetime (r !!! col)]> r else r)
                        r ["timestamp_utc"; "alertDate"; "colorDate"])).
  { unfold has_column. by rewrite Hcols. }
  rewrite HP, Hcols. clear HP.
  set (P := λ r : Row, foldl _ r _).
  rewrite !getcol_frame.
  destruct (bool_decide ("timestamp_utc" ∈ columns a)); [|done].
  rewrite !ok_bind.
  assert (Hid : ∀ r : Row,
            foldr delete (<["datetime_utc" := P r !!! "timestamp_utc"]> (P r))
              ["timestamp_utc"] !!! "noticeId" = r !!! "noticeId").
  { intros r. cbn [foldr].
    rewrite lookup_total_delete_ne, lookup_total_insert_ne by done.
    unfold P. rewrite fold_convert_lookup_total.
    2: { apply (bool_decide_unpack _). vm_compute. exact I. }
    rewrite bool_decide_eq_false_2; [done|].
    apply (bool_decide_unpack _). vm_compute. exact I. }
  rewrite (absorbed_drop_duplicates ["noticeId"]
             (drop_columns ["timestamp_utc"]
                (assign_values "datetime_utc"
                   ((λ r : Row, r !!! "timestamp_utc") <$> (P <$> rows a))
                   (mkDF (columns a) (P <$> rows a))))); [done|].
  eapply (absorbed_fmap (λ r : Row, r !!! "noticeId") _
            (λ r : Row, foldr delete
               (<["datetime_utc" := P r !!! "timestamp_utc"]> (P r))
               ["timestamp_utc"])); [|exact Hab|done| |].
  - intros r1 r2 Hr. cbn [subset_key fmap list_fmap]. by rewrite !Hid, Hr.
  - cbn [rows drop_columns assign_values].
    by rewrite zip_with_fmap_self, <- !list_fmap_compose.
  - cbn [rows drop_columns assign_values].
    by rewrite zip_with_fmap_self, <- !list_fmap_compose.
Qed.

(** X21. [clean_airnow] does not see rows that repeat rows of the frame:
    when it returns a frame, it returns the same frame after rows that
    the input already holds are appended to the input, as a repeated
    run of the daily AirNow pull leaves them in the archive. *)
Theorem clean_airnow_repeated_rows (df out : DataFrame) (more : list Row) :
  clean_airnow df = Ok out →
  (∀ r, r ∈ more → r ∈ rows df) →
  clean_airnow (mkDF (columns df) (rows df ++ more)) = Ok out.
Proof.
  intros Hc Hin. apply (clean_airnow_absorbed df); [|done].
  apply absorbed_append. intros r Hr. rewrite list_fmap_id. by apply Hin.
Qed.

(** X22. [clean_hvo] does not see later pulls of a notice the frame
    holds: for rows appended to the input whose [noticeId] occurs in it
    already, it returns what it returns without them, or fails as it
    fails without them. *)
Theorem clean_hvo_known_notices (df : DataFrame) (more : list Row) :
  (∀ r : Row, r ∈ more → r !!! "noticeId" ∈ column "noticeId" df) →
  clean_hvo (mkDF (columns df) (rows df ++ more)) = clean_hvo df.
Proof.
  intros Hin. apply clean_hvo_absorbed. by apply absorbed_append.
Qed.

(** X23. [clean_purpleair] does not see rows that repeat rows of the
    frame: when it returns a frame, it returns the same frame after rows
    that the input already holds are appended to the input. *)
Theorem clean_purpleair_repeated_rows (df out : DataFrame) (more : list Row) :
  clean_purpleair df = Ok out →
  (∀ r, r ∈ more → r ∈ rows df) →
  clean_purpleair (mkDF (columns df) (rows df ++ more)) = Ok out.
Proof.
  intros Hc Hin. apply (clean_purpleair_absorbed df); [|done].
  apply absorbed_append. intros r Hr. rewrite list_fmap_id. by apply Hin.
Qed.
End Absorb.

(** X21 on the sample observations, of which two are appended again. *)
Lemma clean_airnow_repeated_rows_witness :
  ∃ out, clean_airnow SampleAirnow.mixed = Ok out ∧
    length (rows out) = 2%nat ∧
    clean_airnow
      (mkDF (columns SampleAirnow.mixed)
         (rows SampleAirnow.mixed ++ [SampleAirnow.good; SampleAirnow.bad])) = Ok out.
Proof.
  eval_ok (clean_airnow SampleAirnow.mixed) out Hc.
  exists out. split; [exact Hc|]. split.
  { assert (Hl : (d ← clean_airnow SampleAirnow.mixed; Ok (length (rows d))) = Ok 2%nat)
      by (vm_compute; reflexivity).
    rewrite Hc in Hl. by injection Hl. }
  apply clean_airnow_repeated_rows; [exact Hc|].
  intros r Hr. unfold SampleAirnow.mixed. cbn [rows].
  apply elem_of_cons in Hr as [->|Hr]; [by left|].
  apply list_elem_of_singleton in Hr as ->. right. by left.
Defined.

(** X22 on the sample archive and a fourth pull that finds the second
    notice again, under another alert level. *)
Lemma clean_hvo_known_notices_witness :
  clean_hvo
    (mkDF (columns SampleEdge.hvo_pulls)
       (rows SampleEdge.hvo_pulls ++
        [SampleHvo.notice "2024-01-01 04:00:00" "n2" "WARNING" "RED"])) =
  clean_hvo SampleEdge.hvo_pulls ∧
  is_ok (clean_hvo SampleEdge.hvo_pulls) = true.
Proof.
  split; [|vm_compute; reflexivity].
  apply clean_hvo_known_notices.
  intros r ->%list_elem_of_singleton. vm_compute. repeat constructor.
Defined.

(** X23 on the sample readings, of which the first is appended again. *)
Lemma clean_purpleair_repeated_rows_witness :
  ∃ out, clean_purpleair SamplePurple.both = Ok out ∧
    clean_purpleair
      (mkDF (columns SamplePurple.both)
         (rows SamplePurple.both ++
          [SamplePurple.reading 7 1704070000 1704080000 12])) = Ok out.
Proof.
  eval_ok (clean_purpleair SamplePurple.both) out Hc.
  exists out. split; [exact Hc|].
  apply clean_purpleair_repeated_rows; [exact Hc|].
  intros r ->%list_elem_of_singleton. unfold SamplePurple.both. cbn [rows].
  by left.
Defined.
